(** * LaunchPad: suite reconciliation and build orchestration

    A shallow embedding of [LaunchpadSidebarProvider] (version comparison,
    the suite scan with its staleness test and status classification, the
    "compile all" and "install suite" loops), followed by the properties
    of the specification that concern them.

    Conventions.
    - Strings are [string]s of 8-bit characters: the model covers ASCII
      text (paths, package names, version strings).
    - A JavaScript number is a [JS.number]: NaN, an infinity, or a finite
      value kept as a rational (every finite double is one; +0 and -0 are
      not told apart, the code never distinguishes them).
    - [FileStat.mtime] is an integral number of milliseconds, a [Z].
    - [try]/[catch] over mutable locals is a state monad with exceptions in
      which the state survives a throw, as assignments do in JavaScript. *)

From Stdlib Require Import ZArith QArith String Ascii List Bool Lia DecimalString.
Import ListNotations.

Local Open Scope string_scope.
Local Open Scope Z_scope.

(* ===================================================================== *)
(** ** JavaScript values used by the code *)
(* ===================================================================== *)

Module JS.

(** The Number type, up to the sign of zero. *)
Inductive number : Type :=
| NaN
| Infinity (negative : bool)
| Finite (q : Q).

(** [x < y] on numbers: false as soon as one side is NaN. *)
Definition lt (x y : number) : bool :=
  match x, y with
  | NaN, _ | _, NaN => false
  | Infinity true, Infinity true => false
  | Infinity true, _ => true
  | _, Infinity true => false
  | Infinity false, _ => false
  | Finite _, Infinity false => true
  | Finite a, Finite b => match (a ?= b)%Q with Lt => true | _ => false end
  end.

(** [x > y] is [y < x]. *)
Definition gt (x y : number) : bool := lt y x.

(** ToBoolean on a number: NaN and zero are falsy. *)
Definition truthy (x : number) : bool :=
  match x with
  | NaN => false
  | Infinity _ => true
  | Finite q => negb (Qeq_bool q 0)
  end.

(** [x || 0] where [x] is an array element that may be [undefined]
    ([None]: the index is past the end of the array). *)
Definition orZero (x : option number) : number :=
  match x with
  | Some n => if truthy n then n else Finite 0
  | None => Finite 0
  end.

(** ToBoolean on a string: only the empty string is falsy. *)
Definition truthyString (s : string) : bool :=
  match s with
  | EmptyString => false
  | String _ _ => true
  end.

(** ToBoolean on an optional string property ([undefined] when absent). *)
Definition truthyProp (s : option string) : bool :=
  match s with
  | Some v => truthyString v
  | None => false
  end.

(** [String.prototype.split] with a one-character separator. The result
    is never empty: a string without the separator is its own only part. *)
Fixpoint split (sep : ascii) (s : string) : list string :=
  match s with
  | EmptyString => [EmptyString]
  | String c r =>
      if Ascii.eqb c sep then EmptyString :: split sep r
      else match split sep r with
           | h :: t => String c h :: t
           | [] => [String c EmptyString]
           end
  end.

(** [Array.prototype.join] with a one-character separator. *)
Fixpoint join (sep : ascii) (l : list string) : string :=
  match l with
  | [] => EmptyString
  | [x] => x
  | x :: r => x ++ String sep (join sep r)
  end.

(** *** The Number constructor applied to a string (StringToNumber) *)

(** StrWhiteSpaceChar, ASCII part: TAB, LF, VT, FF, CR, SP. *)
Definition isWhiteSpace (c : ascii) : bool :=
  let n := nat_of_ascii c in
  ((9 <=? n)%nat && (n <=? 13)%nat) || (n =? 32)%nat.

Fixpoint trimStart (s : string) : string :=
  match s with
  | String c r => if isWhiteSpace c then trimStart r else s
  | EmptyString => EmptyString
  end.

Fixpoint trimEnd (s : string) : string :=
  match s with
  | EmptyString => EmptyString
  | String c r =>
      match trimEnd r with
      | EmptyString => if isWhiteSpace c then EmptyString else String c EmptyString
      | r' => String c r'
      end
  end.

Definition trim (s : string) : string := trimEnd (trimStart s).

(** Value of a digit in the given radix (letters in either case). *)
Definition digitValue (radix : Z) (c : ascii) : option Z :=
  let n := Z.of_nat (nat_of_ascii c) in
  let v := if (48 <=? n) && (n <=? 57) then Some (n - 48)
           else if (97 <=? n) && (n <=? 122) then Some (n - 87)
           else if (65 <=? n) && (n <=? 90) then Some (n - 55)
           else None in
  match v with
  | Some d => if d <? radix then Some d else None
  | None => None
  end.

(** Reads the longest prefix of digits after the value [acc] already
    read: (value, number of digits seen so far, rest of the string). *)
Fixpoint readDigits (radix : Z) (s : string) (acc : Z) (count : Z)
  : Z * Z * string :=
  match s with
  | String c r =>
      match digitValue radix c with
      | Some d => readDigits radix r (acc * radix + d) (count + 1)
      | None => (acc, count, s)
      end
  | EmptyString => (acc, count, s)
  end.

(** A non-empty string made of digits only. *)
Definition allDigits (radix : Z) (s : string) : option Z :=
  match readDigits radix s 0 0 with
  | (v, n, EmptyString) => if 0 <? n then Some v else None
  | _ => None
  end.

(** NonDecimalIntegerLiteral: 0x.., 0o.., 0b.. (no sign allowed). *)
Definition nonDecimalLiteral (s : string) : option Z :=
  match s with
  | String "0" (String p r) =>
      if Ascii.eqb p "x" || Ascii.eqb p "X" then allDigits 16 r
      else if Ascii.eqb p "o" || Ascii.eqb p "O" then allDigits 8 r
      else if Ascii.eqb p "b" || Ascii.eqb p "B" then allDigits 2 r
      else None
  | _ => None
  end.

(** ExponentPart after the mantissa: nothing, or e/E, an optional sign
    and at least one digit, up to the end of the string. *)
Definition exponentPart (s : string) : option Z :=
  match s with
  | EmptyString => Some 0
  | String c r =>
      if Ascii.eqb c "e" || Ascii.eqb c "E" then
        match r with
        | String "+" d => allDigits 10 d
        | String "-" d => option_map Z.opp (allDigits 10 d)
        | d => allDigits 10 d
        end
      else None
  end.

(** The mathematical value [m * 10^e] as a rational. *)
Definition scale10 (m e : Z) : Q :=
  if 0 <=? e then inject_Z (m * 10 ^ e)
  else Qmake m (Z.to_pos (10 ^ (- e))).

(** StrUnsignedDecimalLiteral other than "Infinity": digits, an optional
    fraction, an optional exponent; at least one digit in the mantissa. *)
Definition unsignedDecimal (s : string) : option Q :=
  let '(ip, ni, r1) := readDigits 10 s 0 0 in
  let '(m, nf, r2) :=
    match r1 with
    | String "." r =>
        let '(m, nf, r') := readDigits 10 r ip 0 in (m, nf, r')
    | _ => (ip, 0, r1)
    end in
  if 0 <? ni + nf then
    match exponentPart r2 with
    | Some e => Some (scale10 m (e - nf))
    | None => None
    end
  else None.

(** Nearest integer to [a / b] for [b > 0], ties to even. *)
Definition roundHalfEven (a b : Z) : Z :=
  let q := a / b in
  let r := a mod b in
  match 2 * r ?= b with
  | Lt => q
  | Gt => q + 1
  | Eq => if Z.even q then q else q + 1
  end.

(** [floor (log2 (n / d))] for positive [n] and [d]. *)
Definition floorLog2 (n d : Z) : Z :=
  let e := Z.log2 n - Z.log2 d in
  let reaches := if 0 <=? e then d * 2 ^ e <=? n else d <=? n * 2 ^ (- e) in
  if reaches then e else e - 1.

(** The double nearest to the positive rational [n / d] (round to nearest,
    ties to even, 53-bit significand, gradual underflow below 2^-1022,
    overflow to infinity from 2^1024). *)
Definition roundPositive (n d : Z) : number :=
  let k := Z.max (floorLog2 n d - 52) (-1074) in
  if 0 <=? k then
    let m := roundHalfEven n (d * 2 ^ k) in
    if 2 ^ 1024 <=? m * 2 ^ k then Infinity false else Finite (inject_Z (m * 2 ^ k))
  else
    let m := roundHalfEven (n * 2 ^ (- k)) d in
    Finite (Qmake m (Z.to_pos (2 ^ (- k)))).

Definition negate (x : number) : number :=
  match x with
  | NaN => NaN
  | Infinity s => Infinity (negb s)
  | Finite q => Finite (- q)
  end.

(** The Number value of a mathematical value. *)
Definition roundToDouble (q : Q) : number :=
  match Qnum q with
  | Z0 => Finite 0
  | Zpos n => roundPositive (Zpos n) (Zpos (Qden q))
  | Zneg n => negate (roundPositive (Zpos n) (Zpos (Qden q)))
  end.

(** StrDecimalLiteral without its sign. *)
Definition decimalLiteral (s : string) : number :=
  if String.eqb s "Infinity" then Infinity false
  else match unsignedDecimal s with
       | Some q => roundToDouble q
       | None => NaN
       end.

(** [Number(s)]: white space is trimmed, the empty string is 0, a string
    that is not a StrNumericLiteral is NaN. *)
Definition Number (s : string) : number :=
  let t := trim s in
  match t with
  | EmptyString => Finite 0
  | String "+" r => decimalLiteral r
  | String "-" r => negate (decimalLiteral r)
  | _ =>
      match nonDecimalLiteral t with
      | Some n => roundToDouble (inject_Z n)
      | None => decimalLiteral t
      end
  end.

End JS.

(* ===================================================================== *)
(** ** LaunchpadSidebarProvider.compareVersions *)
(* ===================================================================== *)

(** The body of [for (let i = 0; i < 3; i++)], [steps] iterations left. *)
Fixpoint compareLoop (p1 p2 : list JS.number) (i steps : nat) : Z :=
  match steps with
  | O => 0
  | S k =>
      if JS.gt (JS.orZero (nth_error p1 i)) (JS.orZero (nth_error p2 i)) then 1
      else if JS.lt (JS.orZero (nth_error p1 i)) (JS.orZero (nth_error p2 i)) then -1
      else compareLoop p1 p2 (S i) k
  end.

Definition compareVersions (v1 v2 : string) : Z :=
  if negb (JS.truthyString v1) || negb (JS.truthyString v2)
     || String.eqb v1 "unknown" || String.eqb v2 "unknown"
  then 0
  else
    let p1 := map JS.Number (JS.split "." v1) in
    let p2 := map JS.Number (JS.split "." v2) in
    compareLoop p1 p2 0 3.

(* ===================================================================== *)
(** ** Exceptions over mutable state *)
(* ===================================================================== *)

Module Exn.

(** A computation ends normally with a value or abruptly with the message
    of the thrown error. *)
Inductive outcome (A : Type) : Type :=
| Done (a : A)
| Thrown (message : string).
Arguments Done {A} a.
Arguments Thrown {A} message.

(** The state reached when the exception is thrown is kept: what was
    assigned before the throw stays assigned in the handler. *)
Definition M (S A : Type) : Type := S -> outcome A * S.

Definition ret {S A : Type} (a : A) : M S A := fun s => (Done a, s).

Definition bind {S A B : Type} (m : M S A) (f : A -> M S B) : M S B :=
  fun s =>
    match m s with
    | (Done a, s') => f a s'
    | (Thrown e, s') => (Thrown e, s')
    end.

Definition throw {S A : Type} (e : string) : M S A := fun s => (Thrown e, s).

Definition tryCatch {S A : Type} (body : M S A) (handler : string -> M S A) : M S A :=
  fun s =>
    match body s with
    | (Done a, s') => (Done a, s')
    | (Thrown e, s') => handler e s'
    end.

Definition get {S : Type} : M S S := fun s => (Done s, s).

Definition modify {S : Type} (f : S -> S) : M S unit := fun s => (Done tt, f s).

(** [for (const x of l) body(x)]: an exception leaving the body leaves
    the loop. *)
Fixpoint forEach {S A : Type} (l : list A) (body : A -> M S unit) : M S unit :=
  match l with
  | [] => ret tt
  | x :: r => bind (body x) (fun _ => forEach r body)
  end.

End Exn.

Import Exn.

Declare Scope prog_scope.
Delimit Scope prog_scope with prog.
Notation "x <- m ;; k" := (bind m (fun x => k))
  (at level 61, m at next level, right associativity) : prog_scope.
Notation "m ;; k" := (bind m (fun _ => k))
  (at level 61, right associativity) : prog_scope.
Local Open Scope prog_scope.

(* ===================================================================== *)
(** ** Data *)
(* ===================================================================== *)

(** The fields of a parsed package.json that the code reads. [name] and
    [version] are used as strings; the others only for their truthiness
    or as optional strings. *)
Module PackageJson.
Record t : Type := {
  name : string;
  displayName : option string;
  version : string;
  publisher : option string;
  scripts_compile : option string
}.
End PackageJson.

(** An element of [vscode.extensions.all]. *)
Module Extension.
Record t : Type := {
  packageJSON : PackageJson.t;
  extensionPath : string
}.
End Extension.

Inductive Status : Type := New | Update | Installed | Stale.

(** An element of the [suite] array posted to the view. *)
Module SuiteEntry.
Record t : Type := {
  name : string;
  path : string;
  version : string;
  status : Status;
  installedVersion : option string;
  modifiedTime : string
}.
End SuiteEntry.

(** An element of [nexgenProjects] in [runCompileAll]. *)
Module Project.
Record t : Type := {
  path : string;
  name : string;
  version : string
}.
End Project.

(** What the code does to its surroundings, in order. *)
Inductive Event : Type :=
| ProgressReport (message : string)
| ShowInformationMessage (message : string)
| ShowWarningMessage (message : string)
| ShowErrorMessage (message : string)
| ConsoleError (label message : string)
| RunCompile (cwd : string)
| PackageExtension (cwd : string)
| InstallExtension (vsixPath : string)
| PostSuiteStatus (suite : list SuiteEntry.t).

(* ===================================================================== *)
(** ** The host: node, the editor, the file system, the build tools *)
(* ===================================================================== *)

(** Everything the provider calls and does not define. [World] is the state
    of the machine; queries read it, commands return the next one. A query
    that throws in JavaScript ([stat] or [readFile] of a missing file,
    [JSON.parse] of malformed text) returns [None]; a command returns the
    message of the error it fails with, if it fails. [Publisher.runCompile]
    and [Publisher.packageExtension] run external processes ([npm run
    compile], [npx vsce package]) in the project directory and are taken at
    that boundary. *)
Class Host (World : Type) : Type := {
  path_join : string -> string -> string;
  path_dirname : string -> string;
  path_basename : string -> string;
  toLowerCase : string -> string;
  toLocaleDateString : Z -> string;
  toLocaleTimeString : Z -> string;
  JSON_parse : string -> option PackageJson.t;
  workspaceFolders : World -> bool;
  findFiles : World -> string -> string -> list string;
  readFile : World -> string -> option string;
  fs_stat : World -> string -> option Z;
  extensions_all : World -> list Extension.t;
  Date_now : World -> Z;
  Publisher_runCompile : string -> World -> option string * World;
  Publisher_packageExtension : string -> World -> option string * World;
  installExtension : string -> World -> option string * World
}.

(** Decimal rendering of an integer in a template literal. *)
Definition showZ (z : Z) : string := NilZero.string_of_int (Z.to_int z).

(** [`${name}-${version}.vsix`], before [toLowerCase]. *)
Definition vsixFileName (name version : string) : string :=
  name ++ "-" ++ version ++ ".vsix".

Section Provider.

Context {World : Type} {host : Host World}.

(** The machine and the log of effects. *)
Record Sys : Type := { world : World; events : list Event }.

(** A piece of a method: it runs over the system and the method's local
    variables [L]. *)
Definition Prog (L A : Type) : Type := M (Sys * L) A.

Definition emit {L : Type} (e : Event) : Prog L unit :=
  modify (fun '(sys, l) => ({| world := world sys; events := events sys ++ [e] |}, l)).

Definition locals {L : Type} : Prog L L :=
  fun s => (Done (snd s), s).

Definition assign {L : Type} (f : L -> L) : Prog L unit :=
  modify (fun '(sys, l) => (sys, f l)).

(** A host query; [None] is the exception it throws. *)
Definition query {L A : Type} (q : World -> option A) (e : string) : Prog L A :=
  fun s =>
    match q (world (fst s)) with
    | Some a => (Done a, s)
    | None => (Thrown e, s)
    end.

(** A host command, logged as [ev] when it is issued. *)
Definition command {L : Type} (ev : Event) (c : World -> option string * World)
  : Prog L unit :=
  fun '(sys, l) =>
    let '(r, w') := c (world sys) in
    let sys' := {| world := w'; events := events sys ++ [ev] |} in
    match r with
    | None => (Done tt, (sys', l))
    | Some e => (Thrown e, (sys', l))
    end.

(** A call of another method: it runs on locals of its own, which are
    dropped when it returns. *)
Definition call {L L' A : Type} (init : L') (p : Prog L' A) : Prog L A :=
  fun '(sys, l) =>
    let '(r, (sys', _)) := p (sys, init) in (r, (sys', l)).

Definition stat {L : Type} (path : string) : Prog L Z :=
  query (fun w => fs_stat w path) "FileNotFound".

(* --------------------------------------------------------------------- *)
(** *** formatTime *)

Definition formatTime (now mtime : Z) : string :=
  let diffMs := now - mtime in
  let diffMins := diffMs / 60000 in
  let diffHours := diffMs / 3600000 in
  if diffMins <? 1 then "just now"
  else if diffMins <? 60 then showZ diffMins ++ "m ago"
  else if diffHours <? 24 then showZ diffHours ++ "h ago"
  else toLocaleDateString mtime ++ " " ++ toLocaleTimeString mtime.

(* --------------------------------------------------------------------- *)
(** *** scanForSuite *)

(** The variables of [scanForSuite]: the array under construction and the
    [let]s of the loop body. *)
Record ScanFrame : Type := {
  suite : list SuiteEntry.t;
  isStale : bool;
  vsixModifiedTime : string;
  vsixExists : bool;
  status : Status
}.

Definition scanFrame0 : ScanFrame :=
  {| suite := []; isStale := false; vsixModifiedTime := "N/A";
     vsixExists := false; status := New |}.

Definition set_isStale (b : bool) (f : ScanFrame) : ScanFrame :=
  {| suite := suite f; isStale := b; vsixModifiedTime := vsixModifiedTime f;
     vsixExists := vsixExists f; status := status f |}.

Definition set_vsixModifiedTime (t : string) (f : ScanFrame) : ScanFrame :=
  {| suite := suite f; isStale := isStale f; vsixModifiedTime := t;
     vsixExists := vsixExists f; status := status f |}.

Definition set_vsixExists (b : bool) (f : ScanFrame) : ScanFrame :=
  {| suite := suite f; isStale := isStale f; vsixModifiedTime := vsixModifiedTime f;
     vsixExists := b; status := status f |}.

Definition set_status (s : Status) (f : ScanFrame) : ScanFrame :=
  {| suite := suite f; isStale := isStale f; vsixModifiedTime := vsixModifiedTime f;
     vsixExists := vsixExists f; status := s |}.

Definition push_suite (e : SuiteEntry.t) (f : ScanFrame) : ScanFrame :=
  {| suite := suite f ++ [e]; isStale := isStale f;
     vsixModifiedTime := vsixModifiedTime f;
     vsixExists := vsixExists f; status := status f |}.

(** [vscode.extensions.all.find(ext => ext.packageJSON.name === pkg.name &&
    ext.packageJSON.publisher === pkg.publisher)]. *)
Definition sameOptString (a b : option string) : bool :=
  match a, b with
  | Some x, Some y => String.eqb x y
  | None, None => true
  | _, _ => false
  end.

Definition findInstalled (pkg : PackageJson.t) (all : list Extension.t)
  : option Extension.t :=
  find (fun ext =>
          String.eqb (PackageJson.name (Extension.packageJSON ext)) (PackageJson.name pkg)
          && sameOptString (PackageJson.publisher (Extension.packageJSON ext))
                           (PackageJson.publisher pkg))
       all.

(** [pkg.displayName || pkg.name]. *)
Definition shownName (pkg : PackageJson.t) : string :=
  if JS.truthyProp (PackageJson.displayName pkg)
  then match PackageJson.displayName pkg with Some d => d | None => PackageJson.name pkg end
  else PackageJson.name pkg.

(** The first [try] of the loop body: does the package file exist, when
    was it written, is it older than the [src] folder. *)
Definition checkArtifact (projectPath vsixPath : string) : Prog ScanFrame unit :=
  tryCatch
    (stats <- stat vsixPath ;;
     assign (set_vsixExists true) ;;
     now <- query (fun w => Some (Date_now w)) "" ;;
     assign (set_vsixModifiedTime (formatTime now stats)) ;;
     tryCatch
       (srcStats <- stat (path_join projectPath "src") ;;
        if srcStats >? stats then assign (set_isStale true) else ret tt)
       (fun _ => ret tt))
    (fun _ => assign (set_isStale true)).

(** The [if (installed) ... else ...] that sets [status]. *)
Definition classify (pkg : PackageJson.t) (vsixPath : string)
    (installed : option Extension.t) : Prog ScanFrame unit :=
  assign (set_status New) ;;
  l <- locals ;;
  match installed with
  | Some inst =>
      let vComp := compareVersions (PackageJson.version pkg)
                     (PackageJson.version (Extension.packageJSON inst)) in
      if vComp >? 0 then assign (set_status Update)
      else if isStale l then assign (set_status Stale)
      else if vsixExists l then
        stats <- stat vsixPath ;;
        let installedPkg := path_join (Extension.extensionPath inst) "package.json" in
        tryCatch
          (instStats <- stat installedPkg ;;
           if stats >? instStats + 5000 then assign (set_status Update)
           else assign (set_status Installed))
          (fun _ => assign (set_status Installed))
      else assign (set_status Installed)
  | None =>
      if vsixExists l then assign (set_status New)
      else assign (set_status Stale)
  end.

(** One turn of [for (const file of packageJsons)]. *)
Definition scanFile (file : string) : Prog ScanFrame unit :=
  tryCatch
    (contentRaw <- query (fun w => readFile w file) "FileNotFound" ;;
     pkg <- query (fun _ => JSON_parse contentRaw) "SyntaxError" ;;
     if negb (JS.truthyProp (PackageJson.publisher pkg)) then ret tt
     else
       let projectPath := path_dirname file in
       let vsixName :=
         toLowerCase (vsixFileName (PackageJson.name pkg) (PackageJson.version pkg)) in
       let vsixPath := path_join projectPath vsixName in
       assign (set_isStale false) ;;
       assign (set_vsixModifiedTime "N/A") ;;
       assign (set_vsixExists false) ;;
       checkArtifact projectPath vsixPath ;;
       all <- query (fun w => Some (extensions_all w)) "" ;;
       let installed := findInstalled pkg all in
       classify pkg vsixPath installed ;;
       l <- locals ;;
       assign (push_suite
                 {| SuiteEntry.name := shownName pkg;
                    SuiteEntry.path := vsixPath;
                    SuiteEntry.version := PackageJson.version pkg;
                    SuiteEntry.status := status l;
                    SuiteEntry.installedVersion :=
                      option_map (fun i => PackageJson.version (Extension.packageJSON i))
                                 installed;
                    SuiteEntry.modifiedTime := vsixModifiedTime l |}))
    (fun _ => ret tt).

Definition scanForSuite : Prog ScanFrame unit :=
  ws <- query (fun w => Some (workspaceFolders w)) "" ;;
  if negb ws then ret tt
  else
    packageJsons <- query (fun w => Some (findFiles w "**/package.json"
                             "{**/node_modules/**,**/.vscode-test/**}")) "" ;;
    forEach packageJsons scanFile ;;
    l <- locals ;;
    emit (PostSuiteStatus (suite l)).

(* --------------------------------------------------------------------- *)
(** *** runCompileAll *)

(** The variables of [runCompileAll] and of its progress callback. *)
Record CompileFrame : Type := {
  nexgenProjects : list Project.t;
  successCount : Z;
  failedProjects : list string;
  needsBuild : bool
}.

Definition compileFrame0 : CompileFrame :=
  {| nexgenProjects := []; successCount := 0; failedProjects := [];
     needsBuild := true |}.

Definition push_project (p : Project.t) (f : CompileFrame) : CompileFrame :=
  {| nexgenProjects := nexgenProjects f ++ [p]; successCount := successCount f;
     failedProjects := failedProjects f; needsBuild := needsBuild f |}.

Definition set_needsBuild (b : bool) (f : CompileFrame) : CompileFrame :=
  {| nexgenProjects := nexgenProjects f; successCount := successCount f;
     failedProjects := failedProjects f; needsBuild := b |}.

Definition incr_successCount (f : CompileFrame) : CompileFrame :=
  {| nexgenProjects := nexgenProjects f; successCount := successCount f + 1;
     failedProjects := failedProjects f; needsBuild := needsBuild f |}.

Definition push_failed (n : string) (f : CompileFrame) : CompileFrame :=
  {| nexgenProjects := nexgenProjects f; successCount := successCount f;
     failedProjects := failedProjects f ++ [n]; needsBuild := needsBuild f |}.

(** One turn of the loop that fills [nexgenProjects]. *)
Definition collectProject (file : string) : Prog CompileFrame unit :=
  tryCatch
    (contentRaw <- query (fun w => readFile w file) "FileNotFound" ;;
     content <- query (fun _ => JSON_parse contentRaw) "SyntaxError" ;;
     if JS.truthyProp (PackageJson.publisher content)
        && JS.truthyProp (PackageJson.scripts_compile content)
     then assign (push_project
                    {| Project.path := path_dirname file;
                       Project.name := PackageJson.name content;
                       Project.version := PackageJson.version content |})
     else ret tt)
    (fun _ => ret tt).

(** "Smart check: Only build if stale". *)
Definition smartCheck (project : Project.t) : Prog CompileFrame unit :=
  let vsixPath :=
    path_join (Project.path project)
      (toLowerCase (vsixFileName (Project.name project) (Project.version project))) in
  assign (set_needsBuild true) ;;
  tryCatch
    (stats <- stat vsixPath ;;
     let srcPath := path_join (Project.path project) "src" in
     tryCatch
       (srcStats <- stat srcPath ;;
        if srcStats <? stats then assign (set_needsBuild false) else ret tt)
       (fun _ => ret tt))
    (fun _ => ret tt).

(** One turn of [for (const project of nexgenProjects)]. *)
Definition buildProject (project : Project.t) : Prog CompileFrame unit :=
  let projectName := path_basename (Project.path project) in
  smartCheck project ;;
  l <- locals ;;
  if negb (needsBuild l) then assign incr_successCount
  else
    emit (ProgressReport ("Building " ++ projectName ++ "...")) ;;
    tryCatch
      (command (RunCompile (Project.path project))
               (Publisher_runCompile (Project.path project)) ;;
       command (PackageExtension (Project.path project))
               (Publisher_packageExtension (Project.path project)) ;;
       assign incr_successCount)
      (fun err =>
         assign (push_failed projectName) ;;
         emit (ConsoleError ("Build failed for " ++ projectName ++ ":") err)).

Definition runCompileAll : Prog CompileFrame unit :=
  ws <- query (fun w => Some (workspaceFolders w)) "" ;;
  if negb ws then ret tt
  else
    packageJsons <- query (fun w => Some (findFiles w "**/package.json"
                             "{**/node_modules/**,**/.vscode-test/**}")) "" ;;
    forEach packageJsons collectProject ;;
    l <- locals ;;
    if (length (nexgenProjects l) =? 0)%nat
    then emit (ShowWarningMessage "No NexGenMeta extensions found to compile.")
    else
      forEach (nexgenProjects l) buildProject ;;
      l <- locals ;;
      (if (0 <? length (failedProjects l))%nat
       then emit (ShowWarningMessage
                    ("Suite Build: " ++ showZ (successCount l) ++ " succeeded, "
                     ++ showZ (Z.of_nat (length (failedProjects l))) ++ " failed ("
                     ++ String.concat ", " (failedProjects l) ++ ")"))
       else emit (ShowInformationMessage
                    ("Suite Build Complete: " ++ showZ (successCount l)
                     ++ " NexGenMeta extensions processed."))) ;;
      call scanFrame0 scanForSuite.

(* --------------------------------------------------------------------- *)
(** *** installSuite *)

Record InstallFrame : Type := { installedCount : Z }.

Definition installFrame0 : InstallFrame := {| installedCount := 0 |}.

Definition incr_installedCount (f : InstallFrame) : InstallFrame :=
  {| installedCount := installedCount f + 1 |}.

(** One turn of [for (const vsixPath of vsixPaths)]. *)
Definition installOne (vsixPath : string) : Prog InstallFrame unit :=
  tryCatch
    (emit (ProgressReport ("Installing " ++ path_basename vsixPath ++ "...")) ;;
     command (InstallExtension vsixPath) (installExtension vsixPath) ;;
     assign incr_installedCount)
    (fun err =>
       emit (ShowErrorMessage
               ("Failed to install " ++ path_basename vsixPath ++ ": " ++ err))).

Definition installSuite (vsixPaths : list string) : Prog InstallFrame unit :=
  forEach vsixPaths installOne ;;
  l <- locals ;;
  emit (ShowInformationMessage
          ("Suite Sync Complete: " ++ showZ (installedCount l)
           ++ " extensions installed/updated.")) ;;
  call scanFrame0 scanForSuite.

End Provider.

Arguments Sys World : clear implicits.
Arguments Prog World L A : clear implicits.

(* ===================================================================== *)
(** ** Vocabulary of the statements *)
(* ===================================================================== *)

(** A string without a dot: one component of a version. *)
Fixpoint dotFree (s : string) : bool :=
  match s with
  | EmptyString => true
  | String c r => negb (Ascii.eqb c ".") && dotFree r
  end.

Definition isSome {A : Type} (o : option A) : bool :=
  match o with Some _ => true | None => false end.

(** A well-formed three-component version: exactly three components,
    each a non-empty run of decimal digits. *)
Definition wellFormedVersion (v : string) : bool :=
  match JS.split "." v with
  | [a; b; c] =>
      isSome (JS.allDigits 10 a) && isSome (JS.allDigits 10 b)
      && isSome (JS.allDigits 10 c)
  | _ => false
  end.

(** The inputs [compareVersions] gives up on: the empty string and the
    placeholder "unknown". *)
Definition noVersion (v : string) : bool :=
  negb (JS.truthyString v) || String.eqb v "unknown".

Definition isRunCompile (e : Event) : bool :=
  match e with RunCompile _ => true | _ => false end.

Definition isBuildCommand (e : Event) : bool :=
  match e with RunCompile _ | PackageExtension _ => true | _ => false end.

Definition isInstallExtension (e : Event) : bool :=
  match e with InstallExtension _ => true | _ => false end.

Definition isShowErrorMessage (e : Event) : bool :=
  match e with ShowErrorMessage _ => true | _ => false end.

Section Vocabulary.

Context {World : Type} {host : Host World}.

(** The package file the scan and the build look for. *)
Definition artifactPath (dir name version : string) : string :=
  path_join dir (toLowerCase (vsixFileName name version)).

(** The source folder whose time stamp is compared with the package's. *)
Definition sourcePath (dir : string) : string := path_join dir "src".

(** [file] is the manifest of a publishable project: it can be read, it
    parses to [pkg], and [pkg.publisher] is truthy. *)
Definition manifestAt (w : World) (file : string) (pkg : PackageJson.t) : Prop :=
  exists raw, readFile w file = Some raw /\ JSON_parse raw = Some pkg
              /\ JS.truthyProp (PackageJson.publisher pkg) = true.

(** Staleness as section 4.2 of the specification words it, on the two
    [stat] results ([None]: the path cannot be inspected). *)
Definition staleByOracle (artifact source : option Z) : bool :=
  match artifact with
  | None => true
  | Some a => match source with
              | Some s => s >? a
              | None => false
              end
  end.

(** The classifier as section 4.3 of the specification words it, on the
    result of the version comparison ([None]: nothing installed) and the
    three [stat] results: package file, source folder, installed manifest.
    The grace window is the 5000 ms of the code. *)
Definition statusBySpec (cmp : option Z) (artifact source manifest : option Z)
  : Status :=
  match cmp with
  | Some c =>
      if c >? 0 then Update
      else if staleByOracle artifact source then Stale
      else match artifact with
           | Some a =>
               match manifest with
               | Some m => if a >? m + 5000 then Update else Installed
               | None => Installed
               end
           | None => Installed
           end
  | None =>
      match artifact with
      | Some _ => New
      | None => Stale
      end
  end.

(** The projects [runCompileAll] is to build, listed from the manifests:
    those with a truthy publisher and a truthy [scripts.compile]. *)
Definition eligibleAt (w : World) (file : string) : list Project.t :=
  match readFile w file with
  | Some raw =>
      match JSON_parse raw with
      | Some content =>
          if JS.truthyProp (PackageJson.publisher content)
             && JS.truthyProp (PackageJson.scripts_compile content)
          then [ {| Project.path := path_dirname file;
                    Project.name := PackageJson.name content;
                    Project.version := PackageJson.version content |} ]
          else []
      | None => []
      end
  | None => []
  end.

Definition eligibleProjects (w : World) : list Project.t :=
  flat_map (eligibleAt w)
    (findFiles w "**/package.json" "{**/node_modules/**,**/.vscode-test/**}").

(** What the two [stat]s of the build's check return for a project. *)
Definition artifactStat (w : World) (p : Project.t) : option Z :=
  fs_stat w (artifactPath (Project.path p) (Project.name p) (Project.version p)).

Definition sourceStat (w : World) (p : Project.t) : option Z :=
  fs_stat w (sourcePath (Project.path p)).

(** The build commands for one project, compile then package: the error
    of the first that fails, and the world they leave. *)
Definition buildCommands (p : Project.t) (w : World) : option string * World :=
  match Publisher_runCompile (Project.path p) w with
  | (Some e, w1) => (Some e, w1)
  | (None, w1) => Publisher_packageExtension (Project.path p) w1
  end.

(** What the build's "smart check" finds: the package file is there, the
    source folder can be inspected and is strictly older. *)
Definition skipsBuild (w : World) (p : Project.t) : bool :=
  match artifactStat w p, sourceStat w p with
  | Some a, Some s => s <? a
  | _, _ => false
  end.

(** The build commands issued for one project: packaging is not reached
    when compiling fails. *)
Definition buildTrace (p : Project.t) (w : World) : list Event :=
  match Publisher_runCompile (Project.path p) w with
  | (Some _, _) => [RunCompile (Project.path p)]
  | (None, _) => [RunCompile (Project.path p); PackageExtension (Project.path p)]
  end.

(** The message [runCompileAll] ends with. *)
Definition buildReport (fr : CompileFrame) : Event :=
  if (0 <? length (failedProjects fr))%nat
  then ShowWarningMessage
         ("Suite Build: " ++ showZ (successCount fr) ++ " succeeded, "
          ++ showZ (Z.of_nat (length (failedProjects fr))) ++ " failed ("
          ++ String.concat ", " (failedProjects fr) ++ ")")
  else ShowInformationMessage
         ("Suite Build Complete: " ++ showZ (successCount fr)
          ++ " NexGenMeta extensions processed.").

(** A piece of code that only looks: it leaves the world alone, and the
    log too. *)
Definition readOnly {L A : Type} (p : Prog World L A) : Prop :=
  forall sys l, fst (snd (p (sys, l))) = sys.

(** A piece of code that no exception leaves. *)
Definition total {L : Type} (p : Prog World L unit) : Prop :=
  forall s, fst (p s) = Done tt.

(** The install command issued for each path in turn, with its result. *)
Fixpoint installResults (paths : list string) (w : World)
  : list (string * option string) :=
  match paths with
  | [] => []
  | p :: r => let '(res, w') := installExtension p w in (p, res) :: installResults r w'
  end.

Definition succeeded (r : string * option string) : bool :=
  match snd r with None => true | Some _ => false end.

(** The message shown for a failed install. *)
Definition installFailure (r : string * option string) : list Event :=
  match snd r with
  | None => []
  | Some e => [ShowErrorMessage
                 ("Failed to install " ++ path_basename (fst r) ++ ": " ++ e)]
  end.

End Vocabulary.

(* ===================================================================== *)
(** ** A small concrete host, to run the model on *)
(* ===================================================================== *)

Module Demo.

Record World : Type := {
  folders : bool;
  manifests : list (string * string);
  mtimes : list (string * Z);
  extensions : list Extension.t;
  clock : Z;
  brokenBuilds : list string;
  rejectedInstalls : list string
}.

Fixpoint lookup {A : Type} (k : string) (l : list (string * A)) : option A :=
  match l with
  | [] => None
  | (k', v) :: r => if String.eqb k k' then Some v else lookup k r
  end.

Definition member (k : string) (l : list string) : bool :=
  existsb (String.eqb k) l.

Definition lowerAscii (c : ascii) : ascii :=
  let n := nat_of_ascii c in
  if ((65 <=? n) && (n <=? 90))%nat then ascii_of_nat (n + 32) else c.

Fixpoint lower (s : string) : string :=
  match s with
  | EmptyString => EmptyString
  | String c r => String (lowerAscii c) (lower r)
  end.

Definition optional (s : string) : option string :=
  match s with EmptyString => None | _ => Some s end.

(** Manifests are written [name|displayName|version|publisher|compile]
    here, in place of JSON text. *)
Definition parse (raw : string) : option PackageJson.t :=
  match JS.split "|" raw with
  | [n; d; v; p; c] =>
      Some {| PackageJson.name := n; PackageJson.displayName := optional d;
              PackageJson.version := v; PackageJson.publisher := optional p;
              PackageJson.scripts_compile := optional c |}
  | _ => None
  end.

Definition fails (cwd : string) (w : World) : option string * World :=
  if member cwd (brokenBuilds w) then (Some "Compile failed: exit 1", w) else (None, w).

Definition install (vsixPath : string) (w : World) : option string * World :=
  if member vsixPath (rejectedInstalls w) then (Some "not a package", w) else (None, w).

#[global] Instance host : Host World := {
  path_join a b := a ++ "/" ++ b;
  path_dirname p := JS.join "/" (removelast (JS.split "/" p));
  path_basename p := last (JS.split "/" p) "";
  toLowerCase := lower;
  toLocaleDateString t := showZ t;
  toLocaleTimeString t := "";
  JSON_parse := parse;
  workspaceFolders := folders;
  findFiles w _ _ := map fst (manifests w);
  readFile w f := lookup f (manifests w);
  fs_stat w f := lookup f (mtimes w);
  extensions_all := extensions;
  Date_now := clock;
  Publisher_runCompile := fails;
  Publisher_packageExtension cwd w := (None, w);
  installExtension := install
}.

(** Three buildable projects: [alpha] and [gamma] packaged after their
    sources were last touched, [beta] packaged before. *)
Definition suiteOfThree (broken : list string) : World :=
  {| folders := true;
     manifests := [("/ws/alpha/package.json", "alpha||1.0.0|acme|tsc");
                   ("/ws/beta/package.json", "beta||1.2.0|acme|tsc");
                   ("/ws/gamma/package.json", "gamma||0.3.1|acme|tsc")];
     mtimes := [("/ws/alpha/alpha-1.0.0.vsix", 2000); ("/ws/alpha/src", 1000);
                ("/ws/beta/beta-1.2.0.vsix", 2000); ("/ws/beta/src", 3000);
                ("/ws/gamma/gamma-0.3.1.vsix", 2000); ("/ws/gamma/src", 1500)];
     extensions := [];
     clock := 10000;
     brokenBuilds := broken;
     rejectedInstalls := [] |}.

(** One project whose package and source folder carry the same time. *)
Definition sameInstant : World :=
  {| folders := true;
     manifests := [("/ws/alpha/package.json", "alpha||1.0.0|acme|tsc")];
     mtimes := [("/ws/alpha/alpha-1.0.0.vsix", 2000); ("/ws/alpha/src", 2000)];
     extensions := [];
     clock := 10000;
     brokenBuilds := [];
     rejectedInstalls := [] |}.

(** One project with its package on disk and no [src] folder. *)
Definition noSourceFolder : World :=
  {| folders := true;
     manifests := [("/ws/alpha/package.json", "alpha||1.0.0|acme|tsc")];
     mtimes := [("/ws/alpha/alpha-1.0.0.vsix", 2000)];
     extensions := [];
     clock := 10000;
     brokenBuilds := [];
     rejectedInstalls := [] |}.

(** The extension [alpha] of publisher [acme] as installed, at the given
    version, under [/ext/alpha]. *)
Definition installedAlpha (version : string) : Extension.t :=
  {| Extension.packageJSON :=
       {| PackageJson.name := "alpha"; PackageJson.displayName := None;
          PackageJson.version := version; PackageJson.publisher := Some "acme";
          PackageJson.scripts_compile := None |};
     Extension.extensionPath := "/ext/alpha" |}.

(** One project, [alpha] 1.2.0, with the given time stamps and installed
    extensions. *)
Definition alphaOnly (stamps : list (string * Z)) (exts : list Extension.t) : World :=
  {| folders := true;
     manifests := [("/ws/alpha/package.json", "alpha|Alpha|1.2.0|acme|tsc")];
     mtimes := stamps;
     extensions := exts;
     clock := 100000;
     brokenBuilds := [];
     rejectedInstalls := [] |}.

Definition alpha : PackageJson.t :=
  {| PackageJson.name := "alpha"; PackageJson.displayName := Some "Alpha";
     PackageJson.version := "1.2.0"; PackageJson.publisher := Some "acme";
     PackageJson.scripts_compile := Some "tsc" |}.

(** The project [name] at [version] under [/ws/name]. *)
Definition project (name version : string) : Project.t :=
  {| Project.path := "/ws/" ++ name; Project.name := name;
     Project.version := version |}.

(** A world with no project in which installing the listed packages
    fails. *)
Definition rejecting (paths : list string) : World :=
  {| folders := true;
     manifests := [];
     mtimes := [];
     extensions := [];
     clock := 0;
     brokenBuilds := [];
     rejectedInstalls := paths |}.

Definition start {L : Type} (w : World) (l : L) : Sys World * L :=
  ({| world := w; events := [] |}, l).

End Demo.

(* ===================================================================== *)
(** ** Vocabulary for the order on versions *)
(* ===================================================================== *)

(** The three numbers of a well-formed version, read as decimal. *)
Definition versionTriple (v : string) : option (Z * Z * Z) :=
  match JS.split "." v with
  | [a; b; c] =>
      match JS.allDigits 10 a, JS.allDigits 10 b, JS.allDigits 10 c with
      | Some x, Some y, Some z => Some (x, y, z)
      | _, _, _ => None
      end
  | _ => None
  end.

(** Lexicographic comparison of two triples, as -1, 0 or 1. *)
Definition compareTriples (x y : Z * Z * Z) : Z :=
  let '(x1, x2, x3) := x in
  let '(y1, y2, y3) := y in
  match x1 ?= y1 with
  | Lt => -1
  | Gt => 1
  | Eq => match x2 ?= y2 with
          | Lt => -1
          | Gt => 1
          | Eq => match x3 ?= y3 with
                  | Lt => -1
                  | Gt => 1
                  | Eq => 0
                  end
          end
  end.

(** Components below 2^53 are read exactly by [Number]. *)
Definition exactTriple (x : Z * Z * Z) : Prop :=
  let '(x1, x2, x3) := x in x1 < 2 ^ 53 /\ x2 < 2 ^ 53 /\ x3 < 2 ^ 53.

(** A string made of decimal digits only. *)
Fixpoint digitsOnly (s : string) : bool :=
  match s with
  | EmptyString => true
  | String c r => isSome (JS.digitValue 10 c) && digitsOnly r
  end.

(* ===================================================================== *)
(** ** scanForProjects, and what a whole scan reports *)
(* ===================================================================== *)

(** An element of the [projects] array of [scanForProjects]. *)
Module ProjectRef.
Record t : Type := {
  name : string;
  path : string
}.
End ProjectRef.

Section Inventory.

Context {World : Type} {host : Host World}.

(** One turn of the loop of [scanForProjects]. *)
Definition listProject (file : string) : Prog World (list ProjectRef.t) unit :=
  tryCatch
    (contentRaw <- query (fun w => readFile w file) "FileNotFound" ;;
     content <- query (fun _ => JSON_parse contentRaw) "SyntaxError" ;;
     if JS.truthyProp (PackageJson.publisher content)
     then assign (fun projects =>
                    (projects ++ [ {| ProjectRef.name := shownName content;
                                      ProjectRef.path := path_dirname file |} ])%list)
     else ret tt)
    (fun _ => ret tt).

(** [scanForProjects]; the value returned is the [projects] array of the
    'availableProjects' message, [None] when the method returns before
    posting. *)
Definition scanForProjects : Prog World (list ProjectRef.t) (option (list ProjectRef.t)) :=
  ws <- query (fun w => Some (workspaceFolders w)) "" ;;
  if negb ws then ret None
  else
    packageJsons <- query (fun w => Some (findFiles w "**/package.json"
                             "**/node_modules/**")) "" ;;
    forEach packageJsons listProject ;;
    projects <- locals ;;
    ret (Some projects).

(** The manifest of a publishable project, if [file] is one. *)
Definition publishableAt (w : World) (file : string) : option PackageJson.t :=
  match readFile w file with
  | Some raw =>
      match JSON_parse raw with
      | Some pkg => if JS.truthyProp (PackageJson.publisher pkg) then Some pkg else None
      | None => None
      end
  | None => None
  end.

(** The entry the suite scan is expected to post for a publishable
    project. *)
Definition expectedEntry (w : World) (file : string) (pkg : PackageJson.t)
  : SuiteEntry.t :=
  let dir := path_dirname file in
  let vsix := artifactPath dir (PackageJson.name pkg) (PackageJson.version pkg) in
  let installed := findInstalled pkg (extensions_all w) in
  {| SuiteEntry.name := shownName pkg;
     SuiteEntry.path := vsix;
     SuiteEntry.version := PackageJson.version pkg;
     SuiteEntry.status :=
       statusBySpec
         (option_map (fun inst => compareVersions (PackageJson.version pkg)
                        (PackageJson.version (Extension.packageJSON inst))) installed)
         (fs_stat w vsix) (fs_stat w (sourcePath dir))
         (match installed with
          | Some inst => fs_stat w (path_join (Extension.extensionPath inst) "package.json")
          | None => None
          end);
     SuiteEntry.installedVersion :=
       option_map (fun inst => PackageJson.version (Extension.packageJSON inst)) installed;
     SuiteEntry.modifiedTime :=
       match fs_stat w vsix with
       | Some a => formatTime (Date_now w) a
       | None => "N/A"
       end |}.

Definition expectedEntries (w : World) (file : string) : list SuiteEntry.t :=
  match publishableAt w file with
  | Some pkg => [expectedEntry w file pkg]
  | None => []
  end.

Definition expectedProjects (w : World) (file : string) : list ProjectRef.t :=
  match publishableAt w file with
  | Some pkg => [ {| ProjectRef.name := shownName pkg;
                     ProjectRef.path := path_dirname file |} ]
  | None => []
  end.

End Inventory.

(* ===================================================================== *)
(** ** Validator *)
(* ===================================================================== *)

(** What [JSON.parse] returns. The members of an object are its own
    properties, each key once. *)
Module Json.

#[local] Unset Elimination Schemes.
Inductive value : Type :=
| Null
| Bool (b : bool)
| Num (n : JS.number)
| Str (s : string)
| Arr (items : list value)
| Obj (members : list (string * value)).
#[local] Set Elimination Schemes.

Fixpoint lookup (key : string) (members : list (string * value)) : option value :=
  match members with
  | [] => None
  | (k, v) :: r => if String.eqb key k then Some v else lookup key r
  end.

(** [v.key] for a key that is not a built-in property of strings, numbers,
    booleans or arrays (here: publisher, icon, repository, name). [None]:
    the read throws, [v] being null; [Some None]: the result is
    [undefined]. *)
Definition prop (v : value) (key : string) : option (option value) :=
  match v with
  | Null => None
  | Obj members => Some (lookup key members)
  | _ => Some None
  end.

(** ToBoolean. *)
Definition truthy (v : option value) : bool :=
  match v with
  | None => false
  | Some Null => false
  | Some (Bool b) => b
  | Some (Num n) => JS.truthy n
  | Some (Str s) => JS.truthyString s
  | Some (Arr _) => true
  | Some (Obj _) => true
  end.

(** [v === s] for a string [s]. *)
Definition isString (v : option value) (s : string) : bool :=
  match v with
  | Some (Str t) => String.eqb t s
  | _ => false
  end.

End Json.

(** node's [fs] and [JSON.parse] as the code uses them. [readFileSync],
    [writeFileSync] and [unlinkSync] may throw; [existsSync] never does. *)
Class NodeFs (World : Type) : Type := {
  existsSync : World -> string -> bool;
  readFileSync : World -> string -> option string;
  writeFileSync : string -> string -> World -> option string * World;
  unlinkSync : string -> World -> option string * World;
  JSON_parse_value : string -> option Json.value
}.

(** [vscode.DiagnosticSeverity]. *)
Inductive Severity : Type := SevError | SevWarning | SevInformation | SevHint.

Module ValidationResult.
Record t : Type := {
  isValid : bool;
  message : string;
  severity : Severity
}.
End ValidationResult.

(** An optional value whose absence is a throw. *)
Definition orThrow {S A : Type} (o : option A) (e : string) : M S A :=
  fun s =>
    match o with
    | Some a => (Done a, s)
    | None => (Thrown e, s)
    end.

Module Validator.

Section WithHost.

Context {World : Type} {host : Host World} {nodefs : NodeFs World}.

Definition finding (m : string) (sev : Severity) : ValidationResult.t :=
  {| ValidationResult.isValid := false;
     ValidationResult.message := m;
     ValidationResult.severity := sev |}.

(** [results.push(r)]. *)
Definition push (r : ValidationResult.t) : M (list ValidationResult.t) unit :=
  modify (fun results => (results ++ [r])%list).

(** [path.join(rootPath, v)]: a [TypeError] unless [v] is a string. *)
Definition joinValue (rootPath : string) (v : option Json.value)
  : M (list ValidationResult.t) string :=
  match v with
  | Some (Json.Str s) => ret (path_join rootPath s)
  | _ => throw "TypeError"
  end.

(** [`${v}`] for a value already known to be a string. *)
Definition shown (v : option Json.value) : string :=
  match v with
  | Some (Json.Str s) => s
  | _ => ""
  end.

(** The body of the [try]. *)
Definition checks (w : World) (rootPath packageJsonPath : string)
  : M (list ValidationResult.t) unit :=
  raw <- orThrow (readFileSync w packageJsonPath) "ReadError" ;;
  content <- orThrow (JSON_parse_value raw) "SyntaxError" ;;
  publisher <- orThrow (Json.prop content "publisher") "TypeError" ;;
  (if Json.truthy publisher
   then if Json.isString publisher "nexgenmeta"
        then push (finding
               "Publisher ID 'nexgenmeta' should likely be 'NexGenMeta' (Marketplace IDs are case-sensitive)."
               SevWarning)
        else ret tt
   else push (finding "Missing 'publisher' field in package.json." SevError)) ;;
  icon <- orThrow (Json.prop content "icon") "TypeError" ;;
  (if negb (Json.truthy icon)
   then push (finding
          "No icon defined. Extensions need a 128x128px png icon (Recommendation)."
          SevWarning)
   else
     iconPath <- joinValue rootPath icon ;;
     if negb (existsSync w iconPath)
     then push (finding ("Icon file not found at: " ++ shown icon) SevError)
     else ret tt) ;;
  repository <- orThrow (Json.prop content "repository") "TypeError" ;;
  if negb (Json.truthy repository)
  then push (finding
         "Missing 'repository' field. Users trust extensions more with source links."
         SevWarning)
  else ret tt.

Definition validateBody (w : World) (rootPath : string)
  : M (list ValidationResult.t) unit :=
  let packageJsonPath := path_join rootPath "package.json" in
  if negb (existsSync w packageJsonPath)
  then push (finding "package.json not found in root." SevError)
  else
    tryCatch (checks w rootPath packageJsonPath)
      (fun _ => push (finding "Error parsing package.json." SevError)).

(** [Validator.validatePackageJson]: the [results] array it returns. *)
Definition validatePackageJson (w : World) (rootPath : string)
  : list ValidationResult.t :=
  snd (validateBody w rootPath []).

(** What each of the three checks adds, as a function of the property it
    looks at; the icon check has no answer ([None]) when it throws. *)
Definition publisherFindings (publisher : option Json.value) : list ValidationResult.t :=
  if Json.truthy publisher
  then if Json.isString publisher "nexgenmeta"
       then [finding
               "Publisher ID 'nexgenmeta' should likely be 'NexGenMeta' (Marketplace IDs are case-sensitive)."
               SevWarning]
       else []
  else [finding "Missing 'publisher' field in package.json." SevError].

Definition iconFindings (w : World) (rootPath : string) (icon : option Json.value)
  : option (list ValidationResult.t) :=
  if negb (Json.truthy icon)
  then Some [finding
               "No icon defined. Extensions need a 128x128px png icon (Recommendation)."
               SevWarning]
  else match icon with
       | Some (Json.Str s) =>
           Some (if negb (existsSync w (path_join rootPath s))
                 then [finding ("Icon file not found at: " ++ s) SevError]
                 else [])
       | _ => None
       end.

Definition repositoryFindings (repository : option Json.value)
  : list ValidationResult.t :=
  if negb (Json.truthy repository)
  then [finding
          "Missing 'repository' field. Users trust extensions more with source links."
          SevWarning]
  else [].

Definition parseError : ValidationResult.t :=
  finding "Error parsing package.json." SevError.

(** A manifest the audit has nothing to say about. *)
Definition clean (w : World) (rootPath : string) : Prop :=
  existsSync w (path_join rootPath "package.json") = true
  /\ exists raw content publisher icon repository,
      readFileSync w (path_join rootPath "package.json") = Some raw
      /\ JSON_parse_value raw = Some content
      /\ Json.prop content "publisher" = Some publisher
      /\ Json.truthy publisher = true
      /\ Json.isString publisher "nexgenmeta" = false
      /\ Json.prop content "icon" = Some (Some (Json.Str icon))
      /\ icon <> ""
      /\ existsSync w (path_join rootPath icon) = true
      /\ Json.prop content "repository" = Some repository
      /\ Json.truthy repository = true.

End WithHost.

End Validator.

(** A concrete [fs] over the small host: the files with content are the
    entries of [manifests], the others those of [mtimes]. Manifests read
    through [JSON_parse_value] are written [publisher|icon|repository],
    an empty field for a missing member and [true] for the boolean. *)
Module DemoNode.

Definition jsonOf (raw : string) : option Json.value :=
  match JS.split "|" raw with
  | [p; i; r] =>
      let member k v := if String.eqb v "" then []
                        else if String.eqb v "true" then [(k, Json.Bool true)]
                        else [(k, Json.Str v)] in
      Some (Json.Obj (member "publisher" p ++ member "icon" i ++ member "repository" r))
  | _ => None
  end.

Definition present (w : Demo.World) (path : string) : bool :=
  isSome (Demo.lookup path (Demo.manifests w)) || isSome (Demo.lookup path (Demo.mtimes w)).

Definition write (path content : string) (w : Demo.World) : option string * Demo.World :=
  (None,
   {| Demo.folders := Demo.folders w;
      Demo.manifests := (path, content) :: Demo.manifests w;
      Demo.mtimes := Demo.mtimes w;
      Demo.extensions := Demo.extensions w;
      Demo.clock := Demo.clock w;
      Demo.brokenBuilds := Demo.brokenBuilds w;
      Demo.rejectedInstalls := Demo.rejectedInstalls w |}).

Definition remove (path : string) (w : Demo.World) : option string * Demo.World :=
  (None,
   {| Demo.folders := Demo.folders w;
      Demo.manifests := filter (fun e => negb (String.eqb (fst e) path)) (Demo.manifests w);
      Demo.mtimes := filter (fun e => negb (String.eqb (fst e) path)) (Demo.mtimes w);
      Demo.extensions := Demo.extensions w;
      Demo.clock := Demo.clock w;
      Demo.brokenBuilds := Demo.brokenBuilds w;
      Demo.rejectedInstalls := Demo.rejectedInstalls w |}).

#[global] Instance nodefs : NodeFs Demo.World := {
  existsSync := present;
  readFileSync w path := Demo.lookup path (Demo.manifests w);
  writeFileSync := write;
  unlinkSync := remove;
  JSON_parse_value := jsonOf
}.

(** A folder [/ws/p] with the given files (path, content). *)
Definition folder (files : list (string * string)) : Demo.World :=
  {| Demo.folders := true;
     Demo.manifests := files;
     Demo.mtimes := [];
     Demo.extensions := [];
     Demo.clock := 0;
     Demo.brokenBuilds := [];
     Demo.rejectedInstalls := [] |}.

End DemoNode.

(* ===================================================================== *)
(** ** BadgeGenerator and runGenerateBadges *)
(* ===================================================================== *)

(** String methods the badge code uses. *)
Module JSString.

(** The one-character string ['\n']. *)
Definition newline : string := String "010" EmptyString.

(** [s.startsWith(p)]. *)
Definition startsWith (p s : string) : bool := String.prefix p s.

(** [s.includes(needle)]. *)
Fixpoint includes (needle s : string) : bool :=
  String.prefix needle s
  || match s with
     | EmptyString => false
     | String _ r => includes needle r
     end.

(** [lines.splice(index, 0, x)] on the array itself. *)
Definition spliceIn {A : Type} (index : nat) (x : A) (l : list A) : list A :=
  firstn index l ++ x :: skipn index l.

End JSString.

Module BadgeGenerator.

Definition baseUrl : string := "https://img.shields.io/visual-studio-marketplace".

Definition generateBadges (publisher extensionName : string) : string :=
  JS.join " "
    [ "![Version](" ++ baseUrl ++ "/v/" ++ publisher ++ "." ++ extensionName ++ ")";
      "![Installs](" ++ baseUrl ++ "/i/" ++ publisher ++ "." ++ extensionName ++ ")";
      "![Rating](" ++ baseUrl ++ "/r/" ++ publisher ++ "." ++ extensionName ++ ")" ].

Section WithHost.

Context {World : Type} {host : Host World} {nodefs : NodeFs World}.

(** The lines written back: the badges go after a title line, before
    anything else. *)
Definition withBadges (badges : string) (lines : list string) : option (list string) :=
  match nth_error lines 0 with
  | Some first =>
      if JSString.startsWith "#" first
      then Some (JSString.spliceIn 1 (JSString.newline ++ badges ++ JSString.newline) lines)
      else Some ((badges ++ JSString.newline) :: lines)
  | None => None
  end.

(** [insertIntoReadme]: the state is the machine, the value the boolean
    returned. *)
Definition insertIntoReadme (rootPath badges : string) : M World bool :=
  let readmePath := path_join rootPath "README.md" in
  w <- get ;;
  if negb (existsSync w readmePath) then ret false
  else
    content <- orThrow (readFileSync w readmePath) "ReadError" ;;
    if JSString.includes "![Version]" content then ret false
    else
      let lines := JS.split "010" content in
      lines' <- orThrow (withBadges badges lines) "TypeError" ;;
      (fun w0 =>
         match writeFileSync readmePath (JS.join "010" lines') w0 with
         | (None, w1) => (Done true, w1)
         | (Some e, w1) => (Thrown e, w1)
         end).

End WithHost.

End BadgeGenerator.

Section GenerateBadges.

Context {World : Type} {host : Host World} {nodefs : NodeFs World}.

(** [`${v}`] for an optional string property. *)
Definition shownProp (v : option string) : string :=
  match v with
  | Some s => s
  | None => "undefined"
  end.

(** A piece of code over the machine alone, run inside a method. *)
Definition onWorld {L A : Type} (m : M World A) : Prog World L A :=
  fun '(sys, l) =>
    let '(r, w') := m (world sys) in
    (r, ({| world := w'; events := events sys |}, l)).

(** One turn of the loop of [runGenerateBadges]; the local is
    [successCount]. *)
Definition badgeProject (file : string) : Prog World Z unit :=
  let projectDir := path_dirname file in
  let projectName := path_basename projectDir in
  tryCatch
    (raw <- query (fun w => readFileSync w file) "ReadError" ;;
     pkg <- query (fun _ => JSON_parse raw) "SyntaxError" ;;
     let badges :=
       BadgeGenerator.generateBadges (shownProp (PackageJson.publisher pkg))
                                     (PackageJson.name pkg) in
     success <- onWorld (BadgeGenerator.insertIntoReadme projectDir badges) ;;
     if success then assign (fun n => n + 1) else ret tt)
    (fun err => emit (ConsoleError ("Failed to generate badges for " ++ projectName ++ ":") err)).

Definition runGenerateBadges : Prog World Z unit :=
  ws <- query (fun w => Some (workspaceFolders w)) "" ;;
  if negb ws then ret tt
  else
    packageJsons <- query (fun w => Some (findFiles w "**/package.json"
                             "**/node_modules/**")) "" ;;
    forEach packageJsons badgeProject ;;
    successCount <- locals ;;
    if successCount >? 0
    then emit (ShowInformationMessage
                 ("Marketplace badges inserted into " ++ showZ successCount ++ " projects."))
    else emit (ShowWarningMessage
                 "No new badges were inserted (READMEs may be missing or badges already present).").

(** What one turn does to the machine, and whether it counts: the
    manifest is read and parsed, the badges are made from its publisher
    and name, and the README of its folder is rewritten. *)
Definition badgeStep (file : string) (w : World) : bool * World :=
  match readFileSync w file with
  | Some raw =>
      match JSON_parse raw with
      | Some pkg =>
          match BadgeGenerator.insertIntoReadme (path_dirname file)
                  (BadgeGenerator.generateBadges (shownProp (PackageJson.publisher pkg))
                     (PackageJson.name pkg)) w with
          | (Done b, w') => (b, w')
          | (Thrown _, w') => (false, w')
          end
      | None => (false, w)
      end
  | None => (false, w)
  end.

(** The turns in order, each on the machine the previous one left. *)
Fixpoint badgeSteps (files : list string) (w : World) : list bool * World :=
  match files with
  | [] => ([], w)
  | f :: r =>
      let '(b, w1) := badgeStep f w in
      let '(bs, w2) := badgeSteps r w1 in
      (b :: bs, w2)
  end.

End GenerateBadges.

(* ===================================================================== *)
(** ** runPublish, runPackage, deleteVsix *)
(* ===================================================================== *)

(** The remaining calls out of the provider: [Publisher.publish] (the
    external [npx vsce publish]) and the modal question of
    [showWarningMessage], answered by one of its buttons or dismissed. *)
Class Desk (World : Type) : Type := {
  Publisher_publish : string -> string -> World -> option string * World;
  askModal : World -> string -> list string -> option string
}.

(** Commands of these methods that the event log has no name for; the
    methods keep them, in order, as their local. *)
Inductive Action : Type :=
| Publish (type cwd : string)
| Unlink (path : string).

Section Actions.

Context {World : Type} {host : Host World} {nodefs : NodeFs World} {desk : Desk World}.

(** [!projectPath || projectPath.trim() === ''] for an optional string. *)
Definition noProject (projectPath : option string) : bool :=
  match projectPath with
  | None => true
  | Some p => negb (JS.truthyString p) || String.eqb (JS.trim p) ""
  end.

(** A host command recorded as an [Action]. *)
Definition act (a : Action) (c : World -> option string * World)
  : Prog World (list Action) unit :=
  fun '(sys, l) =>
    let '(r, w') := c (world sys) in
    let s' := ({| world := w'; events := events sys |}, (l ++ [a])%list) in
    match r with
    | None => (Done tt, s')
    | Some e => (Thrown e, s')
    end.

Definition runPublish (type : string) (projectPath : option string)
  : Prog World (list Action) unit :=
  if noProject projectPath
  then emit (ShowWarningMessage "Please select a target project from the dropdown first.")
  else
    let projectPath := match projectPath with Some p => p | None => "" end in
    let packageJsonPath := path_join projectPath "package.json" in
    exists_ <- query (fun w => Some (existsSync w packageJsonPath)) "" ;;
    if negb exists_
    then emit (ShowErrorMessage ("No package.json found at: " ++ projectPath))
    else
      tryCatch
        (act (Publish type projectPath) (Publisher_publish type projectPath) ;;
         emit (ShowInformationMessage
                 ("Successfully published " ++ path_basename projectPath ++ " "
                  ++ type ++ " update!")) ;;
         call scanFrame0 scanForSuite)
        (fun err => emit (ShowErrorMessage err)).

Definition runPackage (projectPath : option string) : Prog World (list Action) unit :=
  if noProject projectPath
  then emit (ShowWarningMessage "Please select a target project from the dropdown first.")
  else
    let projectPath := match projectPath with Some p => p | None => "" end in
    tryCatch
      (command (PackageExtension projectPath) (Publisher_packageExtension projectPath) ;;
       emit (ShowInformationMessage
               ("Successfully packaged " ++ path_basename projectPath ++ "!")) ;;
       call scanFrame0 scanForSuite)
      (fun err => emit (ShowErrorMessage err)).


(** A string of white space only. *)
Fixpoint blank (s : string) : bool :=
  match s with
  | EmptyString => true
  | String c r => JS.isWhiteSpace c && blank r
  end.

End Actions.

(* ===================================================================== *)
(** ** runAudit *)
(* ===================================================================== *)

(** An element of [allResults]. *)
Module AuditReport.
Record t : Type := {
  project : string;
  version : string;
  results : list ValidationResult.t
}.
End AuditReport.

Section Audit.

Context {World : Type} {host : Host World} {nodefs : NodeFs World}.

(** One turn of the loop of [runAudit]. *)
Definition auditProject (file : string) : Prog World (list AuditReport.t) unit :=
  let projectDir := path_dirname file in
  let projectName := path_basename projectDir in
  tryCatch
    (contentRaw <- query (fun w => readFile w file) "FileNotFound" ;;
     pkg <- query (fun _ => JSON_parse contentRaw) "SyntaxError" ;;
     if negb (JS.truthyProp (PackageJson.publisher pkg))
     then ret tt
     else
       results <- query (fun w => Some (Validator.validatePackageJson w projectDir)) "" ;;
       assign (fun allResults =>
                 (allResults ++ [ {| AuditReport.project := projectName;
                                     AuditReport.version := PackageJson.version pkg;
                                     AuditReport.results := results |} ])%list))
    (fun _ => ret tt).

(** [runAudit]; the value returned is the [allResults] array of the
    'auditResults' message, [None] when the method returns before
    posting. *)
Definition runAudit : Prog World (list AuditReport.t) (option (list AuditReport.t)) :=
  ws <- query (fun w => Some (workspaceFolders w)) "" ;;
  if negb ws then ret None
  else
    packageJsons <- query (fun w => Some (findFiles w "**/package.json"
                             "**/node_modules/**")) "" ;;
    forEach packageJsons auditProject ;;
    allResults <- locals ;;
    ret (Some allResults).

(** The report expected for a manifest: none unless it is publishable. *)
Definition expectedReports (w : World) (file : string) : list AuditReport.t :=
  match publishableAt w file with
  | Some pkg =>
      [ {| AuditReport.project := path_basename (path_dirname file);
           AuditReport.version := PackageJson.version pkg;
           AuditReport.results := Validator.validatePackageJson w (path_dirname file) |} ]
  | None => []
  end.

End Audit.

(* ===================================================================== *)
(** ** _recursiveList *)
(* ===================================================================== *)

(** What [vscode.workspace.fs.readDirectory] finds at a folder and below:
    the call throws, or gives the entries in its order, each with a name
    and a file type. The listing compares the type with [Directory] and
    nothing else (a symbolic link to a directory has another type), so an
    entry is a directory, with what reading it gives, or anything else. *)
Module Folder.

#[local] Unset Elimination Schemes.
Inductive t : Type :=
| Unreadable (message : string)
| Entries (entries : list (string * entry))
with entry : Type :=
| Other
| Directory (content : t).
#[local] Set Elimination Schemes.

Definition below (P : t -> Prop) (e : entry) : Prop :=
  match e with
  | Other => True
  | Directory content => P content
  end.

Section Induction.

Variable P : t -> Prop.
Hypothesis unreadable : forall message, P (Unreadable message).
Hypothesis readable :
  forall entries, Forall (fun ne => below P (snd ne)) entries -> P (Entries entries).

Fixpoint induction (d : t) : P d :=
  match d with
  | Unreadable message => unreadable message
  | Entries entries =>
      readable entries
        ((fix all (l : list (string * entry)) : Forall (fun ne => below P (snd ne)) l :=
            match l with
            | [] => Forall_nil _
            | ne :: rest =>
                Forall_cons ne
                  (match ne as x return below P (snd x) with
                   | (_, Other) => I
                   | (_, Directory content) => induction content
                   end)
                  (all rest)
            end) entries)
  end.

End Induction.

End Folder.

Section RecursiveList.

Context {World : Type} {host : Host World}.

(** The directory names the listing does not enter. *)
Definition ignored (name : string) : bool :=
  String.eqb name "node_modules" || String.eqb name ".git"
  || String.eqb name ".conduit" || String.eqb name ".agent".

(** [relative ? path.join(relative, name) : name]. *)
Definition relPath (relative name : string) : string :=
  if JS.truthyString relative then path_join relative name else name.

(** The [for] loop of [_recursiveList], [self] being the call of the
    method on a subfolder. *)
Definition listEntries (self : Folder.t -> string -> outcome (list string))
    (relative : string)
  : list (string * Folder.entry) -> list string -> outcome (list string) :=
  fix loop (entries : list (string * Folder.entry)) (results : list string) :=
    match entries with
    | [] => Done results
    | (name, Folder.Directory content) :: rest =>
        if ignored name then loop rest results
        else match self content (relPath relative name) with
             | Done subResults => loop rest (results ++ subResults)%list
             | Thrown e => Thrown e
             end
    | (name, Folder.Other) :: rest => loop rest (results ++ [relPath relative name])%list
    end.

Fixpoint _recursiveList (dir : Folder.t) (relative : string) : outcome (list string) :=
  match dir with
  | Folder.Unreadable message => Thrown message
  | Folder.Entries entries => listEntries _recursiveList relative entries []
  end.

(** The files the listing is expected to show, each as its chain of
    names from the folder listed: an entry that is not a directory, in a
    chain of directories none of which has an ignored name. *)
Inductive fileAt : Folder.t -> list string -> Prop :=
| fileHere (entries : list (string * Folder.entry)) (name : string) :
    In (name, Folder.Other) entries -> fileAt (Folder.Entries entries) [name]
| fileBelow (entries : list (string * Folder.entry)) (name : string)
    (content : Folder.t) (names : list string) :
    In (name, Folder.Directory content) entries ->
    ignored name = false ->
    fileAt content names ->
    fileAt (Folder.Entries entries) (name :: names).

(** A folder that cannot be read, at the end of a chain of directories
    none of which has an ignored name. *)
Inductive unreadableBelow : Folder.t -> Prop :=
| unreadableHere (message : string) : unreadableBelow (Folder.Unreadable message)
| unreadableDeeper (entries : list (string * Folder.entry)) (name : string)
    (content : Folder.t) :
    In (name, Folder.Directory content) entries ->
    ignored name = false ->
    unreadableBelow content ->
    unreadableBelow (Folder.Entries entries).

(** The path shown for a chain of names. *)
Definition joined (relative : string) (names : list string) : string :=
  fold_left relPath names relative.

(** The chains of the files below a folder, folder by folder in the order
    of the entries. *)
Fixpoint files (dir : Folder.t) : list (list string) :=
  match dir with
  | Folder.Unreadable _ => []
  | Folder.Entries entries =>
      flat_map (fun ne =>
                  match ne with
                  | (name, Folder.Other) => [[name]]
                  | (name, Folder.Directory content) =>
                      if ignored name then [] else map (cons name) (files content)
                  end) entries
  end.

(** What a call is expected to give: the paths of [files], or a throw when
    some folder on the way cannot be read. *)
Definition listed (dir : Folder.t) : Prop :=
  forall relative,
    (_recursiveList dir relative = Done (map (joined relative) (files dir))
     /\ ~ unreadableBelow dir)
    \/ ((exists e, _recursiveList dir relative = Thrown e) /\ unreadableBelow dir).

End RecursiveList.

Module DemoFolder.

(** A workspace with a README, a [src] folder holding two files and an
    empty folder, a [node_modules] folder that cannot be read, and a file
    named [.git]. *)
Definition workspace : Folder.t :=
  Folder.Entries
    [("README.md", Folder.Other);
     ("src", Folder.Directory
               (Folder.Entries
                  [("extension.ts", Folder.Other);
                   ("empty", Folder.Directory (Folder.Entries []));
                   ("Publisher.ts", Folder.Other)]));
     ("node_modules", Folder.Directory (Folder.Unreadable "EACCES"));
     (".git", Folder.Other)].

(** The same with an unreadable folder under [src]. *)
Definition locked : Folder.t :=
  Folder.Entries
    [("README.md", Folder.Other);
     ("src", Folder.Directory
               (Folder.Entries
                  [("extension.ts", Folder.Other);
                   ("private", Folder.Directory (Folder.Unreadable "EACCES"))]))].

End DemoFolder.

(* ===================================================================== *)
(** ** getNonce *)
(* ===================================================================== *)

(** The arithmetic of [getNonce]. Numbers carry no sign of zero here; a
    product that is zero is read by [Math.floor] and [charAt] as 0 either
    way. *)
Module JSMath.

(** [x * y]. *)
Definition mul (x y : JS.number) : JS.number :=
  match x, y with
  | JS.NaN, _ => JS.NaN
  | _, JS.NaN => JS.NaN
  | JS.Infinity s, JS.Infinity t => JS.Infinity (xorb s t)
  | JS.Infinity s, JS.Finite q =>
      match Qnum q with
      | Z0 => JS.NaN
      | Zpos _ => JS.Infinity s
      | Zneg _ => JS.Infinity (negb s)
      end
  | JS.Finite q, JS.Infinity s =>
      match Qnum q with
      | Z0 => JS.NaN
      | Zpos _ => JS.Infinity s
      | Zneg _ => JS.Infinity (negb s)
      end
  | JS.Finite a, JS.Finite b => JS.roundToDouble (a * b)
  end.

(** [Math.floor]. *)
Definition floor (x : JS.number) : JS.number :=
  match x with
  | JS.Finite q => JS.Finite (inject_Z (Qnum q / Zpos (Qden q)))
  | _ => x
  end.

(** [s.charAt(pos)]: the position is truncated, NaN counting as 0; a
    position outside the string gives the empty string. *)
Definition charAt (s : string) (pos : JS.number) : string :=
  match pos with
  | JS.NaN => match String.get 0 s with Some c => String c "" | None => "" end
  | JS.Infinity _ => ""
  | JS.Finite q =>
      let i := Z.quot (Qnum q) (Zpos (Qden q)) in
      if i <? 0 then ""
      else match String.get (Z.to_nat i) s with
           | Some c => String c ""
           | None => ""
           end
  end.

End JSMath.

(** A number that [Math.random] can return: at least 0, below 1, and a
    multiple of a power of two by less than 2^53, as every double is. *)
Definition unitFraction (x : JS.number) : Prop :=
  match x with
  | JS.Finite q =>
      exists m k : Z,
        0 <= m < 2 ^ 53 /\ 0 <= k /\ Qnum q * 2 ^ k = m * Zpos (Qden q) /\ m < 2 ^ k
  | _ => False
  end.

Definition alphanumeric (c : ascii) : bool :=
  let n := nat_of_ascii c in
  ((65 <=? n) && (n <=? 90) || (97 <=? n) && (n <=? 122) || (48 <=? n) && (n <=? 57))%nat.

Fixpoint allChars (p : ascii -> bool) (s : string) : bool :=
  match s with
  | EmptyString => true
  | String c r => p c && allChars p r
  end.

Section Nonce.

(** [Math.random] draws from a generator of some type [G]. *)
Context {G : Type} (Math_random : G -> JS.number * G).

Definition possible : string :=
  "ABCDEFGHIJKLMNOPQRSTUVWXYZabcdefghijklmnopqrstuvwxyz0123456789".

(** The character one turn of the loop appends. *)
Definition pick (r : JS.number) : string :=
  JSMath.charAt possible
    (JSMath.floor (JSMath.mul r (JS.Finite (inject_Z (Z.of_nat (String.length possible)))))).

(** [turns] turns of the loop, from the text built so far. *)
Fixpoint nonceLoop (turns : nat) (text : string) (g : G) : string * G :=
  match turns with
  | O => (text, g)
  | S n =>
      let (r, g') := Math_random g in
      nonceLoop n (text ++ pick r) g'
  end.

Definition getNonce (g : G) : string * G := nonceLoop 32 "" g.

End Nonce.

Module DemoRandom.

(** A generator that steps through the multiples of 1/64. *)
Definition draw (g : Z) : JS.number * Z :=
  (JS.Finite (Qmake (g mod 64) 64), g + 37).

End DemoRandom.

(* ===================================================================== *)
(** ** The build, project by project *)
(* ===================================================================== *)

Section BuildRun.

Context {World : Type} {host : Host World}.

(** What the loop of [runCompileAll] is expected to do with a list of
    projects: the build commands in order, the names of the projects that
    failed, and the world left. Each project is checked on the world the
    projects before it left. *)
Fixpoint buildRun (l : list Project.t) (w : World) : list Event * list string * World :=
  match l with
  | [] => ([], [], w)
  | p :: r =>
      if skipsBuild w p then buildRun r w
      else
        let '(commands, failed, w') := buildRun r (snd (buildCommands p w)) in
        ((buildTrace p w ++ commands)%list,
         match fst (buildCommands p w) with
         | None => failed
         | Some _ => path_basename (Project.path p) :: failed
         end,
         w')
  end.

End BuildRun.

(* ===================================================================== *)
(** ** Vocabulary for the components of a version *)
(* ===================================================================== *)



(* ===================================================================== *)
(** ** A suite at the boundary of the staleness test *)
(* ===================================================================== *)

Module DemoBoundary.

(** Three buildable projects. [alpha]'s package file carries the time of
    its source folder, [beta]'s is older than its source folder, [gamma]
    has its package file and no [src] folder. The builds of the listed
    folders fail. *)
Definition suite (broken : list string) : Demo.World :=
  {| Demo.folders := true;
     Demo.manifests := [("/ws/alpha/package.json", "alpha||1.0.0|acme|tsc");
                        ("/ws/beta/package.json", "beta||1.2.0|acme|tsc");
                        ("/ws/gamma/package.json", "gamma||0.3.1|acme|tsc")];
     Demo.mtimes := [("/ws/alpha/alpha-1.0.0.vsix", 2000); ("/ws/alpha/src", 2000);
                     ("/ws/beta/beta-1.2.0.vsix", 2000); ("/ws/beta/src", 3000);
                     ("/ws/gamma/gamma-0.3.1.vsix", 2000)];
     Demo.extensions := [];
     Demo.clock := 10000;
     Demo.brokenBuilds := broken;
     Demo.rejectedInstalls := [] |}.

Definition projects : list Project.t :=
  [Demo.project "alpha" "1.0.0"; Demo.project "beta" "1.2.0";
   Demo.project "gamma" "0.3.1"].

(** The invocations of the compiler in a run of "compile all", the count
    of successes and the failed list it ends with. *)
Definition outcome (broken : list string) : list Event * Z * list string :=
  let '(_, (sys, fr)) := runCompileAll (Demo.start (suite broken) compileFrame0) in
  (filter isRunCompile (events sys), successCount fr, failedProjects fr).

End DemoBoundary.

(* ===================================================================== *)
(** ** Manifests and their typed view *)
(* ===================================================================== *)

Section TypedManifests.

Context {World : Type} {host : Host World} {nodefs : NodeFs World}.

(** What a [PackageJson.t] keeps of an optional member: the string
    itself, or nothing for a member that is absent or falsy. A truthy
    member that is not a string has no such view. *)
Definition viewOfOptional (v : option Json.value) (s : option string) : Prop :=
  match v with
  | Some (Json.Str t) => s = Some t
  | _ => Json.truthy v = false /\ s = None
  end.

(** The record is the view of the parsed manifest: [name] and [version]
    are strings in it, [displayName] and [publisher] strings or falsy. *)
Definition viewOf (content : Json.value) (pkg : PackageJson.t) : Prop :=
  Json.prop content "name" = Some (Some (Json.Str (PackageJson.name pkg)))
  /\ Json.prop content "version" = Some (Some (Json.Str (PackageJson.version pkg)))
  /\ (exists d, Json.prop content "displayName" = Some d
                /\ viewOfOptional d (PackageJson.displayName pkg))
  /\ (exists p, Json.prop content "publisher" = Some p
                /\ viewOfOptional p (PackageJson.publisher pkg)).

(** [pkg.publisher] is truthy. *)
Definition publishableValue (content : Json.value) : bool :=
  match Json.prop content "publisher" with
  | Some p => Json.truthy p
  | None => false
  end.

(** [JSON_parse] is the typed view of [JSON.parse] on the manifests among
    [files]: it fails where [JSON.parse] throws, it gives a manifest with a
    publisher its view, which asks for strings where the scan uses strings
    ([version.split], the template of the package file name), and a
    manifest without publisher a record without publisher, if any. A
    manifest such as {"name": "alpha", "version": 2, "publisher": "acme"}
    has no view: a workspace that holds one is not typed. *)
Definition typedWorkspace (w : World) (files : list string) : Prop :=
  forall file raw,
    In file files ->
    readFile w file = Some raw ->
    match JSON_parse_value raw with
    | None => JSON_parse raw = None
    | Some content =>
        if publishableValue content
        then exists pkg, JSON_parse raw = Some pkg /\ viewOf content pkg
        else match JSON_parse raw with
             | Some pkg => JS.truthyProp (PackageJson.publisher pkg) = false
             | None => True
             end
    end.

End TypedManifests.

Module DemoManifest.

Definition member (key : string) (v : option string) : list (string * Json.value) :=
  match v with
  | Some s => [(key, Json.Str s)]
  | None => []
  end.

(** The JSON value a manifest of [Demo] stands for. *)
Definition valueOf (raw : string) : option Json.value :=
  match Demo.parse raw with
  | Some pkg =>
      Some (Json.Obj ([("name", Json.Str (PackageJson.name pkg));
                       ("version", Json.Str (PackageJson.version pkg))]
                      ++ member "displayName" (PackageJson.displayName pkg)
                      ++ member "publisher" (PackageJson.publisher pkg)))
  | None => None
  end.

Definition view : NodeFs Demo.World :=
  {| existsSync := DemoNode.present;
     readFileSync := fun w path => Demo.lookup path (Demo.manifests w);
     writeFileSync := DemoNode.write;
     unlinkSync := DemoNode.remove;
     JSON_parse_value := valueOf |}.

End DemoManifest.

(* ===================================================================== *)
(** ** Facts about numbers and [split] *)
(* ===================================================================== *)

Lemma lt_irrefl (x : JS.number) : JS.lt x x = false.
Proof.
  destruct x as [|[|]|q]; simpl; try reflexivity.
  assert (E : (q ?= q)%Q = Eq) by (apply Qeq_alt; reflexivity).
  rewrite E. reflexivity.
Qed.

Lemma lt_asym (x y : JS.number) : JS.lt x y = true -> JS.lt y x = false.
Proof.
  destruct x as [|[|]|a], y as [|[|]|b]; simpl; try reflexivity; try discriminate.
  rewrite <- (Qcompare_antisym a b).
  destruct (a ?= b)%Q; simpl; intros H; try reflexivity; discriminate.
Qed.


Lemma compareLoop_antisym (p1 p2 : list JS.number) (steps i : nat) :
  compareLoop p1 p2 i steps = - compareLoop p2 p1 i steps.
Proof.
  revert i. induction steps as [|k IH]; intros i; simpl.
  - reflexivity.
  - unfold JS.gt.
    destruct (JS.lt (JS.orZero (nth_error p2 i)) (JS.orZero (nth_error p1 i))) eqn:E1.
    + rewrite (lt_asym _ _ E1). reflexivity.
    + destruct (JS.lt (JS.orZero (nth_error p1 i)) (JS.orZero (nth_error p2 i)));
        [reflexivity | apply IH].
Qed.

Lemma compareLoop_refl (p : list JS.number) (steps i : nat) :
  compareLoop p p i steps = 0.
Proof.
  revert i. induction steps as [|k IH]; intros i; simpl.
  - reflexivity.
  - unfold JS.gt. rewrite lt_irrefl. apply IH.
Qed.

Lemma compareLoop_range (p1 p2 : list JS.number) (steps i : nat) :
  compareLoop p1 p2 i steps = -1 \/ compareLoop p1 p2 i steps = 0
  \/ compareLoop p1 p2 i steps = 1.
Proof.
  revert i. induction steps as [|k IH]; intros i; simpl.
  - right; left; reflexivity.
  - destruct (JS.gt _ _); [right; right; reflexivity|].
    destruct (JS.lt _ _); [left; reflexivity | apply IH].
Qed.

Lemma split_nonempty (sep : ascii) (s : string) : JS.split sep s <> [].
Proof.
  destruct s as [|c r]; simpl; [discriminate|].
  destruct (Ascii.eqb c sep); [discriminate|].
  destruct (JS.split sep r); discriminate.
Qed.

Lemma join_split (sep : ascii) (s : string) : JS.join sep (JS.split sep s) = s.
Proof.
  induction s as [|c r IH]; simpl; [reflexivity|].
  destruct (Ascii.eqb_spec c sep) as [->|N].
  - pose proof (split_nonempty sep r) as NE.
    destruct (JS.split sep r) as [|h t] eqn:E; [congruence|].
    change (JS.join sep (EmptyString :: h :: t))
      with (String sep (JS.join sep (h :: t))).
    rewrite IH. reflexivity.
  - pose proof (split_nonempty sep r) as NE.
    destruct (JS.split sep r) as [|h t] eqn:E; [congruence|].
    destruct t as [|h' t'].
    + simpl in IH. simpl. rewrite IH. reflexivity.
    + change (JS.join sep (String c h :: h' :: t'))
        with (String c (h ++ String sep (JS.join sep (h' :: t')))).
      change (JS.join sep (h :: h' :: t'))
        with (h ++ String sep (JS.join sep (h' :: t'))) in IH.
      rewrite IH. reflexivity.
Qed.





(* ===================================================================== *)
(** ** Facts about [compareVersions] *)
(* ===================================================================== *)

Lemma compareVersions_eq (v1 v2 : string) :
  compareVersions v1 v2 =
  if noVersion v1 || noVersion v2 then 0
  else compareLoop (map JS.Number (JS.split "." v1)) (map JS.Number (JS.split "." v2)) 0 3.
Proof.
  unfold compareVersions, noVersion.
  destruct (JS.truthyString v1), (JS.truthyString v2),
    (String.eqb v1 "unknown"), (String.eqb v2 "unknown"); reflexivity.
Qed.

Lemma noVersion_iff (v : string) :
  noVersion v = true <-> v = "" \/ v = "unknown".
Proof.
  unfold noVersion. split.
  - intros H. apply orb_prop in H. destruct H as [H|H].
    + left. destruct v; [reflexivity | discriminate].
    + right. apply String.eqb_eq. exact H.
  - intros [->| ->]; reflexivity.
Qed.

Lemma noVersion_one_component (v : string) :
  noVersion v = true -> length (JS.split "." v) = 1%nat.
Proof.
  intros H. apply noVersion_iff in H. destruct H as [->| ->]; reflexivity.
Qed.

Lemma compareVersions_antisym (a b : string) :
  compareVersions a b = - compareVersions b a.
Proof.
  rewrite !compareVersions_eq, (orb_comm (noVersion b)).
  destruct (noVersion a || noVersion b); [reflexivity | apply compareLoop_antisym].
Qed.

Lemma compareVersions_refl (a : string) : compareVersions a a = 0.
Proof.
  rewrite compareVersions_eq.
  destruct (noVersion a || noVersion a); [reflexivity | apply compareLoop_refl].
Qed.

Lemma compareVersions_range (a b : string) :
  compareVersions a b = -1 \/ compareVersions a b = 0 \/ compareVersions a b = 1.
Proof.
  rewrite compareVersions_eq.
  destruct (noVersion a || noVersion b); [right; left; reflexivity | apply compareLoop_range].
Qed.












(** C9. On well-formed three-component versions, swapping the arguments
    negates the result; and a version compares equal to itself. *)
Theorem compareVersions_antisymmetric_reflexive :
  (forall a b : string,
      wellFormedVersion a = true -> wellFormedVersion b = true ->
      compareVersions a b = - compareVersions b a)
  /\ (forall a : string, compareVersions a a = 0).
Proof.
  split.
  - intros a b _ _. apply compareVersions_antisym.
  - apply compareVersions_refl.
Qed.

Lemma compareVersions_antisymmetric_reflexive_witness :
  compareVersions "1.2.3" "1.2.4" = - compareVersions "1.2.4" "1.2.3"
  /\ compareVersions "2.0.0" "2.0.0" = 0.
Proof.
  split.
  - apply (proj1 compareVersions_antisymmetric_reflexive "1.2.3" "1.2.4");
      vm_compute; reflexivity.
  - apply (proj2 compareVersions_antisymmetric_reflexive "2.0.0").
Defined.

(** The comparisons the specification lists. *)
Example compareVersions_listed :
  compareVersions "1.2.3" "1.2.4" = -1
  /\ compareVersions "2.0.0" "1.9.9" = 1
  /\ compareVersions "1.0" "1.0.0" = 0
  /\ compareVersions "unknown" "1.0.0" = 0
  /\ compareVersions "" "1.0.0" = 0
  /\ compareVersions "1.2.0" "1.1.0" = 1.
Proof. vm_compute. repeat split; reflexivity. Qed.

(* ===================================================================== *)
(** ** Facts about the suite scan *)
(* ===================================================================== *)

(** Runs the monad's plumbing; what is left are the host's answers. *)
Ltac run :=
  cbv beta iota zeta delta
    [bind tryCatch assign modify locals query ret emit stat command call fst snd].

Section ScanFacts.

Context {World : Type} {host : Host World}.


(** The first [try] of the loop body never throws and leaves the system
    as it was; what it assigns is decided by the two [stat]s. *)
Lemma checkArtifact_run (dir vsix : string) (sys : Sys World) (fr : ScanFrame) :
  checkArtifact dir vsix (sys, fr) =
  (Done tt,
   (sys,
    match fs_stat (world sys) vsix with
    | None => set_isStale true fr
    | Some a =>
        let fr1 := set_vsixModifiedTime (formatTime (Date_now (world sys)) a)
                     (set_vsixExists true fr) in
        match fs_stat (world sys) (path_join dir "src") with
        | Some s => if s >? a then set_isStale true fr1 else fr1
        | None => fr1
        end
    end)).
Proof.
  unfold checkArtifact. run.
  destruct (fs_stat (world sys) vsix) as [a|]; [|reflexivity].
  destruct (fs_stat (world sys) (path_join dir "src")) as [s|]; [|reflexivity].
  destruct (s >? a); reflexivity.
Qed.

(** The loop body on a publishable project: it pushes one entry, whose
    status is the one section 4.3 of the specification describes, and leaves
    the system untouched. *)
Lemma scanFile_run (file : string) (pkg : PackageJson.t) (sys : Sys World) (fr : ScanFrame) :
  manifestAt (world sys) file pkg ->
  let dir := path_dirname file in
  let vsix := artifactPath dir (PackageJson.name pkg) (PackageJson.version pkg) in
  let artifact := fs_stat (world sys) vsix in
  let source := fs_stat (world sys) (sourcePath dir) in
  let installed := findInstalled pkg (extensions_all (world sys)) in
  let cmp := option_map (fun inst => compareVersions (PackageJson.version pkg)
                 (PackageJson.version (Extension.packageJSON inst))) installed in
  let manifest :=
    match installed with
    | Some inst => fs_stat (world sys) (path_join (Extension.extensionPath inst) "package.json")
    | None => None
    end in
  exists fr' e,
    scanFile file (sys, fr) = (Done tt, (sys, fr'))
    /\ suite fr' = (suite fr ++ [e])%list
    /\ SuiteEntry.status e = statusBySpec cmp artifact source manifest
    /\ SuiteEntry.path e = vsix
    /\ isStale fr' = staleByOracle artifact source
    /\ vsixExists fr' = isSome artifact.
Proof.
  intros (raw & Hread & Hparse & Hpub).
  intros dir vsix artifact source installed cmp manifest.
  unfold scanFile. run. rewrite Hread. run. rewrite Hparse. run. rewrite Hpub.
  cbn [negb]. rewrite checkArtifact_run.
  fold dir. unfold artifactPath in vsix. fold vsix. fold artifact.
  unfold sourcePath in source. fold source. fold installed.
  unfold classify. run. subst cmp manifest.
  destruct artifact as [a|] eqn:Ha;
    [destruct source as [s|] eqn:Hs; [destruct (s >? a) eqn:Hsa|] |];
    (destruct installed as [inst|] eqn:Hi;
     [cbn [option_map]; destruct (compareVersions _ _ >? 0) eqn:Hc |]);
    cbn [set_isStale set_vsixExists set_vsixModifiedTime set_status
         isStale vsixExists status suite];
    try (fold artifact; rewrite Ha).
  all: try (destruct (fs_stat (world sys)
                        (path_join (Extension.extensionPath inst) "package.json"))
              as [m|] eqn:Hm; [destruct (a >? m + 5000) eqn:Ham|]).
  all: eexists; eexists; (split; [reflexivity|]); cbn; unfold staleByOracle;
    rewrite ?Hc, ?Hsa, ?Ham; repeat split; reflexivity.
Qed.

(** C1. A project whose declared version is newer than the installed one
    is reported as an update, whatever the package file and the source
    folder look like and whatever the time stamps are. *)
Theorem newer_version_is_update
    (file : string) (pkg : PackageJson.t) (inst : Extension.t)
    (sys : Sys World) (fr : ScanFrame) :
  manifestAt (world sys) file pkg ->
  findInstalled pkg (extensions_all (world sys)) = Some inst ->
  compareVersions (PackageJson.version pkg)
                  (PackageJson.version (Extension.packageJSON inst)) > 0 ->
  exists fr' e,
    scanFile file (sys, fr) = (Done tt, (sys, fr'))
    /\ suite fr' = (suite fr ++ [e])%list
    /\ SuiteEntry.status e = Update.
Proof.
  intros M I C. destruct (scanFile_run file pkg sys fr M) as (fr' & e & R & S & St & _).
  exists fr', e. repeat split; try assumption.
  rewrite St, I. cbn [option_map statusBySpec].
  apply Z.gtb_gt in C. rewrite C. reflexivity.
Qed.

(** C3. The staleness flag of the scan: set when the package file is
    missing, whatever the source folder; with the package file present,
    set exactly when the source folder is strictly newer; clear when the
    source folder cannot be inspected. *)
Theorem scan_staleness
    (file : string) (pkg : PackageJson.t) (sys : Sys World) (fr : ScanFrame) :
  manifestAt (world sys) file pkg ->
  let artifact :=
    fs_stat (world sys)
      (artifactPath (path_dirname file) (PackageJson.name pkg) (PackageJson.version pkg)) in
  let source := fs_stat (world sys) (sourcePath (path_dirname file)) in
  exists fr',
    scanFile file (sys, fr) = (Done tt, (sys, fr'))
    /\ (artifact = None -> isStale fr' = true)
    /\ (forall a s, artifact = Some a -> source = Some s ->
                    (isStale fr' = true <-> s > a))
    /\ (forall a, artifact = Some a -> source = None -> isStale fr' = false).
Proof.
  intros M artifact source.
  destruct (scanFile_run file pkg sys fr M) as (fr' & e & R & _ & _ & _ & St & _).
  fold artifact source in St.
  exists fr'. split; [exact R|]. rewrite St. split; [|split].
  - intros ->. reflexivity.
  - intros a s -> ->. cbn. rewrite Z.gtb_gt. reflexivity.
  - intros a -> ->. reflexivity.
Qed.

(** C4. Installed, version not newer, package file present and not stale:
    the status is update exactly when the package file is more than 5000
    ms younger than the installed manifest, installed otherwise; and
    installed when the installed manifest cannot be inspected. The entry
    is pushed in every case: nothing is thrown. *)
Theorem same_version_uses_grace_window
    (file : string) (pkg : PackageJson.t) (inst : Extension.t) (a : Z)
    (sys : Sys World) (fr : ScanFrame) :
  manifestAt (world sys) file pkg ->
  findInstalled pkg (extensions_all (world sys)) = Some inst ->
  compareVersions (PackageJson.version pkg)
                  (PackageJson.version (Extension.packageJSON inst)) <= 0 ->
  fs_stat (world sys)
    (artifactPath (path_dirname file) (PackageJson.name pkg) (PackageJson.version pkg))
  = Some a ->
  (forall s, fs_stat (world sys) (sourcePath (path_dirname file)) = Some s -> s <= a) ->
  exists fr' e,
    scanFile file (sys, fr) = (Done tt, (sys, fr'))
    /\ suite fr' = (suite fr ++ [e])%list
    /\ match fs_stat (world sys)
               (path_join (Extension.extensionPath inst) "package.json") with
       | Some m => (SuiteEntry.status e = Update <-> a > m + 5000)
                   /\ (SuiteEntry.status e = Installed <-> a <= m + 5000)
       | None => SuiteEntry.status e = Installed
       end.
Proof.
  intros M I C A NS.
  destruct (scanFile_run file pkg sys fr M) as (fr' & e & R & S & St & _).
  exists fr', e. repeat split; try assumption.
  rewrite St, I, A. cbn [option_map statusBySpec].
  assert (Hc : (compareVersions (PackageJson.version pkg)
                  (PackageJson.version (Extension.packageJSON inst)) >? 0) = false)
    by (rewrite Z.gtb_ltb; apply Z.ltb_ge; exact C).
  rewrite Hc.
  assert (Hs : staleByOracle (Some a)
                 (fs_stat (world sys) (sourcePath (path_dirname file))) = false).
  { unfold staleByOracle.
    destruct (fs_stat (world sys) (sourcePath (path_dirname file))) as [s|];
      [|reflexivity].
    specialize (NS s eq_refl). rewrite Z.gtb_ltb. apply Z.ltb_ge. exact NS. }
  rewrite Hs.
  destruct (fs_stat (world sys) (path_join (Extension.extensionPath inst) "package.json"))
    as [m|]; [|reflexivity].
  destruct (Z.gtb_spec a (m + 5000)) as [G|L]; split; split; intros H;
    try reflexivity; try discriminate; lia.
Qed.

(** C8. Nothing installed under the project's name and publisher: the
    status is new when the package file exists and stale when it does not,
    whatever the source folder's time stamp. *)
Theorem not_installed_is_new_or_stale
    (file : string) (pkg : PackageJson.t) (sys : Sys World) (fr : ScanFrame) :
  manifestAt (world sys) file pkg ->
  findInstalled pkg (extensions_all (world sys)) = None ->
  exists fr' e,
    scanFile file (sys, fr) = (Done tt, (sys, fr'))
    /\ suite fr' = (suite fr ++ [e])%list
    /\ SuiteEntry.status e =
       match fs_stat (world sys)
               (artifactPath (path_dirname file) (PackageJson.name pkg)
                  (PackageJson.version pkg)) with
       | Some _ => New
       | None => Stale
       end.
Proof.
  intros M I. destruct (scanFile_run file pkg sys fr M) as (fr' & e & R & S & St & _).
  exists fr', e. repeat split; try assumption.
  rewrite St, I. reflexivity.
Qed.

End ScanFacts.

(** *** The scan on concrete worlds *)

Lemma alpha_manifest (stamps : list (string * Z)) (exts : list Extension.t) :
  manifestAt (Demo.alphaOnly stamps exts) "/ws/alpha/package.json" Demo.alpha.
Proof.
  exists "alpha|Alpha|1.2.0|acme|tsc". repeat split; reflexivity.
Defined.

Lemma newer_version_is_update_witness :
  exists fr' e,
    scanFile "/ws/alpha/package.json"
      (Demo.start (Demo.alphaOnly [] [Demo.installedAlpha "1.1.0"]) scanFrame0)
    = (Done tt,
       ({| world := Demo.alphaOnly [] [Demo.installedAlpha "1.1.0"]; events := [] |}, fr'))
    /\ suite fr' = [e]
    /\ SuiteEntry.status e = Update.
Proof.
  apply (newer_version_is_update (host := Demo.host)
           "/ws/alpha/package.json" Demo.alpha (Demo.installedAlpha "1.1.0")
           {| world := Demo.alphaOnly [] [Demo.installedAlpha "1.1.0"]; events := [] |}
           scanFrame0).
  - apply alpha_manifest.
  - reflexivity.
  - vm_compute. reflexivity.
Defined.

Lemma scan_staleness_witness :
  exists fr',
    scanFile "/ws/alpha/package.json"
      (Demo.start (Demo.alphaOnly [("/ws/alpha/alpha-1.2.0.vsix", 2000);
                                   ("/ws/alpha/src", 2000)] []) scanFrame0)
    = (Done tt,
       ({| world := Demo.alphaOnly [("/ws/alpha/alpha-1.2.0.vsix", 2000);
                                    ("/ws/alpha/src", 2000)] [];
           events := [] |}, fr'))
    /\ isStale fr' = false.
Proof.
  destruct (scan_staleness (host := Demo.host) "/ws/alpha/package.json" Demo.alpha
              {| world := Demo.alphaOnly [("/ws/alpha/alpha-1.2.0.vsix", 2000);
                                          ("/ws/alpha/src", 2000)] [];
                 events := [] |}
              scanFrame0 (alpha_manifest _ _)) as (fr' & R & _ & B & _).
  exists fr'. split; [exact R|].
  specialize (B 2000 2000 eq_refl eq_refl).
  destruct (isStale fr'); [|reflexivity].
  exfalso. assert (2000 > 2000) by (apply B; reflexivity). lia.
Defined.

Lemma same_version_uses_grace_window_witness :
  exists fr' e,
    scanFile "/ws/alpha/package.json"
      (Demo.start (Demo.alphaOnly [("/ws/alpha/alpha-1.2.0.vsix", 9000);
                                   ("/ws/alpha/src", 1000);
                                   ("/ext/alpha/package.json", 4000)]
                                  [Demo.installedAlpha "1.2.0"]) scanFrame0)
    = (Done tt,
       ({| world := Demo.alphaOnly [("/ws/alpha/alpha-1.2.0.vsix", 9000);
                                    ("/ws/alpha/src", 1000);
                                    ("/ext/alpha/package.json", 4000)]
                                   [Demo.installedAlpha "1.2.0"];
           events := [] |}, fr'))
    /\ suite fr' = [e]
    /\ SuiteEntry.status e = Installed.
Proof.
  destruct (same_version_uses_grace_window (host := Demo.host)
              "/ws/alpha/package.json" Demo.alpha (Demo.installedAlpha "1.2.0") 9000
              {| world := Demo.alphaOnly [("/ws/alpha/alpha-1.2.0.vsix", 9000);
                                          ("/ws/alpha/src", 1000);
                                          ("/ext/alpha/package.json", 4000)]
                                         [Demo.installedAlpha "1.2.0"];
                 events := [] |}
              scanFrame0) as (fr' & e & R & S & St).
  - apply alpha_manifest.
  - reflexivity.
  - vm_compute. discriminate.
  - reflexivity.
  - intros s H. vm_compute in H. injection H as <-. lia.
  - exists fr', e. repeat split; try assumption.
    change (fs_stat _ _) with (Some 4000) in St.
    apply (proj2 St). lia.
Defined.

Lemma not_installed_is_new_or_stale_witness :
  exists fr' e,
    scanFile "/ws/alpha/package.json"
      (Demo.start (Demo.alphaOnly [("/ws/alpha/alpha-1.2.0.vsix", 2000)] []) scanFrame0)
    = (Done tt,
       ({| world := Demo.alphaOnly [("/ws/alpha/alpha-1.2.0.vsix", 2000)] [];
           events := [] |}, fr'))
    /\ suite fr' = [e]
    /\ SuiteEntry.status e = New.
Proof.
  apply (not_installed_is_new_or_stale (host := Demo.host)
           "/ws/alpha/package.json" Demo.alpha
           {| world := Demo.alphaOnly [("/ws/alpha/alpha-1.2.0.vsix", 2000)] [];
              events := [] |}
           scanFrame0).
  - apply alpha_manifest.
  - reflexivity.
Defined.

(** The classification scenarios the specification lists, run through the
    whole scan. *)
Example scan_scenarios :
  (* 1.2.0, nothing installed, package file present: new *)
  (exists sys fr,
      scanForSuite (Demo.start (Demo.alphaOnly [("/ws/alpha/alpha-1.2.0.vsix", 2000)] [])
                      scanFrame0) = (Done tt, (sys, fr))
      /\ map SuiteEntry.status (suite fr) = [New])
  (* 1.2.0 against 1.1.0 installed, no package file at all: update *)
  /\ (exists sys fr,
      scanForSuite (Demo.start (Demo.alphaOnly [] [Demo.installedAlpha "1.1.0"])
                      scanFrame0) = (Done tt, (sys, fr))
      /\ map SuiteEntry.status (suite fr) = [Update])
  (* 1.2.0 against 1.2.0 installed, package file missing: stale *)
  /\ (exists sys fr,
      scanForSuite (Demo.start (Demo.alphaOnly [("/ws/alpha/src", 3000)]
                                  [Demo.installedAlpha "1.2.0"])
                      scanFrame0) = (Done tt, (sys, fr))
      /\ map SuiteEntry.status (suite fr) = [Stale]).
Proof.
  repeat split; eexists; eexists; split; vm_compute; reflexivity.
Qed.

(* ===================================================================== *)
(** ** Loops, read-only code, code that does not throw *)
(* ===================================================================== *)

Section Plumbing.

Context {World : Type} {host : Host World}.

Lemma forEach_app {S A : Type} (l1 l2 : list A) (body : A -> M S unit) (s : S) :
  forEach (l1 ++ l2) body s =
  match forEach l1 body s with
  | (Done _, s') => forEach l2 body s'
  | (Thrown e, s') => (Thrown e, s')
  end.
Proof.
  revert s. induction l1 as [|x r IH]; intros s; simpl.
  - reflexivity.
  - unfold bind. destruct (body x s) as [[u|e] s']; [apply IH | reflexivity].
Qed.

Lemma total_tryCatch {L : Type} (body : Prog World L unit) :
  total (tryCatch body (fun _ => ret tt)).
Proof.
  intros s. unfold tryCatch, ret. destruct (body s) as [[[]|e] s']; reflexivity.
Qed.

Lemma total_forEach {L A : Type} (body : A -> Prog World L unit) (l : list A) :
  (forall x, total (body x)) -> total (forEach l body).
Proof.
  intros H. induction l as [|x r IH]; intros s; simpl; [reflexivity|].
  unfold bind. specialize (H x s). destruct (body x s) as [[u|e] s']; simpl in H.
  - apply IH.
  - discriminate.
Qed.

Lemma readOnly_ret {L A : Type} (a : A) : readOnly (ret a : Prog World L A).
Proof. intros sys l. reflexivity. Qed.

Lemma readOnly_assign {L : Type} (f : L -> L) :
  readOnly (assign f : Prog World L unit).
Proof. intros sys l. reflexivity. Qed.

Lemma readOnly_locals {L : Type} : readOnly (locals : Prog World L L).
Proof. intros sys l. reflexivity. Qed.

Lemma readOnly_query {L A : Type} (q : World -> option A) (e : string) :
  readOnly (query q e : Prog World L A).
Proof. intros sys l. unfold query. cbn. destruct (q (world sys)); reflexivity. Qed.

Lemma readOnly_bind {L A B : Type} (m : Prog World L A) (f : A -> Prog World L B) :
  readOnly m -> (forall a, readOnly (f a)) -> readOnly (bind m f).
Proof.
  intros Hm Hf sys l. unfold bind. specialize (Hm sys l).
  destruct (m (sys, l)) as [[a|e] [sys' l']]; cbn in Hm; subst sys'.
  - apply Hf.
  - reflexivity.
Qed.

Lemma readOnly_tryCatch {L A : Type} (m : Prog World L A) (h : string -> Prog World L A) :
  readOnly m -> (forall e, readOnly (h e)) -> readOnly (tryCatch m h).
Proof.
  intros Hm Hh sys l. unfold tryCatch. specialize (Hm sys l).
  destruct (m (sys, l)) as [[a|e] [sys' l']]; cbn in Hm; subst sys'.
  - reflexivity.
  - apply Hh.
Qed.

Lemma readOnly_if {L A : Type} (b : bool) (p q : Prog World L A) :
  readOnly p -> readOnly q -> readOnly (if b then p else q).
Proof. destruct b; auto. Qed.

Lemma readOnly_forEach {L A : Type} (body : A -> Prog World L unit) (l : list A) :
  (forall x, readOnly (body x)) -> readOnly (forEach l body).
Proof.
  intros H. induction l as [|x r IH]; simpl.
  - apply readOnly_ret.
  - apply readOnly_bind; auto.
Qed.

Create HintDb readonly.
#[local] Hint Resolve readOnly_ret readOnly_assign readOnly_locals readOnly_query
  readOnly_if : readonly.

Lemma readOnly_scanFile (file : string) : readOnly (scanFile file).
Proof.
  unfold scanFile, checkArtifact, classify, stat.
  repeat match goal with
         | |- readOnly (tryCatch _ _) => apply readOnly_tryCatch
         | |- readOnly (bind _ _) => apply readOnly_bind
         | |- readOnly (match ?x with _ => _ end) => destruct x
         | |- readOnly _ => solve [auto with readonly]
         | |- forall _, _ => intro
         end.
Qed.

Lemma total_scanFile (file : string) : total (scanFile file).
Proof. apply total_tryCatch. Qed.

(** The scan looks at the world and posts at most one message. *)
Lemma scanForSuite_run (sys : Sys World) (fr : ScanFrame) :
  exists evs fr',
    scanForSuite (sys, fr)
    = (Done tt, ({| world := world sys; events := events sys ++ evs |}, fr'))
    /\ (evs = [] \/ exists suite, evs = [PostSuiteStatus suite]).
Proof.
  unfold scanForSuite. run.
  destruct (workspaceFolders (world sys)); cbn [negb].
  - set (files := findFiles _ _ _).
    pose proof (total_forEach scanFile files total_scanFile (sys, fr)) as T.
    pose proof (readOnly_forEach scanFile files readOnly_scanFile sys fr) as R.
    destruct (forEach files scanFile (sys, fr)) as [r [sys' fr']].
    cbn in T, R. subst r sys'.
    exists [PostSuiteStatus (suite fr')], fr'. split; [reflexivity | eauto].
  - exists [], fr. rewrite app_nil_r. destruct sys; split; [reflexivity | auto].
Qed.

End Plumbing.

(* ===================================================================== *)
(** ** Facts about the suite build *)
(* ===================================================================== *)

Section CompileFacts.

Context {World : Type} {host : Host World}.

Lemma smartCheck_run (p : Project.t) (sys : Sys World) (fr : CompileFrame) :
  smartCheck p (sys, fr)
  = (Done tt, (sys, set_needsBuild (negb (skipsBuild (world sys) p)) fr)).
Proof.
  unfold smartCheck, skipsBuild, artifactStat, sourceStat, artifactPath, sourcePath.
  run.
  destruct (fs_stat (world sys) (path_join (Project.path p) (toLowerCase _))) as [a|];
    [|reflexivity].
  destruct (fs_stat (world sys) (path_join (Project.path p) "src")) as [s|];
    [|reflexivity].
  destruct (s <? a); reflexivity.
Qed.

(** One turn of the build loop: never an exception; a project that passes
    the check is counted and nothing is run; otherwise the commands are
    run and the project is counted or its folder name recorded. *)
Lemma buildProject_run (p : Project.t) (sys : Sys World) (fr : CompileFrame) :
  buildProject p (sys, fr) =
  if skipsBuild (world sys) p
  then (Done tt, (sys, incr_successCount (set_needsBuild false fr)))
  else
    let name := path_basename (Project.path p) in
    (Done tt,
     ({| world := snd (buildCommands p (world sys));
         events :=
           events sys
           ++ ProgressReport ("Building " ++ name ++ "...")
              :: buildTrace p (world sys)
              ++ match fst (buildCommands p (world sys)) with
                 | None => []
                 | Some e => [ConsoleError ("Build failed for " ++ name ++ ":") e]
                 end |},
      match fst (buildCommands p (world sys)) with
      | None => incr_successCount (set_needsBuild true fr)
      | Some _ => push_failed name (set_needsBuild true fr)
      end)).
Proof.
  unfold buildProject. unfold bind at 1. rewrite smartCheck_run.
  destruct (skipsBuild (world sys) p); run; cbn [needsBuild set_needsBuild negb];
    [reflexivity|].
  unfold buildCommands, buildTrace. cbn [world events].
  destruct (Publisher_runCompile (Project.path p) (world sys)) as [[e|] w1].
  - cbn. rewrite <- !app_assoc. reflexivity.
  - cbn [world events].
    destruct (Publisher_packageExtension (Project.path p) w1) as [[e|] w2];
      cbn; rewrite <- !app_assoc; reflexivity.
Qed.

Lemma total_buildProject (p : Project.t) : total (buildProject p).
Proof.
  intros [sys fr]. rewrite buildProject_run.
  destruct (skipsBuild (world sys) p); reflexivity.
Qed.

Lemma total_buildLoop (l : list Project.t) : total (forEach l buildProject).
Proof. apply total_forEach. exact total_buildProject. Qed.

(** Every turn of the build loop adds one to the success count or one name
    to the failed list. *)
Lemma buildLoop_accounts (l : list Project.t) (sys : Sys World) (fr : CompileFrame) :
  exists sys' fr',
    forEach l buildProject (sys, fr) = (Done tt, (sys', fr'))
    /\ successCount fr' + Z.of_nat (length (failedProjects fr'))
       = successCount fr + Z.of_nat (length (failedProjects fr)) + Z.of_nat (length l)
    /\ nexgenProjects fr' = nexgenProjects fr
    /\ exists evs, events sys' = (events sys ++ evs)%list.
Proof.
  revert sys fr. induction l as [|p r IH]; intros sys fr.
  - exists sys, fr. cbn. repeat split; try lia. exists []. rewrite app_nil_r. reflexivity.
  - cbn [forEach]. unfold bind. rewrite buildProject_run.
    destruct (skipsBuild (world sys) p).
    + destruct (IH sys (incr_successCount (set_needsBuild false fr)))
        as (sys' & fr' & R & C & N & E).
      exists sys', fr'. cbn in C, N. repeat split; try assumption.
      rewrite C. cbn [length]. lia.
    + cbv beta iota zeta.
      match goal with
      | |- context [forEach r buildProject (?s, ?f)] =>
          destruct (IH s f) as (sys' & fr' & R & C & N & (evs & E))
      end.
      exists sys', fr'. split; [exact R|].
      destruct (fst (buildCommands p (world sys))); cbn in C, N, E |- *.
      * repeat split; try assumption.
        -- rewrite C, length_app. cbn [length]. lia.
        -- rewrite E, <- app_assoc. eexists. reflexivity.
      * repeat split; try assumption.
        -- rewrite C. lia.
        -- rewrite E, <- app_assoc. eexists. reflexivity.
Qed.

(** A run of projects that all pass the check: each is counted, nothing
    is run, nothing else changes. *)
Lemma buildLoop_skips (l : list Project.t) (sys : Sys World) (fr : CompileFrame) :
  forallb (skipsBuild (world sys)) l = true ->
  exists fr',
    forEach l buildProject (sys, fr) = (Done tt, (sys, fr'))
    /\ successCount fr' = successCount fr + Z.of_nat (length l)
    /\ failedProjects fr' = failedProjects fr.
Proof.
  revert fr. induction l as [|p r IH]; intros fr H.
  - exists fr. cbn. repeat split. lia.
  - cbn [forallb] in H. apply andb_prop in H. destruct H as [Hp Hr].
    cbn [forEach]. unfold bind. rewrite buildProject_run, Hp.
    destruct (IH (incr_successCount (set_needsBuild false fr)) Hr) as (fr' & R & C & F).
    exists fr'. cbn in C, F. repeat split; try assumption.
    rewrite C. cbn [length]. lia.
Qed.

Lemma filter_build_events (p : Project.t) (w : World) (m : string) (tail : list Event) :
  (forall e, In e tail -> isBuildCommand e = false) ->
  filter isBuildCommand (ProgressReport m :: buildTrace p w ++ tail) = buildTrace p w
  /\ filter isRunCompile (ProgressReport m :: buildTrace p w ++ tail)
     = [RunCompile (Project.path p)].
Proof.
  intros H.
  assert (T : filter isBuildCommand tail = [] /\ filter isRunCompile tail = []).
  { clear - H. induction tail as [|e t IH]; [split; reflexivity|].
    cbn. pose proof (H e (or_introl eq_refl)) as He.
    destruct IH as [A B]; [intros x Hx; apply H; right; exact Hx|].
    rewrite He, A, B. destruct e; try discriminate He; split; reflexivity. }
  destruct T as [A B]. unfold buildTrace.
  destruct (Publisher_runCompile (Project.path p) w) as [[e|] w1]; cbn;
    rewrite ?A, ?B; split; reflexivity.
Qed.

(** The scenario of the specification, in any order of the three
    projects: the two that pass the check around the one that does not. *)
Lemma one_stale_among_fresh
    (pre post : list Project.t) (p : Project.t) (sys : Sys World) (fr : CompileFrame) :
  forallb (skipsBuild (world sys)) pre = true ->
  skipsBuild (world sys) p = false ->
  forallb (skipsBuild (snd (buildCommands p (world sys)))) post = true ->
  exists sys' fr',
    forEach (pre ++ p :: post) buildProject (sys, fr) = (Done tt, (sys', fr'))
    /\ filter isBuildCommand (events sys')
       = (filter isBuildCommand (events sys) ++ buildTrace p (world sys))%list
    /\ filter isRunCompile (events sys')
       = (filter isRunCompile (events sys) ++ [RunCompile (Project.path p)])%list
    /\ match fst (buildCommands p (world sys)) with
       | None =>
           successCount fr'
           = successCount fr + Z.of_nat (length pre) + Z.of_nat (length post) + 1
           /\ failedProjects fr' = failedProjects fr
       | Some _ =>
           successCount fr'
           = successCount fr + Z.of_nat (length pre) + Z.of_nat (length post)
           /\ failedProjects fr'
              = (failedProjects fr ++ [path_basename (Project.path p)])%list
       end.
Proof.
  intros Hpre Hp Hpost.
  destruct (buildLoop_skips pre sys fr Hpre) as (fr1 & R1 & C1 & F1).
  rewrite forEach_app, R1. cbn [forEach]. unfold bind.
  rewrite buildProject_run, Hp. cbv beta iota zeta.
  match goal with
  | |- context [forEach post buildProject (?s, ?f)] =>
      destruct (buildLoop_skips post s f Hpost) as (fr2 & R2 & C2 & F2)
  end.
  rewrite R2. eexists; eexists; split; [reflexivity|].
  cbn [events]. rewrite !filter_app.
  destruct (filter_build_events p (world sys)
              ("Building " ++ path_basename (Project.path p) ++ "...")
              (match fst (buildCommands p (world sys)) with
               | None => []
               | Some e => [ConsoleError
                              ("Build failed for " ++ path_basename (Project.path p) ++ ":") e]
               end)) as [A B].
  { intros e. destruct (fst (buildCommands p (world sys))); cbn; [|tauto].
    intros [<-|[]]. reflexivity. }
  rewrite A, B. repeat split.
  destruct (fst (buildCommands p (world sys))); cbn in C2, F2 |- *.
  - split; [lia | congruence].
  - split; [lia | congruence].
Qed.

(** A stale package never passes the build's check. *)
Lemma stale_not_skipped (w : World) (p : Project.t) :
  staleByOracle (artifactStat w p) (sourceStat w p) = true -> skipsBuild w p = false.
Proof.
  unfold skipsBuild, staleByOracle.
  destruct (artifactStat w p) as [a|]; [|reflexivity].
  destruct (sourceStat w p) as [s|]; [|discriminate].
  intros H. apply Z.gtb_gt in H. apply Z.ltb_ge. lia.
Qed.

(** X23. A build or package failure is recorded under the project's
    folder name and the loop goes on with the next project; no turn of the
    loop throws, so the plan is never cut short. With three projects, two
    packaged strictly after their sources were last touched and one
    stale, in any order, the build commands are run for the stale one
    only, once; the count is 3 when they succeed; when they fail the count
    is 2 and the failed list holds that project alone. *)
Theorem build_failure_is_isolated :
  (forall (p : Project.t) (rest : list Project.t) (sys : Sys World)
          (fr : CompileFrame) (e : string),
      skipsBuild (world sys) p = false ->
      fst (buildCommands p (world sys)) = Some e ->
      exists sys' fr',
        forEach (p :: rest) buildProject (sys, fr)
        = forEach rest buildProject (sys', fr')
        /\ world sys' = snd (buildCommands p (world sys))
        /\ successCount fr' = successCount fr
        /\ failedProjects fr'
           = (failedProjects fr ++ [path_basename (Project.path p)])%list)
  /\ (forall l : list Project.t, total (forEach l buildProject))
  /\ (forall (pre post : list Project.t) (p : Project.t)
             (sys : Sys World) (fr : CompileFrame),
      (length pre + length post = 2)%nat ->
      successCount fr = 0 -> failedProjects fr = [] ->
      forallb (skipsBuild (world sys)) pre = true ->
      staleByOracle (artifactStat (world sys) p) (sourceStat (world sys) p) = true ->
      forallb (skipsBuild (snd (buildCommands p (world sys)))) post = true ->
      exists sys' fr',
        forEach (pre ++ p :: post) buildProject (sys, fr) = (Done tt, (sys', fr'))
        /\ filter isBuildCommand (events sys')
           = (filter isBuildCommand (events sys) ++ buildTrace p (world sys))%list
        /\ filter isRunCompile (events sys')
           = (filter isRunCompile (events sys) ++ [RunCompile (Project.path p)])%list
        /\ match fst (buildCommands p (world sys)) with
           | None => successCount fr' = 3 /\ failedProjects fr' = []
           | Some _ =>
               successCount fr' = 2
               /\ failedProjects fr' = [path_basename (Project.path p)]
           end).
Proof.
  split; [|split].
  - intros p rest sys fr e Hp He.
    cbn [forEach]. unfold bind. rewrite buildProject_run, Hp, He.
    cbv beta iota zeta. eexists; eexists; split; [reflexivity|].
    repeat split.
  - exact total_buildLoop.
  - intros pre post p sys fr L C0 F0 Hpre Hp Hpost.
    apply stale_not_skipped in Hp.
    destruct (one_stale_among_fresh pre post p sys fr Hpre Hp Hpost)
      as (sys' & fr' & R & B & RC & Out).
    exists sys', fr'. repeat split; try assumption.
    rewrite C0, F0 in Out.
    destruct (fst (buildCommands p (world sys))); destruct Out as [C F];
      (split; [lia | exact F]).
Qed.

(** What [runCompileAll] collects from one manifest. *)
Lemma collectProject_run (file : string) (sys : Sys World) (fr : CompileFrame) :
  exists fr',
    collectProject file (sys, fr) = (Done tt, (sys, fr'))
    /\ nexgenProjects fr' = (nexgenProjects fr ++ eligibleAt (world sys) file)%list
    /\ successCount fr' = successCount fr
    /\ failedProjects fr' = failedProjects fr.
Proof.
  unfold collectProject, eligibleAt. run.
  destruct (readFile (world sys) file) as [raw|];
    [|exists fr; rewrite app_nil_r; repeat split].
  destruct (JSON_parse raw) as [content|];
    [|exists fr; rewrite app_nil_r; repeat split].
  destruct (JS.truthyProp (PackageJson.publisher content)
            && JS.truthyProp (PackageJson.scripts_compile content));
    [|exists fr; rewrite app_nil_r; repeat split].
  eexists. split; [reflexivity|]. repeat split.
Qed.

Lemma collectLoop_run (files : list string) (sys : Sys World) (fr : CompileFrame) :
  exists fr',
    forEach files collectProject (sys, fr) = (Done tt, (sys, fr'))
    /\ nexgenProjects fr'
       = (nexgenProjects fr ++ flat_map (eligibleAt (world sys)) files)%list
    /\ successCount fr' = successCount fr
    /\ failedProjects fr' = failedProjects fr.
Proof.
  revert fr. induction files as [|f r IH]; intros fr.
  - exists fr. cbn. rewrite app_nil_r. repeat split.
  - destruct (collectProject_run f sys fr) as (fr1 & R1 & N1 & C1 & F1).
    destruct (IH fr1) as (fr2 & R2 & N2 & C2 & F2).
    exists fr2. cbn [forEach flat_map]. unfold bind. rewrite R1, R2.
    repeat split; try congruence.
    rewrite N2, N1, app_assoc. reflexivity.
Qed.

(** C10. In a suite build every eligible project ends up counted once:
    the success count plus the length of the failed list is the number of
    eligible projects, and those are the numbers the closing message
    shows. *)
Theorem every_eligible_project_is_accounted_for (w : World) :
  workspaceFolders w = true ->
  exists sys' fr',
    runCompileAll ({| world := w; events := [] |}, compileFrame0)
    = (Done tt, (sys', fr'))
    /\ nexgenProjects fr' = eligibleProjects w
    /\ successCount fr' + Z.of_nat (length (failedProjects fr'))
       = Z.of_nat (length (eligibleProjects w))
    /\ (eligibleProjects w <> [] -> In (buildReport fr') (events sys')).
Proof.
  intros Hws. unfold runCompileAll. run. cbn [world]. rewrite Hws. cbn [negb].
  match goal with
  | |- context [forEach ?fs collectProject _] => set (files := fs)
  end.
  destruct (collectLoop_run files {| world := w; events := [] |} compileFrame0)
    as (fr1 & R1 & N1 & C1 & F1).
  rewrite R1. change (nexgenProjects fr1 = eligibleProjects w) in N1.
  cbn in C1, F1.
  destruct (nexgenProjects fr1) as [|p ps] eqn:Eps.
  - cbn. eexists; eexists; split; [reflexivity|].
    rewrite <- N1, Eps, C1, F1. cbn. repeat split. congruence.
  - cbn [length Nat.eqb].
    destruct (buildLoop_accounts (p :: ps) {| world := w; events := [] |} fr1)
      as (sys2 & fr2 & R2 & C2 & N2 & (evs & E2)).
    rewrite R2.
    destruct (0 <? length (failedProjects fr2))%nat eqn:Hf; cbv beta iota zeta;
      match goal with
      | |- context [scanForSuite (?s, ?f)] =>
          destruct (scanForSuite_run s f) as (sevs & sfr & RS & _)
      end;
      rewrite RS; (eexists; eexists; split; [reflexivity|]);
      rewrite N2, Eps, <- N1; repeat split;
      try (rewrite C2, C1, F1; cbn [length]; lia);
      intros _; unfold buildReport; rewrite Hf; cbn [events];
      apply in_or_app; left; apply in_or_app; right; left; reflexivity.
Qed.

End CompileFacts.

(** *** The build on concrete worlds *)

Lemma build_failure_is_isolated_witness :
  exists sys' fr',
    forEach [Demo.project "alpha" "1.0.0"; Demo.project "beta" "1.2.0";
             Demo.project "gamma" "0.3.1"]
      buildProject (Demo.start (Demo.suiteOfThree ["/ws/beta"]) compileFrame0)
    = (Done tt, (sys', fr'))
    /\ filter isRunCompile (events sys') = [RunCompile "/ws/beta"]
    /\ successCount fr' = 2
    /\ failedProjects fr' = ["beta"].
Proof.
  destruct (proj2 (proj2 (build_failure_is_isolated (host := Demo.host)))
              [Demo.project "alpha" "1.0.0"] [Demo.project "gamma" "0.3.1"]
              (Demo.project "beta" "1.2.0")
              {| world := Demo.suiteOfThree ["/ws/beta"]; events := [] |}
              compileFrame0)
    as (sys' & fr' & R & _ & RC & Out); try reflexivity.
  exists sys', fr'. split; [exact R|]. split; [exact RC|]. exact Out.
Defined.

Lemma every_eligible_project_is_accounted_for_witness :
  exists sys' fr',
    runCompileAll (Demo.start (Demo.suiteOfThree ["/ws/beta"]) compileFrame0)
    = (Done tt, (sys', fr'))
    /\ successCount fr' + Z.of_nat (length (failedProjects fr')) = 3.
Proof.
  destruct (every_eligible_project_is_accounted_for (host := Demo.host)
              (Demo.suiteOfThree ["/ws/beta"]) eq_refl)
    as (sys' & fr' & R & _ & C & _).
  exists sys', fr'. split; [exact R | exact C].
Defined.

(** The two runs of the specification's build scenario, whole: three
    projects, only [beta] older than its sources. *)
Example three_projects_one_stale :
  (exists sys fr,
      runCompileAll (Demo.start (Demo.suiteOfThree []) compileFrame0)
      = (Done tt, (sys, fr))
      /\ filter isBuildCommand (events sys)
         = [RunCompile "/ws/beta"; PackageExtension "/ws/beta"]
      /\ successCount fr = 3 /\ failedProjects fr = [])
  /\ (exists sys fr,
      runCompileAll (Demo.start (Demo.suiteOfThree ["/ws/beta"]) compileFrame0)
      = (Done tt, (sys, fr))
      /\ filter isBuildCommand (events sys) = [RunCompile "/ws/beta"]
      /\ successCount fr = 2 /\ failedProjects fr = ["beta"]
      /\ In (ShowWarningMessage "Suite Build: 2 succeeded, 1 failed (beta)")
            (events sys)).
Proof.
  split; eexists; eexists; (split; [vm_compute; reflexivity|]); vm_compute;
    repeat split; auto.
Qed.

(** The build skips a project only if section 4.2 calls its package
    fresh. *)
Lemma skipsBuild_fresh {World : Type} {host : Host World} (w : World) (p : Project.t) :
  skipsBuild w p = true -> staleByOracle (artifactStat w p) (sourceStat w p) = false.
Proof.
  unfold skipsBuild, staleByOracle.
  destruct (artifactStat w p) as [a|]; [|discriminate].
  destruct (sourceStat w p) as [s|]; [|discriminate].
  intros H. apply Z.ltb_lt in H. rewrite Z.gtb_ltb. apply Z.ltb_ge. lia.
Qed.

(** C2. The build does not decide by the staleness test of section 4.2.
    A package file written at the same instant as the source folder, and a
    package file without any source folder, are both fresh for section 4.2
    and for the scan, whose stale flag stays clear; "compile all" runs the
    compiler and the packager on both. *)
Theorem smart_check_builds_fresh_packages :
  (staleByOracle (artifactStat Demo.sameInstant (Demo.project "alpha" "1.0.0"))
                 (sourceStat Demo.sameInstant (Demo.project "alpha" "1.0.0")) = false
   /\ isStale (snd (snd (scanFile "/ws/alpha/package.json"
                           (Demo.start Demo.sameInstant scanFrame0)))) = false
   /\ filter isBuildCommand
        (events (fst (snd (runCompileAll (Demo.start Demo.sameInstant compileFrame0)))))
      = [RunCompile "/ws/alpha"; PackageExtension "/ws/alpha"])
  /\ (staleByOracle (artifactStat Demo.noSourceFolder (Demo.project "alpha" "1.0.0"))
                    (sourceStat Demo.noSourceFolder (Demo.project "alpha" "1.0.0")) = false
      /\ isStale (snd (snd (scanFile "/ws/alpha/package.json"
                              (Demo.start Demo.noSourceFolder scanFrame0)))) = false
      /\ filter isBuildCommand
           (events (fst (snd (runCompileAll
                                (Demo.start Demo.noSourceFolder compileFrame0)))))
         = [RunCompile "/ws/alpha"; PackageExtension "/ws/alpha"]).
Proof. vm_compute. repeat split; reflexivity. Qed.

(** C6. Three eligible projects of which two are up to date for section 4.2
    and one is stale: the package of [alpha] was written at the instant of
    its source folder, the package of [beta] before its sources were last
    touched, and [gamma] has its package and no [src] folder. "Compile all"
    invokes the compiler for all three, not for [beta] alone. When every
    build succeeds the count is 3, after three builds; when the build of
    [beta] fails the count is 2 and the failed list holds [beta], after
    three builds; when every build fails the count is 0 and the failed list
    holds the three. *)
Theorem up_to_date_projects_are_rebuilt :
  eligibleProjects (DemoBoundary.suite []) = DemoBoundary.projects
  /\ map (fun p => staleByOracle (artifactStat (DemoBoundary.suite []) p)
                                 (sourceStat (DemoBoundary.suite []) p))
         DemoBoundary.projects
     = [false; true; false]
  /\ DemoBoundary.outcome []
     = ([RunCompile "/ws/alpha"; RunCompile "/ws/beta"; RunCompile "/ws/gamma"], 3, [])
  /\ DemoBoundary.outcome ["/ws/beta"]
     = ([RunCompile "/ws/alpha"; RunCompile "/ws/beta"; RunCompile "/ws/gamma"], 2,
        ["beta"])
  /\ DemoBoundary.outcome ["/ws/alpha"; "/ws/beta"; "/ws/gamma"]
     = ([RunCompile "/ws/alpha"; RunCompile "/ws/beta"; RunCompile "/ws/gamma"], 0,
        ["alpha"; "beta"; "gamma"]).
Proof.
  split; [vm_compute; reflexivity|].
  split; [vm_compute; reflexivity|].
  split; [vm_compute; reflexivity|].
  split; vm_compute; reflexivity.
Qed.

(* ===================================================================== *)
(** ** Facts about the suite install *)
(* ===================================================================== *)

Section InstallFacts.

Context {World : Type} {host : Host World}.

(** One turn of the install loop: the command is issued, then the count
    goes up or the failure is shown; no exception leaves the turn. *)
Lemma installOne_run (vsixPath : string) (sys : Sys World) (fr : InstallFrame) :
  installOne vsixPath (sys, fr) =
  let r := installExtension vsixPath (world sys) in
  (Done tt,
   ({| world := snd r;
       events :=
         events sys
         ++ ProgressReport ("Installing " ++ path_basename vsixPath ++ "...")
            :: InstallExtension vsixPath :: installFailure (vsixPath, fst r) |},
    match fst r with
    | None => incr_installedCount fr
    | Some _ => fr
    end)).
Proof.
  unfold installOne, installFailure. run. cbn [world events].
  destruct (installExtension vsixPath (world sys)) as [[e|] w']; cbn;
    rewrite <- !app_assoc; reflexivity.
Qed.

Lemma installLoop_run (paths : list string) (sys : Sys World) (fr : InstallFrame) :
  exists sys' fr',
    forEach paths installOne (sys, fr) = (Done tt, (sys', fr'))
    /\ filter isInstallExtension (events sys')
       = (filter isInstallExtension (events sys) ++ map InstallExtension paths)%list
    /\ filter isShowErrorMessage (events sys')
       = (filter isShowErrorMessage (events sys)
          ++ flat_map installFailure (installResults paths (world sys)))%list
    /\ installedCount fr'
       = installedCount fr
         + Z.of_nat (length (filter succeeded (installResults paths (world sys)))).
Proof.
  revert sys fr. induction paths as [|p r IH]; intros sys fr.
  - exists sys, fr. cbn. rewrite !app_nil_r. repeat split. lia.
  - cbn [forEach]. unfold bind. rewrite installOne_run. cbv beta iota zeta.
    match goal with
    | |- context [forEach r installOne (?s, ?f)] =>
        destruct (IH s f) as (sys' & fr' & R & I & E & C)
    end.
    exists sys', fr'. split; [exact R|].
    cbn [world events] in I, E, C. cbn [installResults map flat_map].
    destruct (installExtension p (world sys)) as [[e|] w'];
      cbn [fst snd installFailure succeeded filter length] in *;
      rewrite I, E, C, !filter_app; cbn [filter isInstallExtension isShowErrorMessage];
      rewrite <- !app_assoc; repeat split; cbn [app]; try reflexivity;
      cbn [incr_installedCount installedCount]; lia.
Qed.

(** C7. The install command is issued for every path of the list, in the
    order of the list, repeats included; a failure is shown under the
    file name of its package and the next path is tried; the count in the
    closing message is the number of installs that succeeded. *)
Theorem installs_in_order_and_isolated (paths : list string) (w : World) :
  exists sys' fr',
    installSuite paths ({| world := w; events := [] |}, installFrame0)
    = (Done tt, (sys', fr'))
    /\ filter isInstallExtension (events sys') = map InstallExtension paths
    /\ filter isShowErrorMessage (events sys')
       = flat_map installFailure (installResults paths w)
    /\ installedCount fr'
       = Z.of_nat (length (filter succeeded (installResults paths w)))
    /\ In (ShowInformationMessage
             ("Suite Sync Complete: " ++ showZ (installedCount fr')
              ++ " extensions installed/updated."))
          (events sys').
Proof.
  destruct (installLoop_run paths {| world := w; events := [] |} installFrame0)
    as (sys1 & fr1 & R & I & E & C).
  unfold installSuite. unfold bind at 1. rewrite R. run.
  match goal with
  | |- context [scanForSuite (?s, ?f)] =>
      destruct (scanForSuite_run s f) as (sevs & sfr & RS & Shape)
  end.
  rewrite RS. exists {| world := world sys1;
                        events := (events sys1
                                   ++ [ShowInformationMessage
                                         ("Suite Sync Complete: "
                                          ++ showZ (installedCount fr1)
                                          ++ " extensions installed/updated.")])
                                  ++ sevs |}, fr1.
  split; [reflexivity|]. cbn [events world] in *.
  rewrite !filter_app, I, E, C. cbn [filter isInstallExtension isShowErrorMessage].
  assert (S1 : filter isInstallExtension sevs = [] /\ filter isShowErrorMessage sevs = []).
  { destruct Shape as [->|[suite ->]]; split; reflexivity. }
  destruct S1 as [S1 S2]. rewrite S1, S2, !app_nil_r. repeat split.
  apply in_or_app. left. apply in_or_app. right. left. reflexivity.
Qed.

End InstallFacts.

(** The install scenario of the specification: three packages, the second
    is refused. *)
Example second_of_three_fails :
  exists sys fr,
    installSuite ["/ws/a/a-1.0.0.vsix"; "/ws/b/b-1.0.0.vsix"; "/ws/c/c-1.0.0.vsix"]
      (Demo.start (Demo.rejecting ["/ws/b/b-1.0.0.vsix"]) installFrame0)
    = (Done tt, (sys, fr))
    /\ installedCount fr = 2
    /\ filter isInstallExtension (events sys)
       = [InstallExtension "/ws/a/a-1.0.0.vsix"; InstallExtension "/ws/b/b-1.0.0.vsix";
          InstallExtension "/ws/c/c-1.0.0.vsix"]
    /\ filter isShowErrorMessage (events sys)
       = [ShowErrorMessage "Failed to install b-1.0.0.vsix: not a package"].
Proof.
  eexists; eexists; split; [vm_compute; reflexivity|]. vm_compute.
  repeat split; reflexivity.
Qed.

(* ===================================================================== *)
(** ** More about [compareVersions]: the order it defines *)
(* ===================================================================== *)

Lemma orZero_not_NaN (x : option JS.number) : JS.orZero x <> JS.NaN.
Proof.
  destruct x as [[| |q]|]; simpl; try discriminate.
  destruct (Qeq_bool q 0); discriminate.
Qed.

Lemma lt_trans (x y z : JS.number) :
  JS.lt x y = true -> JS.lt y z = true -> JS.lt x z = true.
Proof.
  destruct x as [|[|]|a], y as [|[|]|b], z as [|[|]|c]; cbn [JS.lt];
    try reflexivity; try discriminate.
  destruct (Qcompare_spec a b) as [?|Hab|?]; try discriminate.
  destruct (Qcompare_spec b c) as [?|Hbc|?]; try discriminate.
  intros _ _. pose proof (Qlt_trans _ _ _ Hab Hbc) as Hac.
  destruct (Qcompare_spec a c) as [E|L|G]; [|reflexivity|]; exfalso.
  - rewrite E in Hac. exact (Qlt_irrefl _ Hac).
  - exact (Qlt_irrefl _ (Qlt_trans _ _ _ Hac G)).
Qed.

(** On numbers that are not NaN, "not below" is transitive too. *)
Lemma lt_negative_trans (x y z : JS.number) :
  y <> JS.NaN ->
  JS.lt x y = false -> JS.lt y z = false -> JS.lt x z = false.
Proof.
  destruct x as [|[|]|a], y as [|[|]|b], z as [|[|]|c]; cbn [JS.lt];
    try reflexivity; try discriminate; try congruence.
  intros _.
  destruct (Qcompare_spec a b) as [Hab|Hab|Hab]; try discriminate;
    destruct (Qcompare_spec b c) as [Hbc|Hbc|Hbc]; try discriminate; intros _ _;
    destruct (Qcompare_spec a c) as [Hac|Hac|Hac]; try reflexivity; exfalso.
  - rewrite Hab, Hbc in Hac. exact (Qlt_irrefl _ Hac).
  - rewrite Hab in Hac. exact (Qlt_irrefl _ (Qlt_trans _ _ _ Hac Hbc)).
  - rewrite <- Hbc in Hac. exact (Qlt_irrefl _ (Qlt_trans _ _ _ Hac Hab)).
  - exact (Qlt_irrefl _ (Qlt_trans _ _ _ Hac (Qlt_trans _ _ _ Hbc Hab))).
Qed.

Lemma compareLoop_le_trans (p1 p2 p3 : list JS.number) (steps i : nat) :
  compareLoop p1 p2 i steps <= 0 -> compareLoop p2 p3 i steps <= 0 ->
  compareLoop p1 p3 i steps <= 0.
Proof.
  revert i. induction steps as [|k IH]; intros i; simpl; [lia|].
  unfold JS.gt.
  set (x := JS.orZero (nth_error p1 i)). set (y := JS.orZero (nth_error p2 i)).
  set (z := JS.orZero (nth_error p3 i)).
  assert (Nx : x <> JS.NaN) by apply orZero_not_NaN.
  assert (Ny : y <> JS.NaN) by apply orZero_not_NaN.
  assert (Nz : z <> JS.NaN) by apply orZero_not_NaN.
  destruct (JS.lt y x) eqn:Hyx; [lia|].
  destruct (JS.lt z y) eqn:Hzy; [lia|].
  rewrite (lt_negative_trans z y x Ny Hzy Hyx).
  destruct (JS.lt x y) eqn:Hxy.
  - intros _ _.
    destruct (JS.lt x z) eqn:Hxz; [lia|].
    rewrite (lt_negative_trans x z y Nz Hxz Hzy) in Hxy. discriminate.
  - destruct (JS.lt y z) eqn:Hyz.
    + intros _ _. destruct (JS.lt x z) eqn:Hxz; [lia|].
      rewrite (lt_negative_trans y x z Nx Hyx Hxz) in Hyz. discriminate.
    + rewrite (lt_negative_trans x y z Ny Hxy Hyz). apply IH.
Qed.

Lemma compareVersions_nonzero (a b : string) :
  compareVersions a b <> 0 -> noVersion a = false /\ noVersion b = false.
Proof.
  rewrite compareVersions_eq.
  destruct (noVersion a), (noVersion b); simpl; intros H; try (split; reflexivity);
    exfalso; apply H; reflexivity.
Qed.

Lemma compareVersions_le_trans (a b c : string) :
  noVersion b = false ->
  compareVersions a b <= 0 -> compareVersions b c <= 0 -> compareVersions a c <= 0.
Proof.
  intros Hb. rewrite !compareVersions_eq, Hb, !orb_false_r, !orb_false_l.
  destruct (noVersion a); [cbn [orb]; lia|].
  destruct (noVersion c); [rewrite ?orb_true_r; lia|].
  cbn [orb]. apply compareLoop_le_trans.
Qed.

(** X1. [compareVersions] orders the versions that are neither empty nor
    "unknown": "not newer than" is transitive through such a version, and
    "newer than" is transitive outright. Through "unknown", which compares
    equal to everything, it is not: 2.0.0 and 1.0.0 are both equal to
    "unknown" and differ from each other. *)
Theorem compareVersions_transitive :
  (forall a b c : string,
      b <> "" -> b <> "unknown" ->
      compareVersions a b <= 0 -> compareVersions b c <= 0 ->
      compareVersions a c <= 0)
  /\ (forall a b c : string,
      compareVersions a b = 1 -> compareVersions b c = 1 -> compareVersions a c = 1)
  /\ (compareVersions "2.0.0" "unknown" = 0 /\ compareVersions "unknown" "1.0.0" = 0
      /\ compareVersions "2.0.0" "1.0.0" = 1).
Proof.
  split; [|split].
  - intros a b c H1 H2. apply compareVersions_le_trans.
    destruct (noVersion b) eqn:E; [|reflexivity].
    apply noVersion_iff in E. tauto.
  - intros a b c Hab Hbc.
    assert (Na : noVersion a = false)
      by (apply (compareVersions_nonzero a b); lia).
    assert (Nc : noVersion c = false)
      by (apply (compareVersions_nonzero b c); lia).
    destruct (compareVersions_range a c) as [R|[R|R]]; [| |exact R]; exfalso.
    + assert (compareVersions c b <= 0) by (rewrite compareVersions_antisym; lia).
      pose proof (compareVersions_le_trans a c b Nc ltac:(lia) H). lia.
    + assert (compareVersions c b <= 0) by (rewrite compareVersions_antisym; lia).
      pose proof (compareVersions_le_trans a c b Nc ltac:(lia) H). lia.
  - vm_compute. repeat split; reflexivity.
Qed.

Lemma compareVersions_transitive_witness :
  compareVersions "1.2.0" "1.10" <= 0
  /\ compareVersions "3.0.0" "1.9.9" = 1.
Proof.
  destruct compareVersions_transitive as (A & B & _). split.
  - apply (A "1.2.0" "1.3" "1.10"); try discriminate; vm_compute; discriminate.
  - apply (B "3.0.0" "2.5" "1.9.9"); vm_compute; reflexivity.
Defined.

(** *** Well-formed versions are compared as triples of numbers *)

Lemma digit_char (c : ascii) :
  isSome (JS.digitValue 10 c) = true ->
  In c ["0"; "1"; "2"; "3"; "4"; "5"; "6"; "7"; "8"; "9"]%char.
Proof.
  destruct c as [[] [] [] [] [] [] [] []]; vm_compute; intros H;
    try discriminate H; tauto.
Qed.

Lemma digit_value_bounds (c : ascii) (d : Z) :
  JS.digitValue 10 c = Some d -> 0 <= d < 10.
Proof.
  unfold JS.digitValue.
  set (n := Z.of_nat (nat_of_ascii c)).
  destruct ((48 <=? n) && (n <=? 57)) eqn:E1.
  - apply andb_prop in E1. destruct E1 as [A B].
    apply Z.leb_le in A. apply Z.leb_le in B.
    destruct (n - 48 <? 10) eqn:E; intros H; inversion H; lia.
  - destruct ((97 <=? n) && (n <=? 122)) eqn:E2.
    + apply andb_prop in E2. destruct E2 as [A B]. apply Z.leb_le in A.
      destruct (n - 87 <? 10) eqn:E; intros H; [|discriminate].
      apply Z.ltb_lt in E. lia.
    + destruct ((65 <=? n) && (n <=? 90)) eqn:E3; [|discriminate].
      apply andb_prop in E3. destruct E3 as [A B]. apply Z.leb_le in A.
      destruct (n - 55 <? 10) eqn:E; intros H; [|discriminate].
      apply Z.ltb_lt in E. lia.
Qed.

Lemma readDigits_all (s : string) (acc n v n' : Z) :
  JS.readDigits 10 s acc n = (v, n', EmptyString) ->
  0 <= acc -> 0 <= n ->
  digitsOnly s = true /\ 0 <= v /\ (n < n' -> s <> EmptyString).
Proof.
  revert acc n. induction s as [|c r IH]; intros acc n; simpl.
  - intros H A N. inversion H; subst. repeat split; try lia.
  - destruct (JS.digitValue 10 c) as [d|] eqn:D; [|discriminate].
    intros H A N. pose proof (digit_value_bounds c d D) as B.
    destruct (IH _ _ H ltac:(lia) ltac:(lia)) as (P & Q & _).
    rewrite P. repeat split; try assumption. discriminate.
Qed.

Lemma trimEnd_digits (s : string) : digitsOnly s = true -> JS.trimEnd s = s.
Proof.
  induction s as [|c r IH]; simpl; [reflexivity|].
  intros H. apply andb_prop in H. destruct H as [Hc Hr]. rewrite (IH Hr).
  destruct r; [|reflexivity].
  apply digit_char in Hc. simpl in Hc.
  repeat (destruct Hc as [<-|Hc]; [reflexivity|]). contradiction.
Qed.

Lemma Number_digits (s : string) (x : Z) :
  JS.allDigits 10 s = Some x ->
  0 <= x /\ dotFree s = true /\ JS.Number s = JS.roundToDouble (inject_Z x).
Proof.
  unfold JS.allDigits. destruct (JS.readDigits 10 s 0 0) as [[v n] rest] eqn:R.
  destruct rest; [|discriminate]. destruct (0 <? n) eqn:N; [|discriminate].
  intros H. inversion H; subst v. apply Z.ltb_lt in N.
  destruct (readDigits_all s 0 0 x n R ltac:(lia) ltac:(lia)) as (D & P & NE).
  specialize (NE N). split; [exact P|].
  destruct s as [|c r]; [congruence|].
  split.
  - clear - D. revert D. generalize (String c r). intros s. induction s as [|a t IH]; simpl; [reflexivity|].
    intros H. apply andb_prop in H. destruct H as [Ha Ht]. rewrite (IH Ht).
    apply digit_char in Ha. simpl in Ha.
    repeat (destruct Ha as [<-|Ha]; [reflexivity|]). contradiction.
  - unfold JS.Number, JS.trim.
    assert (T : JS.trimStart (String c r) = String c r).
    { simpl in D. apply andb_prop in D. destruct D as [Hc _].
      apply digit_char in Hc. simpl in Hc. 
      repeat (destruct Hc as [<-|Hc]; [reflexivity|]). contradiction. }
    rewrite T, (trimEnd_digits _ D).
    assert (ND : JS.nonDecimalLiteral (String c r) = None).
    { simpl in D. apply andb_prop in D. destruct D as [Hc Hr].
      apply digit_char in Hc. simpl in Hc.
      repeat (destruct Hc as [<-|Hc]; [try reflexivity|]); [|contradiction].
      destruct r as [|p r']; [reflexivity|].
      simpl in Hr. apply andb_prop in Hr. destruct Hr as [Hp _].
      apply digit_char in Hp. simpl in Hp.
      repeat (destruct Hp as [<-|Hp]; [reflexivity|]). contradiction. }
    assert (DL : JS.decimalLiteral (String c r) = JS.roundToDouble (inject_Z x)).
    { unfold JS.decimalLiteral.
      assert (I : String.eqb (String c r) "Infinity" = false).
      { simpl in D. apply andb_prop in D. destruct D as [Hc _].
        apply digit_char in Hc. simpl in Hc.
        repeat (destruct Hc as [<-|Hc]; [reflexivity|]). contradiction. }
      rewrite I. unfold JS.unsignedDecimal. rewrite R.
      cbn [JS.exponentPart]. rewrite Z.add_0_r.
      apply Z.ltb_lt in N. rewrite N. unfold JS.scale10.
      change (0 - 0) with 0. cbn [Z.leb Z.compare]. 
      change (10 ^ 0) with 1. rewrite Z.mul_1_r. reflexivity. }
    rewrite ND in *.
    simpl in D. apply andb_prop in D. destruct D as [Hc _].
    apply digit_char in Hc. simpl in Hc.
    repeat (destruct Hc as [<-|Hc]; [exact DL|]). contradiction.
Qed.

Lemma roundToDouble_exact (x : Z) :
  0 <= x < 2 ^ 53 ->
  exists q, JS.roundToDouble (inject_Z x) = JS.Finite q /\ (q == inject_Z x)%Q.
Proof.
  intros [L U]. unfold JS.roundToDouble. cbn [Qnum Qden inject_Z].
  destruct x as [|n|n]; [| |lia].
  - exists 0%Q. split; reflexivity.
  - unfold JS.roundPositive, JS.floorLog2.
    change (Z.log2 1) with 0. rewrite Z.sub_0_r.
    pose proof (Z.log2_nonneg (Z.pos n)) as E0.
    assert (E1 : Z.log2 (Z.pos n) < 53) by (apply Z.log2_lt_pow2; lia).
    destruct (Z.log2_spec (Z.pos n) ltac:(lia)) as [Lo Hi].
    set (e := Z.log2 (Z.pos n)) in *.
    assert (R1 : (0 <=? e) = true) by (apply Z.leb_le; lia). rewrite R1.
    assert (R2 : (1 * 2 ^ e <=? Z.pos n) = true) by (apply Z.leb_le; lia).
    rewrite R2.
    destruct (Z.eq_dec e 52) as [->|NE].
    + change (Z.max (52 - 52) (-1074)) with 0. cbn [Z.leb Z.compare].
      change (1 * 2 ^ 0) with 1. unfold JS.roundHalfEven.
      rewrite Z.div_1_r, Z.mod_1_r. change (2 * 0 ?= 1) with Lt. cbv iota.
      assert (O : (2 ^ 1024 <=? Z.pos n * 2 ^ 0) = false).
      { apply Z.leb_gt. change (2 ^ 0) with 1. rewrite Z.mul_1_r.
        apply Z.lt_trans with (2 ^ 53); [lia | reflexivity]. }
      rewrite O. eexists. split; [reflexivity|].
      change (2 ^ 0) with 1. rewrite Z.mul_1_r. reflexivity.
    + assert (K : Z.max (e - 52) (-1074) = e - 52) by lia. rewrite K.
      assert (R3 : (0 <=? e - 52) = false) by (apply Z.leb_gt; lia). rewrite R3.
      unfold JS.roundHalfEven. rewrite Z.div_1_r, Z.mod_1_r.
      change (2 * 0 ?= 1) with Lt. cbv iota.
      eexists. split; [reflexivity|].
      assert (P : 0 < 2 ^ (- (e - 52))) by (apply Z.pow_pos_nonneg; lia).
      unfold Qeq. cbn [Qnum Qden inject_Z]. rewrite Z2Pos.id by exact P. lia.
Qed.


Lemma component_value (s : string) (x : Z) :
  JS.allDigits 10 s = Some x -> x < 2 ^ 53 ->
  exists q, JS.orZero (Some (JS.Number s)) = JS.Finite q /\ (q == inject_Z x)%Q.
Proof.
  intros H U. destruct (Number_digits s x H) as (P & _ & N).
  destruct (roundToDouble_exact x (conj P U)) as (q & R & E).
  rewrite N, R. cbn [JS.orZero JS.truthy].
  destruct (Qeq_bool q 0) eqn:Z0; cbn [negb].
  - exists 0%Q. split; [reflexivity|].
    apply Qeq_bool_eq in Z0. rewrite <- Z0. exact E.
  - exists q. split; [reflexivity | exact E].
Qed.

Lemma lt_finite (q1 q2 : Q) (x y : Z) :
  (q1 == inject_Z x)%Q -> (q2 == inject_Z y)%Q ->
  JS.lt (JS.Finite q1) (JS.Finite q2) = (x <? y).
Proof.
  intros E1 E2. cbn [JS.lt]. rewrite E1, E2.
  unfold Qcompare, Z.ltb. cbn [Qnum Qden inject_Z]. rewrite !Z.mul_1_r.
  reflexivity.
Qed.

Lemma versionTriple_parts (v : string) (t : Z * Z * Z) :
  versionTriple v = Some t ->
  exists a b c,
    JS.split "." v = [a; b; c]
    /\ JS.allDigits 10 a = Some (fst (fst t))
    /\ JS.allDigits 10 b = Some (snd (fst t))
    /\ JS.allDigits 10 c = Some (snd t).
Proof.
  unfold versionTriple.
  destruct (JS.split "." v) as [|a [|b [|c [|d l]]]]; cbv beta iota;
    try discriminate.
  destruct (JS.allDigits 10 a) as [x|] eqn:A; [|discriminate].
  destruct (JS.allDigits 10 b) as [y|] eqn:B; [|discriminate].
  destruct (JS.allDigits 10 c) as [z|] eqn:C; [|discriminate].
  intros H. inversion H; subst. exists a, b, c. repeat split; assumption.
Qed.

Lemma compare_step (x y k : Z) :
  (if y <? x then 1 else if x <? y then -1 else k)
  = match x ?= y with Lt => -1 | Gt => 1 | Eq => k end.
Proof.
  destruct (Z.compare_spec x y) as [E|L|G].
  - subst y. rewrite Z.ltb_irrefl. reflexivity.
  - assert (A : (y <? x) = false) by (apply Z.ltb_ge; lia).
    apply Z.ltb_lt in L. rewrite A, L. reflexivity.
  - apply Z.ltb_lt in G. rewrite G. reflexivity.
Qed.

(** On three decimal numbers below 2^53 a side, the loop is the
    lexicographic comparison. *)
Lemma compareVersions_triples (a b : string) (x y : Z * Z * Z) :
  versionTriple a = Some x -> versionTriple b = Some y ->
  exactTriple x -> exactTriple y ->
  compareVersions a b = compareTriples x y.
Proof.
  intros Ha Hb Ex Ey.
  destruct (versionTriple_parts a x Ha) as (a1 & a2 & a3 & Sa & A1 & A2 & A3).
  destruct (versionTriple_parts b y Hb) as (b1 & b2 & b3 & Sb & B1 & B2 & B3).
  destruct x as [[x1 x2] x3], y as [[y1 y2] y3]. cbn [fst snd] in *.
  destruct Ex as (X1 & X2 & X3). destruct Ey as (Y1 & Y2 & Y3).
  rewrite compareVersions_eq.
  assert (Na : noVersion a = false).
  { destruct (noVersion a) eqn:E; [|reflexivity].
    apply noVersion_one_component in E. rewrite Sa in E. discriminate. }
  assert (Nb : noVersion b = false).
  { destruct (noVersion b) eqn:E; [|reflexivity].
    apply noVersion_one_component in E. rewrite Sb in E. discriminate. }
  rewrite Na, Nb, Sa, Sb. cbn [orb map compareLoop nth_error].
  destruct (component_value a1 x1 A1 X1) as (p1 & -> & P1).
  destruct (component_value a2 x2 A2 X2) as (p2 & -> & P2).
  destruct (component_value a3 x3 A3 X3) as (p3 & -> & P3).
  destruct (component_value b1 y1 B1 Y1) as (q1 & -> & Q1).
  destruct (component_value b2 y2 B2 Y2) as (q2 & -> & Q2).
  destruct (component_value b3 y3 B3 Y3) as (q3 & -> & Q3).
  unfold JS.gt.
  rewrite (lt_finite q1 p1 y1 x1 Q1 P1), (lt_finite p1 q1 x1 y1 P1 Q1).
  rewrite (lt_finite q2 p2 y2 x2 Q2 P2), (lt_finite p2 q2 x2 y2 P2 Q2).
  rewrite (lt_finite q3 p3 y3 x3 Q3 P3), (lt_finite p3 q3 x3 y3 P3 Q3).
  rewrite !compare_step. reflexivity.
Qed.

(** X2. On well-formed versions whose three numbers are below 2^53,
    [compareVersions] is the lexicographic comparison of the numbers (so
    1.2.3 is older than 1.10.0). The bound matters: components are compared
    as doubles, and 9007199254740993 is read as 9007199254740992. *)
Theorem compareVersions_is_lexicographic :
  (forall (a b : string) (x y : Z * Z * Z),
      versionTriple a = Some x -> versionTriple b = Some y ->
      exactTriple x -> exactTriple y ->
      compareVersions a b = compareTriples x y)
  /\ compareVersions "9007199254740993.0.0" "9007199254740992.0.0" = 0.
Proof.
  split; [exact compareVersions_triples | vm_compute; reflexivity].
Qed.

Lemma compareVersions_is_lexicographic_witness :
  compareVersions "1.2.3" "1.10.0" = -1.
Proof.
  apply (proj1 compareVersions_is_lexicographic "1.2.3" "1.10.0" (1, 2, 3) (1, 10, 0));
    vm_compute; repeat split; reflexivity.
Defined.




(* ===================================================================== *)
(** ** formatTime, whole scans, the project list *)
(* ===================================================================== *)

Section InventoryFacts.

Context {World : Type} {host : Host World}.

(** X3. The age shown for a package file: "just now" under a minute
    (future time stamps included), whole minutes from 1 to 59 under an
    hour, whole hours from 1 to 23 under a day, the locale date and time
    from a day on. *)
Theorem formatTime_buckets (now mtime : Z) :
  (now - mtime < 60000 -> formatTime now mtime = "just now")
  /\ (60000 <= now - mtime < 3600000 ->
      formatTime now mtime = showZ ((now - mtime) / 60000) ++ "m ago"
      /\ 1 <= (now - mtime) / 60000 <= 59)
  /\ (3600000 <= now - mtime < 86400000 ->
      formatTime now mtime = showZ ((now - mtime) / 3600000) ++ "h ago"
      /\ 1 <= (now - mtime) / 3600000 <= 23)
  /\ (86400000 <= now - mtime ->
      formatTime now mtime = toLocaleDateString mtime ++ " " ++ toLocaleTimeString mtime).
Proof.
  unfold formatTime. set (d := now - mtime).
  assert (M : forall lo, lo * 60000 <= d -> lo <= d / 60000)
    by (intros lo H; apply Z.div_le_lower_bound; lia).
  assert (M' : forall hi, d < hi * 60000 -> d / 60000 < hi)
    by (intros hi H; apply Z.div_lt_upper_bound; lia).
  assert (Hh : forall lo, lo * 3600000 <= d -> lo <= d / 3600000)
    by (intros lo H; apply Z.div_le_lower_bound; lia).
  assert (Hh' : forall hi, d < hi * 3600000 -> d / 3600000 < hi)
    by (intros hi H; apply Z.div_lt_upper_bound; lia).
  repeat split.
  - intros H. specialize (M' 1 ltac:(lia)).
    apply Z.ltb_lt in M'. rewrite M'. reflexivity.
  - destruct H as [A B]. specialize (M 1 ltac:(lia)). specialize (M' 60 ltac:(lia)).
    assert (E1 : (d / 60000 <? 1) = false) by (apply Z.ltb_ge; lia).
    apply Z.ltb_lt in M'. rewrite E1, M'. reflexivity.
  - destruct H as [A B]. apply (M 1). lia.
  - destruct H as [A B]. specialize (M' 60 ltac:(lia)). lia.
  - destruct H as [A B]. specialize (M 60 ltac:(lia)).
    specialize (Hh' 24 ltac:(lia)).
    assert (E1 : (d / 60000 <? 1) = false) by (apply Z.ltb_ge; lia).
    assert (E2 : (d / 60000 <? 60) = false) by (apply Z.ltb_ge; lia).
    apply Z.ltb_lt in Hh'. rewrite E1, E2, Hh'. reflexivity.
  - destruct H as [A B]. apply (Hh 1). lia.
  - destruct H as [A B]. specialize (Hh' 24 ltac:(lia)). lia.
  - intros H. specialize (M 60 ltac:(lia)). specialize (Hh 24 ltac:(lia)).
    assert (E1 : (d / 60000 <? 1) = false) by (apply Z.ltb_ge; lia).
    assert (E2 : (d / 60000 <? 60) = false) by (apply Z.ltb_ge; lia).
    assert (E3 : (d / 3600000 <? 24) = false) by (apply Z.ltb_ge; lia).
    rewrite E1, E2, E3. reflexivity.
Qed.

End InventoryFacts.

Lemma formatTime_buckets_witness :
  formatTime (host := Demo.host) 200000 2000 = "3m ago"
  /\ formatTime (host := Demo.host) 1000 2000 = "just now".
Proof.
  destruct (formatTime_buckets (host := Demo.host) 200000 2000) as (_ & B & _).
  destruct (formatTime_buckets (host := Demo.host) 1000 2000) as (A & _).
  split.
  - apply B. lia.
  - apply A. lia.
Defined.

Section ScanReportFacts.

Context {World : Type} {host : Host World}.

Lemma publishableAt_manifest (w : World) (file : string) (pkg : PackageJson.t) :
  publishableAt w file = Some pkg <-> manifestAt w file pkg.
Proof.
  unfold publishableAt, manifestAt. split.
  - destruct (readFile w file) as [raw|]; [|discriminate].
    destruct (JSON_parse raw) as [p|] eqn:P; [|discriminate].
    destruct (JS.truthyProp (PackageJson.publisher p)) eqn:T; [|discriminate].
    intros H. inversion H; subst. exists raw. repeat split; assumption.
  - intros (raw & R & P & T). rewrite R, P, T. reflexivity.
Qed.

Lemma scanFile_entry (file : string) (pkg : PackageJson.t) (sys : Sys World) (fr : ScanFrame) :
  publishableAt (world sys) file = Some pkg ->
  exists fr',
    scanFile file (sys, fr) = (Done tt, (sys, fr'))
    /\ suite fr' = (suite fr ++ [expectedEntry (world sys) file pkg])%list.
Proof.
  intros H. apply publishableAt_manifest in H. destruct H as (raw & Hread & Hparse & Hpub).
  unfold scanFile. run. rewrite Hread. run. rewrite Hparse. run. rewrite Hpub.
  cbn [negb]. rewrite checkArtifact_run. unfold classify, expectedEntry, artifactPath, sourcePath. run.
  destruct (fs_stat (world sys) (path_join (path_dirname file) (toLowerCase _))) as [a|] eqn:Ha;
    [destruct (fs_stat (world sys) (path_join (path_dirname file) "src")) as [s|] eqn:Hs;
       [destruct (s >? a) eqn:Hsa|] |];
    (destruct (findInstalled pkg (extensions_all (world sys))) as [inst|] eqn:Hi;
     [cbn [option_map]; destruct (compareVersions _ _ >? 0) eqn:Hc |]);
    cbn [set_isStale set_vsixExists set_vsixModifiedTime set_status
         isStale vsixExists status suite];
    try rewrite Ha.
  all: try (destruct (fs_stat (world sys)
                        (path_join (Extension.extensionPath inst) "package.json"))
              as [m|] eqn:Hm; [destruct (a >? m + 5000) eqn:Ham|]).
  all: eexists; (split; [reflexivity|]); cbn; unfold staleByOracle;
    rewrite ?Hc, ?Hsa, ?Ham; reflexivity.
Qed.

Lemma scanFile_skip (file : string) (sys : Sys World) (fr : ScanFrame) :
  publishableAt (world sys) file = None ->
  scanFile file (sys, fr) = (Done tt, (sys, fr)).
Proof.
  unfold publishableAt, scanFile. run.
  destruct (readFile (world sys) file) as [raw|]; [|reflexivity].
  destruct (JSON_parse raw) as [pkg|]; [|reflexivity].
  destruct (JS.truthyProp (PackageJson.publisher pkg)); [discriminate|reflexivity].
Qed.

Lemma scanLoop_entries (files : list string) (sys : Sys World) (fr : ScanFrame) :
  exists fr',
    forEach files scanFile (sys, fr) = (Done tt, (sys, fr'))
    /\ suite fr' = (suite fr ++ flat_map (expectedEntries (world sys)) files)%list.
Proof.
  revert fr. induction files as [|f r IH]; intros fr.
  - exists fr. cbn. rewrite app_nil_r. split; reflexivity.
  - cbn [forEach flat_map]. unfold bind, expectedEntries at 1.
    destruct (publishableAt (world sys) f) as [pkg|] eqn:P.
    + destruct (scanFile_entry f pkg sys fr P) as (fr1 & R1 & S1). rewrite R1.
      destruct (IH fr1) as (fr2 & R2 & S2). exists fr2. split; [exact R2|].
      rewrite S2, S1, <- app_assoc. reflexivity.
    + rewrite (scanFile_skip f sys fr P). apply IH.
Qed.

(** X4. In a workspace whose publishable manifests are typed (name and
    version are strings, display name and publisher strings or falsy), a
    suite scan posts one entry per publishable manifest, in the order the
    manifests were found; a manifest that cannot be read, does not parse
    or has no publisher is passed over without a trace. Each entry carries
    the display name (the name when there is none), the package path, the
    declared version, the installed version if an installed extension
    matches, and the package's age, "N/A" when the package file is
    missing. Without workspace folders nothing is posted. *)
Theorem scanForSuite_reports {nodefs : NodeFs World} (w : World) :
  typedWorkspace w (findFiles w "**/package.json"
                      "{**/node_modules/**,**/.vscode-test/**}") ->
  exists fr',
    scanForSuite ({| world := w; events := [] |}, scanFrame0)
    = (Done tt,
       ({| world := w;
           events :=
             if workspaceFolders w
             then [PostSuiteStatus
                     (flat_map (expectedEntries w)
                        (findFiles w "**/package.json"
                           "{**/node_modules/**,**/.vscode-test/**}"))]
             else [] |},
        fr')).
Proof.
  intros _. unfold scanForSuite. run. cbn [world].
  destruct (workspaceFolders w); cbn [negb].
  - match goal with
    | |- context [forEach ?fs scanFile ?s] =>
        destruct (scanLoop_entries fs {| world := w; events := [] |} scanFrame0)
          as (fr' & R & S)
    end.
    rewrite R. cbn [suite scanFrame0 app world events] in *. rewrite S.
    exists fr'. reflexivity.
  - exists scanFrame0. reflexivity.
Qed.

Lemma listProject_run (file : string) (sys : Sys World) (l : list ProjectRef.t) :
  listProject file (sys, l) = (Done tt, (sys, (l ++ expectedProjects (world sys) file)%list)).
Proof.
  unfold listProject, expectedProjects, publishableAt. run.
  destruct (readFile (world sys) file) as [raw|]; [|rewrite app_nil_r; reflexivity].
  destruct (JSON_parse raw) as [pkg|]; [|rewrite app_nil_r; reflexivity].
  destruct (JS.truthyProp (PackageJson.publisher pkg));
    [reflexivity | rewrite app_nil_r; reflexivity].
Qed.

Lemma listLoop_run (files : list string) (sys : Sys World) (l : list ProjectRef.t) :
  forEach files listProject (sys, l)
  = (Done tt, (sys, (l ++ flat_map (expectedProjects (world sys)) files)%list)).
Proof.
  revert l. induction files as [|f r IH]; intros l.
  - cbn. rewrite app_nil_r. reflexivity.
  - cbn [forEach flat_map]. unfold bind. rewrite listProject_run, IH, app_assoc.
    reflexivity.
Qed.

(** X5. The project list offered for publishing holds one entry per
    manifest with a publisher, in the order found, named by its display
    name (by its name when there is none) and located at the manifest's
    folder; unreadable and malformed manifests are passed over, and
    nothing is listed without workspace folders. Building the list
    changes nothing. *)
Theorem scanForProjects_lists (sys : Sys World) :
  exists l,
    scanForProjects (sys, [])
    = (Done (if workspaceFolders (world sys)
             then Some (flat_map (expectedProjects (world sys))
                          (findFiles (world sys) "**/package.json" "**/node_modules/**"))
             else None),
       (sys, l)).
Proof.
  unfold scanForProjects. run.
  destruct (workspaceFolders (world sys)); cbn [negb].
  - rewrite listLoop_run. eexists. reflexivity.
  - eexists. reflexivity.
Qed.

End ScanReportFacts.

Lemma scanForSuite_reports_witness :
  typedWorkspace (nodefs := DemoManifest.view) (Demo.suiteOfThree [])
    (findFiles (Demo.suiteOfThree []) "**/package.json"
       "{**/node_modules/**,**/.vscode-test/**}")
  /\ exists fr',
      scanForSuite (Demo.start (Demo.suiteOfThree []) scanFrame0)
      = (Done tt,
         ({| world := Demo.suiteOfThree [];
             events :=
               [PostSuiteStatus
                  (flat_map (expectedEntries (Demo.suiteOfThree []))
                     ["/ws/alpha/package.json"; "/ws/beta/package.json";
                      "/ws/gamma/package.json"])] |},
          fr')).
Proof.
  assert (T : typedWorkspace (nodefs := DemoManifest.view) (Demo.suiteOfThree [])
                (findFiles (Demo.suiteOfThree []) "**/package.json"
                   "{**/node_modules/**,**/.vscode-test/**}")).
  { intros file raw Hin Hread.
    cbn in Hin. destruct Hin as [<-|[<-|[<-|[]]]];
      vm_compute in Hread; inversion Hread; subst raw;
      (eexists; split; [vm_compute; reflexivity|]);
      (split; [reflexivity|]); (split; [reflexivity|]);
      split; eexists; (split; [vm_compute; reflexivity|]);
      cbn; auto. }
  split; [exact T|].
  exact (scanForSuite_reports (nodefs := DemoManifest.view) (Demo.suiteOfThree []) T).
Defined.

(* ===================================================================== *)
(** ** Facts about the validator *)
(* ===================================================================== *)

Section ValidatorFacts.

Context {World : Type} {host : Host World} {nodefs : NodeFs World}.

Ltac vrun :=
  cbv beta iota zeta delta
    [Validator.validatePackageJson Validator.validateBody Validator.checks
     Validator.push Validator.joinValue orThrow bind tryCatch modify ret throw
     fst snd].

Lemma prop_defined (c : Json.value) (k : string) (v : option Json.value) :
  Json.prop c k = Some v -> forall k', exists v', Json.prop c k' = Some v'.
Proof.
  destruct c; cbn; intros H k'; try discriminate; eauto.
Qed.

Lemma prop_throws (c : Json.value) (k : string) :
  Json.prop c k = None -> c = Json.Null.
Proof. destruct c; cbn; intros H; try discriminate; reflexivity. Qed.

Lemma validate_missing (w : World) (rootPath : string) :
  existsSync w (path_join rootPath "package.json") = false ->
  Validator.validatePackageJson w rootPath
  = [Validator.finding "package.json not found in root." SevError].
Proof. intros E. vrun. rewrite E. reflexivity. Qed.

Lemma validate_unreadable (w : World) (rootPath : string) :
  existsSync w (path_join rootPath "package.json") = true ->
  match readFileSync w (path_join rootPath "package.json") with
  | Some raw => match JSON_parse_value raw with
                | Some content => content = Json.Null
                | None => True
                end
  | None => True
  end ->
  Validator.validatePackageJson w rootPath = [Validator.parseError].
Proof.
  intros E. vrun. rewrite E. cbn [negb].
  destruct (readFileSync w (path_join rootPath "package.json")) as [raw|]; [|reflexivity].
  destruct (JSON_parse_value raw) as [content|]; [|reflexivity].
  intros ->. reflexivity.
Qed.

(** The audit of a manifest that parses to something other than null: the
    three checks in order, cut short by a parse error when the icon check
    throws. *)
Lemma validate_checked (w : World) (rootPath raw : string) (content : Json.value)
    (publisher icon repository : option Json.value) :
  existsSync w (path_join rootPath "package.json") = true ->
  readFileSync w (path_join rootPath "package.json") = Some raw ->
  JSON_parse_value raw = Some content ->
  Json.prop content "publisher" = Some publisher ->
  Json.prop content "icon" = Some icon ->
  Json.prop content "repository" = Some repository ->
  Validator.validatePackageJson w rootPath
  = (Validator.publisherFindings publisher
     ++ match Validator.iconFindings w rootPath icon with
        | Some l => l ++ Validator.repositoryFindings repository
        | None => [Validator.parseError]
        end)%list.
Proof.
  intros E R P Pp Pi Pr. vrun. rewrite E. cbn [negb]. rewrite R, P, Pp.
  unfold Validator.publisherFindings, Validator.iconFindings,
    Validator.repositoryFindings.
  destruct (Json.truthy publisher); [destruct (Json.isString publisher "nexgenmeta")|];
    rewrite Pi; (destruct (Json.truthy icon) eqn:Ti; cbn [negb];
    [ destruct icon as [[| | |s| |]|]; try reflexivity;
      rewrite Pr;
      destruct (existsSync w (path_join rootPath s)); cbn [negb];
      destruct (Json.truthy repository); reflexivity
    | rewrite Pr; destruct (Json.truthy repository); reflexivity ]).
Qed.

End ValidatorFacts.

Section ValidatorTheorems.

Context {World : Type} {host : Host World} {nodefs : NodeFs World}.

Lemma publisherFindings_nil (p : option Json.value) :
  Validator.publisherFindings p = [] <->
  Json.truthy p = true /\ Json.isString p "nexgenmeta" = false.
Proof.
  unfold Validator.publisherFindings.
  destruct (Json.truthy p); [destruct (Json.isString p "nexgenmeta")|];
    split; try discriminate; try tauto; intros [A B]; discriminate.
Qed.

Lemma repositoryFindings_nil (r : option Json.value) :
  Validator.repositoryFindings r = [] <-> Json.truthy r = true.
Proof.
  unfold Validator.repositoryFindings.
  destruct (Json.truthy r); cbn [negb]; split; try discriminate; tauto.
Qed.

Lemma iconFindings_nil (w : World) (rootPath : string) (i : option Json.value) :
  Validator.iconFindings w rootPath i = Some [] <->
  exists s, i = Some (Json.Str s) /\ s <> ""
            /\ existsSync w (path_join rootPath s) = true.
Proof.
  unfold Validator.iconFindings. split.
  - destruct (Json.truthy i) eqn:T; cbn [negb]; [|discriminate].
    destruct i as [[| | |s| |]|]; try discriminate.
    destruct (existsSync w (path_join rootPath s)) eqn:E; cbn [negb]; [|discriminate].
    intros _. exists s. repeat split; try assumption.
    intros ->. discriminate T.
  - intros (s & -> & Hs & E). destruct s as [|c s]; [congruence|].
    cbn. rewrite E. reflexivity.
Qed.

(** X6. The audit comes back empty exactly for a manifest that exists, can
    be read, parses to something other than null, names a publisher other
    than the all-lowercase 'nexgenmeta', names as icon a file that exists
    under the project folder, and has a repository entry. *)
Theorem clean_audit (w : World) (rootPath : string) :
  Validator.validatePackageJson w rootPath = [] <-> Validator.clean w rootPath.
Proof.
  unfold Validator.clean. split.
  - intros H.
    destruct (existsSync w (path_join rootPath "package.json")) eqn:E;
      [|rewrite (validate_missing w rootPath E) in H; discriminate].
    split; [reflexivity|].
    destruct (readFileSync w (path_join rootPath "package.json")) as [raw|] eqn:R;
      [|rewrite validate_unreadable in H; [discriminate | exact E | rewrite R; exact I]].
    destruct (JSON_parse_value raw) as [content|] eqn:P;
      [|rewrite validate_unreadable in H;
        [discriminate | exact E | rewrite R, P; exact I]].
    destruct (Json.prop content "publisher") as [p|] eqn:Pp;
      [|rewrite validate_unreadable in H;
        [discriminate | exact E | rewrite R, P; exact (prop_throws _ _ Pp)]].
    destruct (prop_defined content _ _ Pp "icon") as (i & Pi).
    destruct (prop_defined content _ _ Pp "repository") as (r & Pr).
    rewrite (validate_checked w rootPath raw content p i r E R P Pp Pi Pr) in H.
    apply app_eq_nil in H. destruct H as [Hp Hrest].
    apply publisherFindings_nil in Hp. destruct Hp as [Tp Np].
    destruct (Validator.iconFindings w rootPath i) as [l|] eqn:Fi; [|discriminate].
    apply app_eq_nil in Hrest. destruct Hrest as [-> Hr].
    apply iconFindings_nil in Fi. destruct Fi as (s & -> & Hs & Es).
    apply repositoryFindings_nil in Hr.
    exists raw, content, p, s, r. repeat split; assumption.
  - intros (E & raw & content & p & s & r & R & P & Pp & Tp & Np & Pi & Hs & Es & Pr & Tr).
    rewrite (validate_checked w rootPath raw content p _ r E R P Pp Pi Pr).
    rewrite (proj2 (publisherFindings_nil p) (conj Tp Np)).
    rewrite (proj2 (iconFindings_nil w rootPath _) (ex_intro _ s (conj eq_refl (conj Hs Es)))).
    rewrite (proj2 (repositoryFindings_nil r) Tr). reflexivity.
Qed.

(** X7. Whatever the manifest, the audit returns at most three findings
    and flags every one of them as not valid. A missing manifest gives the
    single finding "package.json not found in root."; a manifest that
    cannot be read, does not parse, or parses to null gives the single
    finding "Error parsing package.json.". *)
Theorem audit_findings (w : World) (rootPath : string) :
  Forall (fun r => ValidationResult.isValid r = false)
         (Validator.validatePackageJson w rootPath)
  /\ (length (Validator.validatePackageJson w rootPath) <= 3)%nat
  /\ (existsSync w (path_join rootPath "package.json") = false ->
      Validator.validatePackageJson w rootPath
      = [Validator.finding "package.json not found in root." SevError])
  /\ (existsSync w (path_join rootPath "package.json") = true ->
      match readFileSync w (path_join rootPath "package.json") with
      | Some raw => match JSON_parse_value raw with
                    | Some content => content = Json.Null
                    | None => True
                    end
      | None => True
      end ->
      Validator.validatePackageJson w rootPath
      = [Validator.finding "Error parsing package.json." SevError]).
Proof.
  assert (K : Forall (fun r => ValidationResult.isValid r = false)
                (Validator.validatePackageJson w rootPath)
              /\ (length (Validator.validatePackageJson w rootPath) <= 3)%nat).
  { destruct (existsSync w (path_join rootPath "package.json")) eqn:E;
      [|rewrite (validate_missing w rootPath E); split; [repeat constructor | cbn; lia]].
    destruct (readFileSync w (path_join rootPath "package.json")) as [raw|] eqn:R;
      [|rewrite validate_unreadable;
        [split; [repeat constructor | cbn; lia] | exact E | rewrite R; exact I]].
    destruct (JSON_parse_value raw) as [content|] eqn:P;
      [|rewrite validate_unreadable;
        [split; [repeat constructor | cbn; lia] | exact E | rewrite R, P; exact I]].
    destruct (Json.prop content "publisher") as [p|] eqn:Pp;
      [|rewrite validate_unreadable;
        [split; [repeat constructor | cbn; lia] | exact E
        | rewrite R, P; exact (prop_throws _ _ Pp)]].
    destruct (prop_defined content _ _ Pp "icon") as (i & Pi).
    destruct (prop_defined content _ _ Pp "repository") as (r & Pr).
    rewrite (validate_checked w rootPath raw content p i r E R P Pp Pi Pr).
    unfold Validator.publisherFindings, Validator.iconFindings,
      Validator.repositoryFindings.
    destruct (Json.truthy p); [destruct (Json.isString p "nexgenmeta")|];
      (destruct (Json.truthy i); cbn [negb];
       [destruct i as [[| | |s| |]|];
        try (split; [repeat constructor | cbn; lia]);
        destruct (existsSync w (path_join rootPath s)); cbn [negb]|]);
      destruct (Json.truthy r); cbn [negb];
      (split; [repeat constructor | cbn; lia]). }
  destruct K as [K1 K2].
  split; [exact K1|]. split; [exact K2|]. split.
  - apply validate_missing.
  - apply validate_unreadable.
Qed.

(** X8. An icon entry that is truthy without being a string (true, a
    number, an array, an object) makes the icon check throw: the audit then
    holds what the publisher check found, followed by "Error parsing
    package.json.", and the repository is not looked at. *)
Theorem non_string_icon_is_parse_error
    (w : World) (rootPath raw : string) (content : Json.value)
    (publisher icon : option Json.value) :
  existsSync w (path_join rootPath "package.json") = true ->
  readFileSync w (path_join rootPath "package.json") = Some raw ->
  JSON_parse_value raw = Some content ->
  Json.prop content "publisher" = Some publisher ->
  Json.prop content "icon" = Some icon ->
  Json.truthy icon = true ->
  (forall s, icon <> Some (Json.Str s)) ->
  Validator.validatePackageJson w rootPath
  = (Validator.publisherFindings publisher ++ [Validator.parseError])%list.
Proof.
  intros E R P Pp Pi Ti NS.
  destruct (prop_defined content _ _ Pp "repository") as (r & Pr).
  rewrite (validate_checked w rootPath raw content publisher icon r E R P Pp Pi Pr).
  unfold Validator.iconFindings. rewrite Ti. cbn [negb].
  destruct icon as [[| | |s| |]|]; try reflexivity.
  exfalso. apply (NS s). reflexivity.
Qed.

End ValidatorTheorems.

Lemma non_string_icon_is_parse_error_witness :
  Validator.validatePackageJson
    (DemoNode.folder [("/ws/p/package.json", "acme|true|")]) "/ws/p"
  = [Validator.parseError].
Proof.
  apply (non_string_icon_is_parse_error (host := Demo.host) (nodefs := DemoNode.nodefs)
           (DemoNode.folder [("/ws/p/package.json", "acme|true|")]) "/ws/p"
           "acme|true|"
           (Json.Obj [("publisher", Json.Str "acme"); ("icon", Json.Bool true)])
           (Some (Json.Str "acme")) (Some (Json.Bool true)));
    try reflexivity.
  intros s. discriminate.
Defined.

(** The audit on concrete folders. *)
Example audit_examples :
  Validator.validatePackageJson
    (DemoNode.folder [("/ws/p/package.json", "acme|icon.png|git"); ("/ws/p/icon.png", "")])
    "/ws/p" = []
  /\ map ValidationResult.message
       (Validator.validatePackageJson
          (DemoNode.folder [("/ws/p/package.json", "nexgenmeta|icon.png|")]) "/ws/p")
     = ["Publisher ID 'nexgenmeta' should likely be 'NexGenMeta' (Marketplace IDs are case-sensitive).";
        "Icon file not found at: icon.png";
        "Missing 'repository' field. Users trust extensions more with source links."].
Proof. vm_compute. split; reflexivity. Qed.

(* ===================================================================== *)
(** ** Facts about the badge generator *)
(* ===================================================================== *)

Lemma prefix_app (n b : string) : String.prefix n (n ++ b) = true.
Proof.
  induction n as [|c n IH]; simpl; [destruct b; reflexivity|].
  destruct (ascii_dec c c) as [_|N]; [exact IH | congruence].
Qed.

Lemma includes_app (n a b : string) : JSString.includes n (a ++ n ++ b) = true.
Proof.
  induction a as [|c a IH].
  - cbn [append]. destruct (n ++ b) eqn:E; cbn [JSString.includes];
      rewrite <- E, prefix_app; reflexivity.
  - cbn [append JSString.includes]. rewrite IH. apply orb_true_r.
Qed.

Lemma append_assoc (a b c : string) : (a ++ b) ++ c = a ++ b ++ c.
Proof. induction a as [|x a IH]; simpl; [reflexivity | rewrite IH; reflexivity]. Qed.

Lemma append_nil_r (s : string) : s ++ "" = s.
Proof. induction s as [|c s IH]; simpl; [reflexivity | rewrite IH; reflexivity]. Qed.

(** A text is its first line followed by the rest. *)
Lemma first_line (sep : ascii) (s : string) :
  exists rest,
    s = hd "" (JS.split sep s) ++ rest
    /\ forall x,
        JS.join sep (hd "" (JS.split sep s) :: x :: tl (JS.split sep s))
        = hd "" (JS.split sep s) ++ String sep x ++ rest.
Proof.
  pose proof (join_split sep s) as J. pose proof (split_nonempty sep s) as NE.
  destruct (JS.split sep s) as [|l0 r]; [congruence|]. cbn [hd tl].
  destruct r as [|l1 r].
  - exists "". cbn in J. subst l0. split.
    + rewrite append_nil_r. reflexivity.
    + intros x. change (JS.join sep [s; x]) with (s ++ String sep x).
      cbn [append]. rewrite append_nil_r. reflexivity.
  - exists (String sep (JS.join sep (l1 :: r))). split.
    + rewrite <- J. reflexivity.
    + intros x. reflexivity.
Qed.

Section BadgeFacts.

Context {World : Type} {host : Host World} {nodefs : NodeFs World}.

Ltac brun :=
  cbv beta iota zeta delta
    [BadgeGenerator.insertIntoReadme orThrow bind tryCatch modify get ret throw fst snd].

(** What [insertIntoReadme] writes into a README without a version
    badge. *)
Lemma insertIntoReadme_written (w : World) (rootPath badges content : string) :
  existsSync w (path_join rootPath "README.md") = true ->
  readFileSync w (path_join rootPath "README.md") = Some content ->
  JSString.includes "![Version]" content = false ->
  let first := hd "" (JS.split "010" content) in
  exists rest written,
    content = first ++ rest
    /\ written
       = (if JSString.startsWith "#" first
          then first ++ JSString.newline ++ JSString.newline ++ badges
                     ++ JSString.newline ++ rest
          else badges ++ JSString.newline ++ JSString.newline ++ content)
    /\ BadgeGenerator.insertIntoReadme rootPath badges w
       = (match fst (writeFileSync (path_join rootPath "README.md") written w) with
          | None => Done true
          | Some e => Thrown e
          end,
          snd (writeFileSync (path_join rootPath "README.md") written w)).
Proof.
  intros E R I first.
  destruct (first_line "010" content) as (rest & C & J). fold first in C, J.
  exists rest. eexists. split; [exact C|]. split; [reflexivity|].
  brun. rewrite E. cbn [negb]. rewrite R, I.
  unfold BadgeGenerator.withBadges.
  pose proof (split_nonempty "010" content) as NE.
  destruct (JS.split "010" content) as [|l0 r] eqn:S; [congruence|].
  cbn [nth_error hd tl] in *. subst first.
  destruct (JSString.startsWith "#" l0).
  - unfold JSString.spliceIn. cbn [firstn skipn app].
    rewrite J. unfold JSString.newline. cbn [append].
    rewrite !append_assoc. cbn [append].
    destruct (writeFileSync _ _ w) as [[e|] w1]; reflexivity.
  - assert (JJ : JS.join "010" ((badges ++ JSString.newline) :: l0 :: r)
                 = badges ++ JSString.newline ++ JSString.newline ++ content).
    { change (JS.join "010" ((badges ++ JSString.newline) :: l0 :: r))
        with ((badges ++ JSString.newline) ++ String "010" (JS.join "010" (l0 :: r))).
      rewrite <- S, join_split, append_assoc. reflexivity. }
    rewrite JJ. destruct (writeFileSync _ _ w) as [[e|] w1]; reflexivity.
Qed.

(** X9. Inserting badges loses no text of the README: what is written
    back is the old text with the badges after the first line when that
    line is a title (starts with #), and before everything otherwise. The
    call returns true when the write succeeds and throws what the write
    throws. *)
Theorem insert_keeps_text (w : World) (rootPath badges content : string) :
  existsSync w (path_join rootPath "README.md") = true ->
  readFileSync w (path_join rootPath "README.md") = Some content ->
  JSString.includes "![Version]" content = false ->
  let first := hd "" (JS.split "010" content) in
  exists rest written,
    content = first ++ rest
    /\ written
       = (if JSString.startsWith "#" first
          then first ++ JSString.newline ++ JSString.newline ++ badges
                     ++ JSString.newline ++ rest
          else badges ++ JSString.newline ++ JSString.newline ++ content)
    /\ BadgeGenerator.insertIntoReadme rootPath badges w
       = (match fst (writeFileSync (path_join rootPath "README.md") written w) with
          | None => Done true
          | Some e => Thrown e
          end,
          snd (writeFileSync (path_join rootPath "README.md") written w)).
Proof. exact (insertIntoReadme_written w rootPath badges content). Qed.

Lemma generateBadges_marker (publisher name : string) :
  exists tail, BadgeGenerator.generateBadges publisher name = "![Version]" ++ tail.
Proof.
  unfold BadgeGenerator.generateBadges. cbn [JS.join].
  rewrite !append_assoc. cbn [append]. eexists. reflexivity.
Qed.

(** X10. [insertIntoReadme] writes nothing and returns false when the
    folder has no README and when the README already shows a version
    badge; so, on a file system that gives back what was written, inserting
    the generated badges a second time changes nothing. *)
Theorem insert_is_idempotent :
  (forall (w : World) (rootPath badges : string),
      existsSync w (path_join rootPath "README.md") = false ->
      BadgeGenerator.insertIntoReadme rootPath badges w = (Done false, w))
  /\ (forall (w : World) (rootPath badges content : string),
      existsSync w (path_join rootPath "README.md") = true ->
      readFileSync w (path_join rootPath "README.md") = Some content ->
      JSString.includes "![Version]" content = true ->
      BadgeGenerator.insertIntoReadme rootPath badges w = (Done false, w))
  /\ (forall (w w1 : World) (rootPath publisher name : string),
      BadgeGenerator.insertIntoReadme rootPath
        (BadgeGenerator.generateBadges publisher name) w = (Done true, w1) ->
      (forall content,
          writeFileSync (path_join rootPath "README.md") content w = (None, w1) ->
          existsSync w1 (path_join rootPath "README.md") = true
          /\ readFileSync w1 (path_join rootPath "README.md") = Some content) ->
      BadgeGenerator.insertIntoReadme rootPath
        (BadgeGenerator.generateBadges publisher name) w1 = (Done false, w1)).
Proof.
  assert (A : forall (w : World) (rootPath badges content : string),
             existsSync w (path_join rootPath "README.md") = true ->
             readFileSync w (path_join rootPath "README.md") = Some content ->
             JSString.includes "![Version]" content = true ->
             BadgeGenerator.insertIntoReadme rootPath badges w = (Done false, w)).
  { intros w rootPath badges content E R I. brun. rewrite E. cbn [negb].
    rewrite R, I. reflexivity. }
  split; [|split; [exact A|]].
  - intros w rootPath badges E. brun. rewrite E. reflexivity.
  - intros w w1 rootPath publisher name Run Back.
    destruct (existsSync w (path_join rootPath "README.md")) eqn:E.
    2:{ revert Run. brun. rewrite E. cbn [negb]. discriminate. }
    destruct (readFileSync w (path_join rootPath "README.md")) as [content|] eqn:R.
    2:{ revert Run. brun. rewrite E. cbn [negb]. rewrite R. discriminate. }
    destruct (JSString.includes "![Version]" content) eqn:I.
    { rewrite (A w rootPath _ content E R I) in Run. discriminate. }
    destruct (insertIntoReadme_written w rootPath
                (BadgeGenerator.generateBadges publisher name) content E R I)
      as (rest & written & C & W & Run').
    rewrite Run in Run'.
    destruct (writeFileSync (path_join rootPath "README.md") written w)
      as [[e|] w'] eqn:Wr; cbn [fst snd] in Run'; [discriminate|].
    assert (w' = w1) by congruence. subst w'.
    destruct (Back written Wr) as [E1 R1].
    apply (A w1 rootPath _ written E1 R1).
    destruct (generateBadges_marker publisher name) as (tail & G).
    rewrite W, G.
    destruct (JSString.startsWith "#" (hd "" (JS.split "010" content))).
    + rewrite <- (append_assoc (hd "" (JS.split "010" content))),
        <- (append_assoc (hd "" (JS.split "010" content) ++ JSString.newline)).
      rewrite (append_assoc "![Version]"). apply includes_app.
    + rewrite (append_assoc "![Version]").
      apply (includes_app "![Version]" "").
Qed.

End BadgeFacts.

Lemma insert_keeps_text_witness :
  exists rest written,
    "# Title" = "# Title" ++ rest
    /\ written
       = "# Title" ++ JSString.newline ++ JSString.newline ++ "BADGES"
         ++ JSString.newline ++ rest
    /\ BadgeGenerator.insertIntoReadme (host := Demo.host) "/ws/p" "BADGES"
         (DemoNode.folder [("/ws/p/README.md", "# Title")])
       = (Done true,
          snd (DemoNode.write "/ws/p/README.md" written
                 (DemoNode.folder [("/ws/p/README.md", "# Title")]))).
Proof.
  apply (insert_keeps_text (host := Demo.host) (nodefs := DemoNode.nodefs)
           (DemoNode.folder [("/ws/p/README.md", "# Title")])
           "/ws/p" "BADGES" "# Title"); reflexivity.
Defined.

Lemma insert_is_idempotent_witness :
  let w := DemoNode.folder [("/ws/p/README.md", "# Title")] in
  let badges := BadgeGenerator.generateBadges "acme" "alpha" in
  let w1 := snd (BadgeGenerator.insertIntoReadme (host := Demo.host) "/ws/p" badges w) in
  BadgeGenerator.insertIntoReadme (host := Demo.host) "/ws/p" badges w1 = (Done false, w1).
Proof.
  intros w badges w1.
  apply (proj2 (proj2 (insert_is_idempotent (host := Demo.host) (nodefs := DemoNode.nodefs)))
           w w1 "/ws/p" "acme" "alpha").
  - reflexivity.
  - intros content H. vm_compute in H. inversion H. split; reflexivity.
Defined.

(* ===================================================================== *)
(** ** Facts about runGenerateBadges *)
(* ===================================================================== *)

Lemma includes_app_l (n a s : string) :
  JSString.includes n s = true -> JSString.includes n (a ++ s) = true.
Proof.
  intros H. induction a as [|c a IH]; [exact H|].
  cbn [append JSString.includes]. rewrite IH. apply orb_true_r.
Qed.

Lemma prefix_app_r (n s b : string) :
  String.prefix n s = true -> String.prefix n (s ++ b) = true.
Proof.
  revert s. induction n as [|c n IH]; intros s H.
  - destruct (s ++ b); reflexivity.
  - destruct s as [|d s]; [discriminate H|]. simpl in *.
    destruct (ascii_dec c d); [apply IH; exact H | discriminate H].
Qed.

Lemma includes_app_r (n s b : string) :
  JSString.includes n s = true -> JSString.includes n (s ++ b) = true.
Proof.
  induction s as [|c s IH]; cbn [JSString.includes append].
  - rewrite orb_false_r. intros H. destruct n; [|discriminate H].
    destruct b; reflexivity.
  - intros H. apply orb_prop in H. destruct H as [H|H].
    + change (String c (s ++ b)) with (String c s ++ b).
      rewrite (prefix_app_r n (String c s) b H). reflexivity.
    + rewrite (IH H). apply orb_true_r.
Qed.

Section GenerateBadgesFacts.

Context {World : Type} {host : Host World} {nodefs : NodeFs World}.

(** One turn of the badge loop: it never throws; the machine is the one
    [badgeStep] describes, the count goes up exactly when the insert
    returned true, and at most an error is logged. *)
Lemma badgeProject_run (file : string) (sys : Sys World) (n : Z) :
  exists evs,
    badgeProject file (sys, n)
    = (Done tt,
       ({| world := snd (badgeStep file (world sys)); events := events sys ++ evs |},
        if fst (badgeStep file (world sys)) then n + 1 else n)).
Proof.
  unfold badgeProject, badgeStep, onWorld. run.
  destruct (readFileSync (world sys) file) as [raw|]; [|eexists; reflexivity].
  destruct (JSON_parse raw) as [pkg|]; [|eexists; reflexivity].
  destruct (BadgeGenerator.insertIntoReadme _ _ (world sys)) as [[[|]|e] w'];
    cbn [fst snd world events].
  - exists []. rewrite app_nil_r. reflexivity.
  - exists []. rewrite app_nil_r. reflexivity.
  - eexists. reflexivity.
Qed.

Lemma badgeLoop_run (files : list string) (sys : Sys World) (n : Z) :
  exists evs,
    forEach files badgeProject (sys, n)
    = (Done tt,
       ({| world := snd (badgeSteps files (world sys)); events := events sys ++ evs |},
        n + Z.of_nat (length (filter (fun b => b) (fst (badgeSteps files (world sys))))))).
Proof.
  revert sys n. induction files as [|f r IH]; intros sys n.
  - exists []. cbn. rewrite app_nil_r, Z.add_0_r. destruct sys; reflexivity.
  - cbn [forEach badgeSteps]. unfold bind.
    destruct (badgeProject_run f sys n) as (evs1 & R1). rewrite R1.
    match goal with
    | |- context [forEach r badgeProject (?s, ?m)] =>
        destruct (IH s m) as (evs2 & R2)
    end.
    rewrite R2. cbn [world events].
    destruct (badgeStep f (world sys)) as [b w1]. cbn [fst snd].
    destruct (badgeSteps r w1) as [bs w2]. cbn [fst snd].
    exists (evs1 ++ evs2)%list. rewrite app_assoc.
    destruct b; cbn [filter length]; [|reflexivity].
    rewrite Nat2Z.inj_succ, <- Z.add_1_l, Z.add_assoc. reflexivity.
Qed.

(** X11. "Generate badges" gives every manifest found its turn, each on
    the machine the previous turn left, whatever failed before; the number
    in the closing message is the number of READMEs the insert reported as
    changed, and the message is the warning when that number is 0. *)
Theorem runGenerateBadges_counts (w : World) :
  workspaceFolders w = true ->
  let files := findFiles w "**/package.json" "**/node_modules/**" in
  let count := Z.of_nat (length (filter (fun b => b) (fst (badgeSteps files w)))) in
  exists evs,
    runGenerateBadges ({| world := w; events := [] |}, 0)
    = (Done tt,
       ({| world := snd (badgeSteps files w);
           events :=
             evs ++ [if count >? 0
                     then ShowInformationMessage
                            ("Marketplace badges inserted into " ++ showZ count
                             ++ " projects.")
                     else ShowWarningMessage
                            "No new badges were inserted (READMEs may be missing or badges already present)."] |},
        count))
    /\ length (fst (badgeSteps files w)) = length files.
Proof.
  intros Hws files count. unfold runGenerateBadges. run. cbn [world].
  rewrite Hws. cbn [negb].
  destruct (badgeLoop_run files {| world := w; events := [] |} 0) as (evs & R).
  cbn [world events] in R |- *. unfold files in R at 1. rewrite R.
  cbn [world events app]. rewrite Z.add_0_l.
  fold count. exists evs. split.
  - destruct (count >? 0); reflexivity.
  - clear. generalize w. induction files as [|f r IH]; intros w0; [reflexivity|].
    cbn [badgeSteps]. destruct (badgeStep f w0) as [b w1].
    specialize (IH w1). destruct (badgeSteps r w1) as [bs w2].
    cbn [fst length] in *. rewrite IH. reflexivity.
Qed.

Lemma generateBadges_includes (publisher name : string) :
  JSString.includes ("/v/" ++ publisher ++ "." ++ name ++ ")")
    (BadgeGenerator.generateBadges publisher name) = true.
Proof.
  unfold BadgeGenerator.generateBadges. cbn [JS.join].
  rewrite <- (append_assoc "![Version](" BadgeGenerator.baseUrl).
  rewrite (append_assoc ("![Version](" ++ BadgeGenerator.baseUrl)).
  apply includes_app.
Qed.

(** X12. "Generate badges" does not look at the publisher: for a manifest
    that has none, the README of its folder (when it has no version badge
    yet) is rewritten with badge links whose publisher reads
    "undefined". *)
Theorem badges_without_publisher
    (sys : Sys World) (n : Z) (file raw content : string) (pkg : PackageJson.t) :
  readFileSync (world sys) file = Some raw ->
  JSON_parse raw = Some pkg ->
  PackageJson.publisher pkg = None ->
  existsSync (world sys) (path_join (path_dirname file) "README.md") = true ->
  readFileSync (world sys) (path_join (path_dirname file) "README.md") = Some content ->
  JSString.includes "![Version]" content = false ->
  exists written evs,
    JSString.includes ("/v/undefined." ++ PackageJson.name pkg ++ ")") written = true
    /\ badgeProject file (sys, n)
       = (Done tt,
          ({| world := snd (writeFileSync (path_join (path_dirname file) "README.md")
                              written (world sys));
              events := events sys ++ evs |},
           match fst (writeFileSync (path_join (path_dirname file) "README.md")
                        written (world sys)) with
           | None => n + 1
           | Some _ => n
           end)).
Proof.
  intros R P NP E RR I.
  destruct (insertIntoReadme_written (world sys) (path_dirname file)
              (BadgeGenerator.generateBadges "undefined" (PackageJson.name pkg))
              content E RR I) as (rest & written & C & W & Run).
  exists written.
  destruct (badgeProject_run file sys n) as (evs & BR). exists evs. split.
  - pose proof (generateBadges_includes "undefined" (PackageJson.name pkg)) as G.
    change ("/v/" ++ "undefined" ++ "." ++ PackageJson.name pkg ++ ")")
      with ("/v/undefined." ++ PackageJson.name pkg ++ ")") in G.
    rewrite W.
    destruct (JSString.startsWith "#" (hd "" (JS.split "010" content))).
    + do 3 apply includes_app_l. apply includes_app_r. exact G.
    + apply includes_app_r. exact G.
  - rewrite BR. unfold badgeStep. rewrite R, P, NP. cbn [shownProp]. rewrite Run.
    destruct (writeFileSync _ written (world sys)) as [[e|] w1]; reflexivity.
Qed.

End GenerateBadgesFacts.

Lemma runGenerateBadges_counts_witness :
  let w := DemoNode.folder [("/ws/alpha/package.json", "alpha||1.0.0||");
                            ("/ws/alpha/README.md", "# Alpha")] in
  exists evs,
    runGenerateBadges (host := Demo.host) (Demo.start w 0)
    = (Done tt,
       ({| world := snd (badgeSteps (host := Demo.host)
                           ["/ws/alpha/package.json"; "/ws/alpha/README.md"] w);
           events := evs ++ [ShowInformationMessage
                               "Marketplace badges inserted into 1 projects."] |},
        1))
    /\ length (fst (badgeSteps (host := Demo.host)
                      ["/ws/alpha/package.json"; "/ws/alpha/README.md"] w)) = 2%nat.
Proof.
  intros w.
  exact (runGenerateBadges_counts (host := Demo.host) (nodefs := DemoNode.nodefs)
           w eq_refl).
Defined.

Lemma badges_without_publisher_witness :
  let w := DemoNode.folder [("/ws/alpha/package.json", "alpha||1.0.0||");
                            ("/ws/alpha/README.md", "# Alpha")] in
  exists written evs,
    JSString.includes "/v/undefined.alpha)" written = true
    /\ badgeProject (host := Demo.host) "/ws/alpha/package.json" (Demo.start w 0)
       = (Done tt,
          ({| world := snd (DemoNode.write "/ws/alpha/README.md" written w);
              events := evs |}, 1)).
Proof.
  intros w.
  apply (badges_without_publisher (host := Demo.host) (nodefs := DemoNode.nodefs)
           {| world := w; events := [] |} 0 "/ws/alpha/package.json"
           "alpha||1.0.0||" "# Alpha"
           {| PackageJson.name := "alpha"; PackageJson.displayName := None;
              PackageJson.version := "1.0.0"; PackageJson.publisher := None;
              PackageJson.scripts_compile := None |});
    reflexivity.
Defined.

(* ===================================================================== *)
(** ** Facts about publishing, packaging and deleting *)
(* ===================================================================== *)

Lemma trim_blank (s : string) : blank s = true -> JS.trim s = "".
Proof.
  unfold JS.trim. induction s as [|c s IH]; simpl; [reflexivity|].
  intros H. apply andb_prop in H. destruct H as [Hc Hs]. rewrite Hc. exact (IH Hs).
Qed.

Section ActionFacts.

Context {World : Type} {host : Host World} {nodefs : NodeFs World} {desk : Desk World}.

Ltac arun :=
  cbv beta iota zeta delta
    [bind tryCatch assign modify locals query ret emit stat command call act fst snd];
  repeat match goal with
         | |- context [world {| world := ?w; events := ?e |}] =>
             change (world {| world := w; events := e |}) with w
         | |- context [events {| world := ?w; events := ?e |}] =>
             change (events {| world := w; events := e |}) with e
         end.

Lemma blank_noProject (s : string) : blank s = true -> noProject (Some s) = true.
Proof.
  intros H. unfold noProject. rewrite (trim_blank s H). apply orb_true_r.
Qed.

(** X13. [runPublish] issues the publish command exactly when a project
    path is given that is not blank and whose package.json exists, and then
    once, for that path and release type; a missing, empty or white-space
    path gets the "select a target project" warning and nothing else, a
    folder without package.json an error message and nothing else. The
    method itself never throws. *)
Theorem runPublish_issues :
  (forall (type : string) (projectPath : option string) (sys : Sys World) (l : list Action),
      exists sys',
        runPublish type projectPath (sys, l)
        = (Done tt,
           (sys',
            match projectPath with
            | Some p =>
                if noProject projectPath then l
                else if existsSync (world sys) (path_join p "package.json")
                     then (l ++ [Publish type p])%list
                     else l
            | None => l
            end)))
  /\ (forall s : string, blank s = true -> noProject (Some s) = true)
  /\ (forall (type : string) (projectPath : option string) (sys : Sys World) (l : list Action),
      noProject projectPath = true ->
      runPublish type projectPath (sys, l)
      = (Done tt,
         ({| world := world sys;
             events := events sys
                       ++ [ShowWarningMessage
                             "Please select a target project from the dropdown first."] |},
          l)))
  /\ (forall (type p : string) (sys : Sys World) (l : list Action),
      noProject (Some p) = false ->
      existsSync (world sys) (path_join p "package.json") = false ->
      runPublish type (Some p) (sys, l)
      = (Done tt,
         ({| world := world sys;
             events := events sys ++ [ShowErrorMessage ("No package.json found at: " ++ p)] |},
          l))).
Proof.
  assert (W : forall type projectPath sys l,
             noProject projectPath = true ->
             runPublish type projectPath (sys, l)
             = (Done tt,
                ({| world := world sys;
                    events := events sys
                              ++ [ShowWarningMessage
                                    "Please select a target project from the dropdown first."] |},
                 l))).
  { intros type pp sys l H. unfold runPublish. rewrite H. reflexivity. }
  assert (E : forall type p sys l,
             noProject (Some p) = false ->
             existsSync (world sys) (path_join p "package.json") = false ->
             runPublish type (Some p) (sys, l)
             = (Done tt,
                ({| world := world sys;
                    events := events sys
                              ++ [ShowErrorMessage ("No package.json found at: " ++ p)] |},
                 l))).
  { intros type p sys l H X. unfold runPublish. rewrite H. arun. rewrite X. reflexivity. }
  split; [|split; [exact blank_noProject | split; [exact W | exact E]]].
  intros type pp sys l.
  destruct (noProject pp) eqn:N.
  - rewrite (W type pp sys l N). destruct pp; eexists; reflexivity.
  - destruct pp as [p|]; [|discriminate N].
    destruct (existsSync (world sys) (path_join p "package.json")) eqn:X.
    + unfold runPublish. rewrite N. arun. rewrite X. cbn [negb world events].
      destruct (Publisher_publish type p (world sys)) as [[e|] w1].
      * eexists. reflexivity.
      * match goal with
        | |- context [scanForSuite (?s, ?f)] =>
            destruct (scanForSuite_run s f) as (sevs & sfr & RS & _)
        end.
        rewrite RS. eexists. reflexivity.
    + rewrite (E type p sys l N X). eexists. reflexivity.
Qed.

(** X14. [runPackage] runs the packager once for any project path that
    is not blank, without looking for a package.json first, and not at all
    for a missing, empty or white-space path; it never throws. *)
Theorem runPackage_issues
    (projectPath : option string) (sys : Sys World) (l : list Action) :
  exists sys',
    runPackage projectPath (sys, l) = (Done tt, (sys', l))
    /\ filter isBuildCommand (events sys')
       = (filter isBuildCommand (events sys)
          ++ match projectPath with
             | Some p => if noProject projectPath then [] else [PackageExtension p]
             | None => []
             end)%list.
Proof.
  unfold runPackage. destruct (noProject projectPath) eqn:N.
  - eexists. split; [reflexivity|]. cbn [events]. rewrite filter_app. cbn.
    destruct projectPath; reflexivity.
  - destruct projectPath as [p|]; [|discriminate N]. arun. cbn [world events].
    destruct (Publisher_packageExtension p (world sys)) as [[e|] w1].
    + eexists. split; [reflexivity|]. cbn [events]. rewrite !filter_app. cbn.
      rewrite app_nil_r. reflexivity.
    + match goal with
      | |- context [scanForSuite (?s, ?f)] =>
          destruct (scanForSuite_run s f) as (sevs & sfr & RS & Shape)
      end.
      rewrite RS. eexists. split; [reflexivity|]. cbn [events]. rewrite !filter_app. cbn.
      assert (S0 : filter isBuildCommand sevs = [])
        by (destruct Shape as [->|[suite ->]]; reflexivity).
      rewrite S0, !app_nil_r. reflexivity.
Qed.


End ActionFacts.

(* ===================================================================== *)
(** ** Facts about the audit of the workspace *)
(* ===================================================================== *)

Section AuditFacts.

Context {World : Type} {host : Host World} {nodefs : NodeFs World}.

Lemma auditProject_run (file : string) (sys : Sys World) (l : list AuditReport.t) :
  auditProject file (sys, l) = (Done tt, (sys, (l ++ expectedReports (world sys) file)%list)).
Proof.
  unfold auditProject, expectedReports, publishableAt. run.
  destruct (readFile (world sys) file) as [raw|]; [|rewrite app_nil_r; reflexivity].
  destruct (JSON_parse raw) as [pkg|]; [|rewrite app_nil_r; reflexivity].
  destruct (JS.truthyProp (PackageJson.publisher pkg));
    [reflexivity | rewrite app_nil_r; reflexivity].
Qed.

Lemma auditLoop_run (files : list string) (sys : Sys World) (l : list AuditReport.t) :
  forEach files auditProject (sys, l)
  = (Done tt, (sys, (l ++ flat_map (expectedReports (world sys)) files)%list)).
Proof.
  revert l. induction files as [|f r IH]; intros l.
  - cbn. rewrite app_nil_r. reflexivity.
  - cbn [forEach flat_map]. unfold bind. rewrite auditProject_run, IH, app_assoc.
    reflexivity.
Qed.

(** X16. The audit of the workspace reports on the manifests that have a
    publisher and on no other, in the order found: each report names the
    project after its folder (not after the manifest's name), gives the
    manifest's version and holds what [validatePackageJson] finds for the
    folder. Unreadable and malformed manifests are passed over, nothing is
    reported without workspace folders, and the audit changes nothing. *)
Theorem runAudit_reports (sys : Sys World) :
  exists l,
    runAudit (sys, [])
    = (Done (if workspaceFolders (world sys)
             then Some (flat_map (expectedReports (world sys))
                          (findFiles (world sys) "**/package.json" "**/node_modules/**"))
             else None),
       (sys, l)).
Proof.
  unfold runAudit. run.
  destruct (workspaceFolders (world sys)); cbn [negb].
  - rewrite auditLoop_run. eexists. reflexivity.
  - eexists. reflexivity.
Qed.

End AuditFacts.

(* ===================================================================== *)
(** ** Facts about the listing of the workspace *)
(* ===================================================================== *)

Section ListingFacts.

Context {World : Type} {host : Host World}.

Lemma listEntries_listed (relative : string) (entries : list (string * Folder.entry)) :
  Forall (fun ne => Folder.below listed (snd ne)) entries ->
  forall results,
    (listEntries _recursiveList relative entries results
     = Done (results ++ map (joined relative) (files (Folder.Entries entries)))%list
     /\ ~ unreadableBelow (Folder.Entries entries))
    \/ ((exists e, listEntries _recursiveList relative entries results = Thrown e)
        /\ unreadableBelow (Folder.Entries entries)).
Proof.
  induction 1 as [|[name e] rest Hx Hrest IH]; intros results.
  - left. split; [cbn; rewrite app_nil_r; reflexivity|].
    intros U. inversion U as [|? ? ? HIn]; subst. destruct HIn.
  - assert (Keep : forall acc,
               (forall n c, In (n, Folder.Directory c) [(name, e)] -> ignored n = false ->
                            ~ unreadableBelow c) ->
               (listEntries _recursiveList relative rest acc
                = Done (acc ++ map (joined relative) (files (Folder.Entries rest)))%list
                /\ ~ unreadableBelow (Folder.Entries ((name, e) :: rest)))
               \/ ((exists err, listEntries _recursiveList relative rest acc = Thrown err)
                   /\ unreadableBelow (Folder.Entries ((name, e) :: rest)))).
    { intros acc Hhead. destruct (IH acc) as [[R N]|[R U]].
      - left. split; [exact R|]. intros U.
        inversion U as [|? n c HIn Hig Hc]; subst. destruct HIn as [E|HIn].
        + exact (Hhead n c (or_introl E) Hig Hc).
        + apply N. exact (unreadableDeeper rest n c HIn Hig Hc).
      - right. split; [exact R|].
        inversion U as [|? n c HIn Hig Hc]; subst.
        exact (unreadableDeeper ((name, e) :: rest) n c (or_intror HIn) Hig Hc). }
    destruct e as [|content]; cbn [listEntries files flat_map].
    + destruct (Keep (results ++ [relPath relative name])%list) as [[R N]|[R U]].
      * intros n c [E|[]]. discriminate E.
      * left. split; [|exact N]. rewrite R. cbn [map app]. rewrite <- app_assoc. reflexivity.
      * right. split; assumption.
    + destruct (ignored name) eqn:Hig.
      * destruct (Keep results) as [[R N]|[R U]].
        -- intros n c [E|[]] Hn. inversion E; subst. congruence.
        -- left. split; [|exact N]. rewrite R. reflexivity.
        -- right. split; assumption.
      * cbn [Folder.below snd] in Hx. destruct (Hx (relPath relative name)) as [[R N]|[[err R] U]].
        -- rewrite R.
           destruct (Keep (results ++ map (joined (relPath relative name)) (files content))%list)
             as [[R' N']|[R' U']].
           ++ intros n c [E|[]] _. inversion E; subst. exact N.
           ++ left. split; [|exact N']. rewrite R'. rewrite map_app, map_map, <- app_assoc.
              reflexivity.
           ++ right. split; assumption.
        -- rewrite R. right. split; [exists err; reflexivity|].
           exact (unreadableDeeper ((name, Folder.Directory content) :: rest) name content
                    (or_introl eq_refl) Hig U).
Qed.

Lemma recursiveList_listed (dir : Folder.t) : listed dir.
Proof.
  induction dir as [message|entries IH] using Folder.induction; intros relative.
  - right. split; [exists message; reflexivity | constructor].
  - cbn [_recursiveList].
    destruct (listEntries_listed relative entries IH []) as [[R N]|[R U]].
    + left. split; [exact R | exact N].
    + right. split; assumption.
Qed.

Lemma files_fileAt (dir : Folder.t) (names : list string) :
  In names (files dir) <-> fileAt dir names.
Proof.
  revert names. induction dir as [message|entries IH] using Folder.induction; intros names.
  - split; [intros [] | intros H; inversion H].
  - cbn [files]. rewrite in_flat_map. split.
    + intros ([name e] & HIn & Hn).
      rewrite Forall_forall in IH. specialize (IH _ HIn). cbn [snd] in IH.
      destruct e as [|content].
      * destruct Hn as [<-|[]]. constructor. exact HIn.
      * destruct (ignored name) eqn:Hig; [destruct Hn|].
        apply in_map_iff in Hn. destruct Hn as (rest & <- & Hrest).
        apply (fileBelow entries name content rest HIn Hig). apply IH. exact Hrest.
    + intros H. inversion H as [? name HIn|? name content rest HIn Hig Hrest]; subst.
      * exists (name, Folder.Other). split; [exact HIn | left; reflexivity].
      * exists (name, Folder.Directory content). split; [exact HIn|].
        rewrite Hig. apply in_map. rewrite Forall_forall in IH.
        specialize (IH _ HIn). cbn [snd] in IH. apply IH. exact Hrest.
Qed.

(** X17. The listing fails exactly when some folder that it has to open
    cannot be read: the folder listed itself, or a directory reached from it
    through directories none of which is named node_modules, .git, .conduit
    or .agent. A folder of one of these names is never opened, so that it
    cannot be read does no harm. *)
Theorem listing_fails_iff_unreadable (dir : Folder.t) (relative : string) :
  (exists e, _recursiveList dir relative = Thrown e) <-> unreadableBelow dir.
Proof.
  destruct (recursiveList_listed dir relative) as [[R N]|[R U]].
  - split; [intros [e E]; rewrite R in E; discriminate E | intros U; destruct (N U)].
  - split; [intros _; exact U | intros _; exact R].
Qed.

(** X18. A listing that succeeds shows the files folder by folder, in the
    order of the entries, each directory's files at the place of the
    directory: one path for every entry that is not a directory, none for a
    directory as such (an empty one leaves no trace), and each path built
    from the chain of names with [path.join]. *)
Theorem listing_is_depth_first
    (dir : Folder.t) (relative : string) (results : list string) :
  _recursiveList dir relative = Done results ->
  results = map (joined relative) (files dir).
Proof.
  intros H. destruct (recursiveList_listed dir relative) as [[R _]|[[e R] _]];
    rewrite R in H; [inversion H; reflexivity | discriminate H].
Qed.

(** X19. A path is in a listing that succeeds exactly when it is the path
    of an entry that is not a directory, reached through directories none
    of which is named node_modules, .git, .conduit or .agent: nothing
    inside such a folder is listed, while a file of such a name is. *)
Theorem listing_members
    (dir : Folder.t) (relative : string) (results : list string) (p : string) :
  _recursiveList dir relative = Done results ->
  In p results <-> exists names, fileAt dir names /\ p = joined relative names.
Proof.
  intros H. destruct (recursiveList_listed dir relative) as [[R _]|[[e R] _]];
    rewrite R in H; [|discriminate H].
  inversion H; subst. rewrite in_map_iff. split.
  - intros (names & <- & HIn). exists names. split; [apply files_fileAt; exact HIn | reflexivity].
  - intros (names & F & ->). exists names. split; [reflexivity | apply files_fileAt; exact F].
Qed.

End ListingFacts.

Lemma listing_is_depth_first_witness :
  _recursiveList DemoFolder.workspace ""
  = Done ["README.md"; "src/extension.ts"; "src/Publisher.ts"; ".git"]
  /\ ["README.md"; "src/extension.ts"; "src/Publisher.ts"; ".git"]
     = map (joined "") (files DemoFolder.workspace).
Proof.
  split; [reflexivity|].
  apply (listing_is_depth_first DemoFolder.workspace ""). reflexivity.
Defined.

Lemma listing_members_witness :
  _recursiveList DemoFolder.workspace ""
  = Done ["README.md"; "src/extension.ts"; "src/Publisher.ts"; ".git"]
  /\ (In "src/Publisher.ts" ["README.md"; "src/extension.ts"; "src/Publisher.ts"; ".git"]
      <-> exists names,
            fileAt DemoFolder.workspace names /\ "src/Publisher.ts" = joined "" names).
Proof.
  split; [reflexivity|].
  apply (listing_members DemoFolder.workspace ""). reflexivity.
Defined.

(* ===================================================================== *)
(** ** Facts about the nonce *)
(* ===================================================================== *)

Lemma roundHalfEven_below (a b M : Z) :
  0 <= a -> 0 < b -> 32 * a <= (32 * M - 31) * b ->
  0 <= JS.roundHalfEven a b <= M - 1.
Proof.
  intros Ha Hb H. unfold JS.roundHalfEven.
  pose proof (Z.div_mod a b ltac:(lia)) as E.
  pose proof (Z.mod_pos_bound a b Hb) as R.
  assert (Q0 : 0 <= a / b) by (apply Z.div_pos; lia).
  set (q := a / b) in *. set (r := a mod b) in *.
  assert (Q1 : q <= M - 1).
  { destruct (Z_le_gt_dec q (M - 1)) as [L|L]; [exact L|exfalso].
    assert (b * M <= b * q) by (apply Z.mul_le_mono_nonneg_l; lia). lia. }
  assert (Q2 : q = M - 1 -> 32 * r <= b).
  { intros ->. lia. }
  destruct (2 * r ?= b) eqn:C.
  - apply Z.compare_eq in C. destruct (Z.even q); [lia|].
    destruct (Z.eq_dec q (M - 1)) as [Eq|Ne]; [specialize (Q2 Eq); lia | lia].
  - lia.
  - apply Z.compare_gt_iff in C.
    destruct (Z.eq_dec q (M - 1)) as [Eq|Ne]; [specialize (Q2 Eq); lia | lia].
Qed.

Lemma floorLog2_below (n d : Z) :
  0 < n -> 0 < d -> n < 64 * d -> JS.floorLog2 n d <= 5.
Proof.
  intros Hn Hd H. unfold JS.floorLog2.
  assert (L : Z.log2 n <= 6 + Z.log2 d).
  { transitivity (Z.log2 (d * 2 ^ 6)).
    - apply Z.log2_le_mono. change (2 ^ 6) with 64. lia.
    - rewrite Z.log2_mul_pow2; lia. }
  set (e := Z.log2 n - Z.log2 d) in *.
  destruct (0 <=? e) eqn:E.
  - destruct (d * 2 ^ e <=? n) eqn:R; [|lia]. apply Z.leb_le in R.
    destruct (Z.eq_dec e 6) as [E6|]; [|lia].
    rewrite E6 in R. change (2 ^ 6) with 64 in R. lia.
  - apply Z.leb_gt in E. destruct (d <=? n * 2 ^ (- e)); lia.
Qed.

Lemma roundPositive_below (n d : Z) :
  0 < n -> 0 < d -> n * 2 ^ 53 <= 62 * (2 ^ 53 - 1) * d ->
  exists m K,
    JS.roundPositive n d = JS.Finite (Qmake m (Z.to_pos (2 ^ K)))
    /\ 0 <= K /\ 0 <= m < 62 * 2 ^ K.
Proof.
  intros Hn Hd H. change (2 ^ 53) with 9007199254740992 in H.
  pose proof (floorLog2_below n d Hn Hd ltac:(lia)) as F.
  unfold JS.roundPositive.
  set (k := Z.max (JS.floorLog2 n d - 52) (-1074)).
  assert (Hk : -1074 <= k <= -47) by lia.
  destruct (0 <=? k) eqn:K0; [apply Z.leb_le in K0; lia|].
  exists (JS.roundHalfEven (n * 2 ^ (- k)) d), (- k).
  split; [reflexivity|]. split; [lia|].
  assert (T : 2 ^ 47 <= 2 ^ (- k)) by (apply Z.pow_le_mono_r; lia).
  change (2 ^ 47) with 140737488355328 in T.
  set (t := 2 ^ (- k)) in *.
  assert (H1 : n * 9007199254740992 * t <= 62 * (9007199254740992 - 1) * d * t)
    by (apply Z.mul_le_mono_nonneg_r; lia).
  assert (H2 : d * 140737488355328 <= d * t)
    by (apply Z.mul_le_mono_nonneg_l; lia).
  assert (H3 : 0 <= n * t) by (apply Z.mul_nonneg_nonneg; lia).
  pose proof (roundHalfEven_below (n * t) d (62 * t) H3 Hd) as B.
  assert (B0 : 32 * (n * t) <= (32 * (62 * t) - 31) * d) by lia.
  specialize (B B0). lia.
Qed.

Lemma unit_fraction_gap (m k : Z) :
  0 <= m < 2 ^ 53 -> 0 <= k -> m < 2 ^ k ->
  m * 2 ^ 53 <= (2 ^ 53 - 1) * 2 ^ k.
Proof.
  intros Hm Hk Hlt. destruct (Z_le_gt_dec k 53) as [L|L].
  - assert (P : 2 ^ k <= 2 ^ 53) by (apply Z.pow_le_mono_r; lia).
    assert (m * 2 ^ 53 <= (2 ^ k - 1) * 2 ^ 53)
      by (apply Z.mul_le_mono_nonneg_r; lia).
    lia.
  - assert (P : 2 ^ 53 <= 2 ^ k) by (apply Z.pow_le_mono_r; lia).
    assert (m * 2 ^ 53 <= (2 ^ 53 - 1) * 2 ^ 53)
      by (apply Z.mul_le_mono_nonneg_r; lia).
    assert ((2 ^ 53 - 1) * 2 ^ 53 <= (2 ^ 53 - 1) * 2 ^ k)
      by (apply Z.mul_le_mono_nonneg_l; lia).
    lia.
Qed.

Lemma get_possible (j : nat) :
  (j < 62)%nat ->
  exists c, String.get j possible = Some c /\ alphanumeric c = true.
Proof.
  intros H.
  do 62 (destruct j as [|j]; [eexists; split; reflexivity|]).
  lia.
Qed.

Lemma charAt_possible (i : Z) :
  0 <= i <= 61 ->
  exists c, JSMath.charAt possible (JS.Finite (inject_Z i)) = String c ""
            /\ alphanumeric c = true.
Proof.
  intros H. unfold JSMath.charAt, inject_Z. cbn [Qnum Qden].
  rewrite Z.quot_1_r. destruct (i <? 0) eqn:N; [apply Z.ltb_lt in N; lia|].
  destruct (get_possible (Z.to_nat i) ltac:(lia)) as (c & G & A).
  rewrite G. exists c. split; [reflexivity | exact A].
Qed.

Lemma pick_unit (r : JS.number) :
  unitFraction r -> exists c, pick r = String c "" /\ alphanumeric c = true.
Proof.
  destruct r as [|s|[n d]]; cbn [unitFraction]; [intros [] | intros [] |].
  intros (m & k & Hm & Hk & E & Hlt). cbn [Qnum Qden] in E.
  unfold pick. change (String.length possible) with 62%nat.
  change (inject_Z (Z.of_nat 62)) with (Qmake 62 1).
  unfold JSMath.mul, JS.roundToDouble, Qmult. cbn [Qnum Qden].
  destruct n as [|p|p].
  - cbn [Z.mul JSMath.floor Qnum Qden]. exact (charAt_possible 0 ltac:(lia)).
  - change (Zpos p * 62) with (Zpos (p * 62)). cbv iota.
    assert (P : 0 < 2 ^ k) by (apply Z.pow_pos_nonneg; lia).
    pose proof (unit_fraction_gap m k Hm Hk Hlt) as Gap.
    assert (B : Zpos (p * 62) * 2 ^ 53 <= 62 * (2 ^ 53 - 1) * Zpos (d * 1)).
    { rewrite !Pos2Z.inj_mul. change (Zpos 1) with 1. rewrite Z.mul_1_r.
      change (Zpos 62) with 62.
      assert (S1 : Zpos p * 2 ^ 53 * 2 ^ k <= (2 ^ 53 - 1) * Zpos d * 2 ^ k).
      { replace (Zpos p * 2 ^ 53 * 2 ^ k) with (m * 2 ^ 53 * Zpos d)
          by (rewrite <- (Z.mul_assoc m), (Z.mul_comm (2 ^ 53)), Z.mul_assoc, <- E; ring).
        replace ((2 ^ 53 - 1) * Zpos d * 2 ^ k) with ((2 ^ 53 - 1) * 2 ^ k * Zpos d) by ring.
        apply Z.mul_le_mono_nonneg_r; lia. }
      apply Z.mul_le_mono_pos_r in S1; [|exact P]. lia. }
    destruct (roundPositive_below (Zpos (p * 62)) (Zpos (d * 1)) ltac:(lia) ltac:(lia) B)
      as (m' & K & -> & HK & Hm').
    cbn [JSMath.floor Qnum Qden].
    assert (PK : 0 < 2 ^ K) by (apply Z.pow_pos_nonneg; lia).
    rewrite Z2Pos.id by exact PK.
    apply charAt_possible. split.
    + apply Z.div_pos; lia.
    + assert (m' / 2 ^ K < 62) by (apply Z.div_lt_upper_bound; lia). lia.
  - exfalso. assert (0 < 2 ^ k) by (apply Z.pow_pos_nonneg; lia).
    assert (Zneg p * 2 ^ k < 0) by (apply Z.mul_neg_pos; lia).
    assert (0 <= m * Zpos d) by (apply Z.mul_nonneg_nonneg; lia).
    lia.
Qed.

Lemma length_append (a b : string) :
  String.length (a ++ b) = (String.length a + String.length b)%nat.
Proof.
  induction a as [|c a IH]; cbn; [reflexivity | rewrite IH; reflexivity].
Qed.

Lemma allChars_append (p : ascii -> bool) (a b : string) :
  allChars p (a ++ b) = allChars p a && allChars p b.
Proof.
  induction a as [|c a IH]; cbn; [reflexivity | rewrite IH, andb_assoc; reflexivity].
Qed.

Section NonceFacts.

Context {G : Type} (Math_random : G -> JS.number * G).

Lemma nonceLoop_run (turns : nat) (text : string) (g : G) :
  (forall g', unitFraction (fst (Math_random g'))) ->
  String.length (fst (nonceLoop Math_random turns text g))
  = (String.length text + turns)%nat
  /\ allChars alphanumeric (fst (nonceLoop Math_random turns text g))
     = allChars alphanumeric text
  /\ snd (nonceLoop Math_random turns text g)
     = Nat.iter turns (fun g' => snd (Math_random g')) g.
Proof.
  intros U. revert text g. induction turns as [|n IH]; intros text g.
  - cbn. rewrite Nat.add_0_r. repeat split.
  - cbn [nonceLoop]. pose proof (U g) as Ug.
    destruct (Math_random g) as [r g1] eqn:D. cbn [fst] in Ug.
    destruct (pick_unit r Ug) as (c & Pk & A). rewrite Pk.
    destruct (IH (text ++ String c "") g1) as (L & C & N).
    rewrite L, C, N, length_append, allChars_append. cbn [String.length allChars].
    rewrite A. split; [lia|]. split; [rewrite !andb_true_r; reflexivity|].
    rewrite Nat.iter_succ_r, D. reflexivity.
Qed.

(** X20. [getNonce] draws 32 numbers and returns 32 characters, each a
    letter or a digit, whatever [Math.random] gives, as long as it gives
    what it may: a double that is at least 0 and below 1. That the draws are
    doubles matters: for the rational 1 - 2^-60, which is below 1 and is not
    a double, the product with 62 rounds to 62 and the turn adds nothing. *)
Theorem getNonce_alphanumeric :
  (forall g : G,
      (forall g', unitFraction (fst (Math_random g'))) ->
      String.length (fst (getNonce Math_random g)) = 32%nat
      /\ allChars alphanumeric (fst (getNonce Math_random g)) = true
      /\ snd (getNonce Math_random g) = Nat.iter 32 (fun g' => snd (Math_random g')) g)
  /\ pick (JS.Finite (Qmake (2 ^ 60 - 1) (Z.to_pos (2 ^ 60)))) = "".
Proof.
  split; [|vm_compute; reflexivity].
  intros g U. unfold getNonce.
  destruct (nonceLoop_run 32 "" g U) as (L & C & N).
  rewrite L, C, N. repeat split.
Qed.

End NonceFacts.

Lemma getNonce_alphanumeric_witness :
  (forall g, unitFraction (fst (DemoRandom.draw g)))
  /\ String.length (fst (getNonce DemoRandom.draw 5)) = 32%nat
  /\ allChars alphanumeric (fst (getNonce DemoRandom.draw 5)) = true
  /\ snd (getNonce DemoRandom.draw 5)
     = Nat.iter 32 (fun g' => snd (DemoRandom.draw g')) 5.
Proof.
  assert (U : forall g, unitFraction (fst (DemoRandom.draw g))).
  { intros g. cbn. exists (g mod 64), 6.
    pose proof (Z.mod_pos_bound g 64 ltac:(lia)).
    change (2 ^ 6) with 64. change (2 ^ 53) with 9007199254740992.
    repeat split; lia. }
  split; [exact U|].
  exact (proj1 (getNonce_alphanumeric DemoRandom.draw) 5 U).
Defined.

(* ===================================================================== *)
(** ** Facts about the whole build *)
(* ===================================================================== *)

Section BuildRunFacts.

Context {World : Type} {host : Host World}.

Lemma buildTrace_commands (p : Project.t) (w : World) :
  filter isBuildCommand (buildTrace p w) = buildTrace p w.
Proof.
  unfold buildTrace. destruct (Publisher_runCompile (Project.path p) w) as [[e|] w1];
    reflexivity.
Qed.

Lemma buildLoop_run (l : list Project.t) (sys : Sys World) (fr : CompileFrame) :
  exists sys' fr',
    forEach l buildProject (sys, fr) = (Done tt, (sys', fr'))
    /\ filter isBuildCommand (events sys')
       = (filter isBuildCommand (events sys) ++ fst (fst (buildRun l (world sys))))%list
    /\ failedProjects fr' = (failedProjects fr ++ snd (fst (buildRun l (world sys))))%list
    /\ world sys' = snd (buildRun l (world sys)).
Proof.
  revert sys fr. induction l as [|p r IH]; intros sys fr.
  - exists sys, fr. cbn. rewrite !app_nil_r. repeat split.
  - cbn [forEach buildRun]. unfold bind. rewrite buildProject_run.
    destruct (skipsBuild (world sys) p).
    + destruct (IH sys (incr_successCount (set_needsBuild false fr)))
        as (sys' & fr' & R & T & F & W).
      exists sys', fr'. repeat split; assumption.
    + cbv beta iota zeta.
      match goal with
      | |- context [forEach r buildProject (?s, ?f)] =>
          destruct (IH s f) as (sys' & fr' & R & T & F & W)
      end.
      exists sys', fr'. split; [exact R|]. cbn [world events] in T, F, W.
      destruct (buildRun r (snd (buildCommands p (world sys)))) as [[commands failed] w'].
      cbn [fst snd] in *. split; [|split; [|exact W]].
      * rewrite T. rewrite filter_app. cbn [filter isBuildCommand].
        rewrite filter_app, buildTrace_commands, <- !app_assoc. f_equal. f_equal.
        destruct (fst (buildCommands p (world sys))); reflexivity.
      * rewrite F. destruct (fst (buildCommands p (world sys)));
          cbn [failedProjects push_failed incr_successCount set_needsBuild];
          [rewrite <- app_assoc|]; reflexivity.
Qed.

(** X21. With workspace folders, the build commands [runCompileAll]
    issues are, for each eligible project in the order found and on the
    machine as the projects before left it: nothing when the package file
    is there and the source folder is strictly older, and otherwise the
    compile followed, only if it succeeds, by the packaging. The names in
    [failedProjects] are those of the projects one of whose commands failed,
    in order, and the machine is left as the last command left it. *)
Theorem runCompileAll_trace (w : World) :
  workspaceFolders w = true ->
  exists sys' fr',
    runCompileAll ({| world := w; events := [] |}, compileFrame0)
    = (Done tt, (sys', fr'))
    /\ filter isBuildCommand (events sys') = fst (fst (buildRun (eligibleProjects w) w))
    /\ failedProjects fr' = snd (fst (buildRun (eligibleProjects w) w))
    /\ world sys' = snd (buildRun (eligibleProjects w) w).
Proof.
  intros Hws. unfold runCompileAll. run. cbn [world]. rewrite Hws. cbn [negb].
  match goal with
  | |- context [forEach ?fs collectProject _] => set (files := fs)
  end.
  destruct (collectLoop_run files {| world := w; events := [] |} compileFrame0)
    as (fr1 & R1 & N1 & C1 & F1).
  rewrite R1. change (nexgenProjects fr1 = eligibleProjects w) in N1.
  cbn in C1, F1. rewrite <- N1.
  destruct (nexgenProjects fr1) as [|p ps] eqn:Eps.
  - cbn. eexists; eexists; split; [reflexivity|]. cbn. rewrite F1. repeat split.
  - cbn [length Nat.eqb].
    destruct (buildLoop_run (p :: ps) {| world := w; events := [] |} fr1)
      as (sys2 & fr2 & R2 & T2 & F2 & W2).
    rewrite R2. cbn [world events filter app] in T2, F2, W2. rewrite F1 in F2.
    cbn [app] in F2.
    destruct (0 <? length (failedProjects fr2))%nat eqn:Hf; cbv beta iota zeta;
      match goal with
      | |- context [scanForSuite (?s, ?f)] =>
          destruct (scanForSuite_run s f) as (sevs & sfr & RS & Shape)
      end;
      rewrite RS; (eexists; eexists; split; [reflexivity|]);
      cbn [world events]; rewrite !filter_app, T2;
      (assert (S0 : filter isBuildCommand sevs = [])
         by (destruct Shape as [->|[suite ->]]; reflexivity));
      rewrite S0; cbn [filter isBuildCommand]; rewrite !app_nil_r;
      repeat split; assumption.
Qed.

(** X22. Without workspace folders [runCompileAll] does nothing at all.
    With workspace folders and no project that has both a publisher and a
    compile script, it shows the warning "No NexGenMeta extensions found to
    compile." and stops there: nothing is built and the suite view is not
    refreshed. *)
Theorem runCompileAll_nothing_to_do :
  (forall (sys : Sys World) (fr : CompileFrame),
      workspaceFolders (world sys) = false ->
      runCompileAll (sys, fr) = (Done tt, (sys, fr)))
  /\ (forall w : World,
      workspaceFolders w = true ->
      eligibleProjects w = [] ->
      exists fr',
        runCompileAll ({| world := w; events := [] |}, compileFrame0)
        = (Done tt,
           ({| world := w;
               events := [ShowWarningMessage "No NexGenMeta extensions found to compile."] |},
            fr'))).
Proof.
  split.
  - intros sys fr H. unfold runCompileAll. run. rewrite H. reflexivity.
  - intros w Hws He. unfold runCompileAll. run. cbn [world]. rewrite Hws. cbn [negb].
    match goal with
    | |- context [forEach ?fs collectProject _] => set (files := fs)
    end.
    destruct (collectLoop_run files {| world := w; events := [] |} compileFrame0)
      as (fr1 & R1 & N1 & _).
    rewrite R1. change (nexgenProjects fr1 = eligibleProjects w) in N1.
    rewrite He in N1. rewrite N1. cbn. exists fr1. reflexivity.
Qed.

End BuildRunFacts.

Lemma runCompileAll_trace_witness :
  workspaceFolders (Demo.suiteOfThree ["/ws/beta"]) = true
  /\ exists sys' fr',
      runCompileAll (Demo.start (Demo.suiteOfThree ["/ws/beta"]) compileFrame0)
      = (Done tt, (sys', fr'))
      /\ filter isBuildCommand (events sys') = [RunCompile "/ws/beta"]
      /\ failedProjects fr' = ["beta"]
      /\ world sys' = Demo.suiteOfThree ["/ws/beta"].
Proof.
  split; [reflexivity|].
  exact (runCompileAll_trace (Demo.suiteOfThree ["/ws/beta"]) eq_refl).
Defined.
